(** * SGX caching service (scs): a shallow embedding of the request
    validation, the PCS fetchers, the lazy-cache handlers and the TCB
    status evaluator, with the properties the specification states
    about them.

    Go values are modelled as follows: [string] is a byte string
    (a list of [ascii]); [uint8] is [byte]; [uint16], [uint32] and
    [int] values are [N] or [Z] with the truncations of the source
    written out; a Go map is a [gmap]; a function that may panic
    returns a [GoResult]; functions that talk to the repository or to
    the Intel PCS server run in the monad [M] over a [World]. *)

From Stdlib Require Import ZArith NArith Ascii String List Bool Lia.
From Stdlib Require Import Init.Byte Strings.Byte.
From stdpp Require Import base option list strings gmap fin_maps.

Local Open Scope string_scope.

(** ** Results of Go code that may panic *)

Inductive GoResult (A : Type) : Type :=
| Returns (a : A)
| Panics (msg : string).
Arguments Returns {A} a.
Arguments Panics {A} msg.

Definition nil_dereference : string :=
  "runtime error: invalid memory address or nil pointer dereference".
Definition index_out_of_range : string :=
  "runtime error: index out of range".
Definition slice_out_of_range : string :=
  "runtime error: slice bounds out of range".

(** ** Regular expressions (package regexp, the fragment the service uses) *)

Module Regexp.

(** The syntax tree of a pattern: [^], [$], a literal byte, a character
    class given by its ranges, concatenation, alternation and the counted
    repetition [r{n}].  A capture group [( r )] is its body: groups do not
    change what [MatchString] answers. *)
Inductive regex : Type :=
| Bol
| Eol
| Chr (c : ascii)
| Class (ranges : list (ascii * ascii))
| Cat (r1 r2 : regex)
| Alt (r1 r2 : regex)
| Rep (n : nat) (r : regex).

Definition in_range (a : ascii) (lohi : ascii * ascii) : bool :=
  (N_of_ascii (fst lohi) <=? N_of_ascii a)%N && (N_of_ascii a <=? N_of_ascii (snd lohi))%N.

Definition in_class (a : ascii) (ranges : list (ascii * ascii)) : bool :=
  existsb (in_range a) ranges.

(** [rmatch r pos s k]: [r] matches a prefix of [s], which starts at
    offset [pos] of the text, and the continuation [k] accepts the rest. *)
Fixpoint rmatch (r : regex) (pos : nat) (s : string) (k : nat -> string -> bool) : bool :=
  match r with
  | Bol => if Nat.eqb pos 0 then k pos s else false
  | Eol => match s with EmptyString => k pos s | String _ _ => false end
  | Chr c =>
      match s with
      | String a s' => if Ascii.eqb a c then k (S pos) s' else false
      | EmptyString => false
      end
  | Class ranges =>
      match s with
      | String a s' => if in_class a ranges then k (S pos) s' else false
      | EmptyString => false
      end
  | Cat r1 r2 => rmatch r1 pos s (fun pos' s' => rmatch r2 pos' s' k)
  | Alt r1 r2 => rmatch r1 pos s k || rmatch r2 pos s k
  | Rep n r1 =>
      (fix rep (n : nat) (pos : nat) (s : string) : bool :=
         match n with
         | O => k pos s
         | S n' => rmatch r1 pos s (fun pos' s' => rep n' pos' s')
         end) n pos s
  end.

(** The unanchored search of [MatchString]: a match may start at any
    offset of the text. *)
Fixpoint search (r : regex) (pos : nat) (s : string) : bool :=
  rmatch r pos s (fun _ _ => true)
  || match s with
     | EmptyString => false
     | String _ s' => search r (S pos) s'
     end.

Definition MatchString (r : regex) (s : string) : bool := search r 0 s.

(** Pattern builders. *)
Fixpoint lit (t : string) : regex :=
  match t with
  | EmptyString => Rep 0 Bol   (* the empty pattern *)
  | String c t' => Cat (Chr c) (lit t')
  end.

Definition anchored (r : regex) : regex := Cat Bol (Cat r Eol).

Definition hexdigit : regex :=
  Class [("0"%char, "9"%char); ("a"%char, "f"%char); ("A"%char, "F"%char)].

End Regexp.
Import Regexp.

(** ** constants *)

Module constants.
Definition EncPPID_Key : string := "encrypted_ppid".
Definition CpuSvn_Key : string := "cpu_svn".
Definition PceSvn_Key : string := "pce_svn".
Definition PceId_Key : string := "pce_id".
Definition QeId_Key : string := "qe_id".
Definition Ca_Key : string := "ca".
Definition Type_Key : string := "type".
Definition Ca_Processor : string := "processor".
Definition Fmspc_Key : string := "fmspc".
Definition Type_Refresh_Cert : string := "certs".
Definition Type_Refresh_Tcb : string := "tcbs".
Definition MaxTcbLevels : nat := 16.
Definition HostDataUpdaterGroupName : string := "HostDataUpdater".
Definition HostDataReaderGroupName : string := "HostDataReader".
Definition CacheManagerGroupName : string := "CacheManager".
Definition EncodingValue : string := "der".

Inductive CacheType : Type := CacheInsert | CacheRefresh.
End constants.

(** ** resource/validation.go *)

Definition regExList : list (string * regex) :=
  [ (constants.EncPPID_Key, anchored (Rep 768 hexdigit));
    (constants.CpuSvn_Key, anchored (Rep 32 hexdigit));
    (constants.PceSvn_Key, anchored (Rep 4 hexdigit));
    (constants.PceId_Key, anchored (Rep 4 hexdigit));
    (constants.Ca_Key, anchored (lit "processor"));
    (constants.Type_Key, anchored (lit "certs"));
    (constants.Fmspc_Key, anchored (Rep 12 hexdigit));
    (constants.QeId_Key, anchored (Rep 32 hexdigit)) ].

Definition regExMap : gmap string regex := list_to_map regExList.

(** [regExMap[key]] is nil for a key that is not in the map, and
    the method [MatchString] called on nil dereferences it.  The [||] of the source
    evaluates its right operand only when [len(key) > 0]. *)
Definition ValidateInputString (key inString : string) : GoResult bool :=
  let regEx := regExMap !! key in
  if (String.length key <=? 0)%nat then Returns false
  else
    match regEx with
    | None => Panics nil_dereference
    | Some re =>
        if negb (MatchString re inString) then Returns false else Returns true
    end.

(** The pattern the specification gives for the [ca] field,
    [^(processor|platform)$]. *)
Definition spec_ca_pattern : regex :=
  anchored (Alt (lit "processor") (lit "platform")).

(** The strings the hexadecimal patterns describe: every byte is in
    [[0-9a-fA-F]]. *)
Definition is_hex_digit (c : ascii) : bool :=
  in_class c [("0"%char, "9"%char); ("a"%char, "f"%char); ("A"%char, "F"%char)].

Definition all_hex (s : string) : bool :=
  forallb is_hex_digit (list_ascii_of_string s).

(** The width each hexadecimal field of [regExMap] asks for. *)
Definition hexFieldWidths : list (string * nat) :=
  [ (constants.EncPPID_Key, 768%nat); (constants.CpuSvn_Key, 32%nat);
    (constants.PceSvn_Key, 4%nat); (constants.PceId_Key, 4%nat);
    (constants.Fmspc_Key, 12%nat); (constants.QeId_Key, 32%nat) ].

(** ** encoding/hex, strconv and encoding/binary, as far as the service uses them *)

Definition fromHexChar (c : ascii) : option N :=
  let n := N_of_ascii c in
  if (48 <=? n)%N && (n <=? 57)%N then Some (n - 48)%N
  else if (97 <=? n)%N && (n <=? 102)%N then Some (n - 87)%N
  else if (65 <=? n)%N && (n <=? 70)%N then Some (n - 55)%N
  else None.

Definition byte_of_N (n : N) : byte :=
  match Byte.of_N n with Some b => b | None => Byte.x00 end.

(** [hex.DecodeString]: [None] stands for its error (a byte that is not a
    hexadecimal digit, or an odd length). *)
Fixpoint hex_DecodeString (s : string) : option (list byte) :=
  match s with
  | EmptyString => Some []
  | String _ EmptyString => None
  | String a (String b rest) =>
      match fromHexChar a, fromHexChar b, hex_DecodeString rest with
      | Some hi, Some lo, Some l => Some (byte_of_N (16 * hi + lo) :: l)
      | _, _, _ => None
      end
  end.

Fixpoint parse_hex_digits (acc : N) (s : string) : option N :=
  match s with
  | EmptyString => Some acc
  | String c s' =>
      match fromHexChar c with
      | Some d => parse_hex_digits (16 * acc + d) s'
      | None => None
      end
  end.

(** [strconv.ParseUint(s, 16, 32)]: [None] stands for its error (empty
    input, a byte that is not a digit of the base, or a value that does not
    fit 32 bits). *)
Definition ParseUint_16_32 (s : string) : option N :=
  match s with
  | EmptyString => None
  | _ =>
      match parse_hex_digits 0 s with
      | Some v => if (v <? 2 ^ 32)%N then Some v else None
      | None => None
      end
  end.

(** The slice expressions [b[:n]] and [b[n:]] on a slice whose capacity is
    its length, and [binary.LittleEndian.Uint16]. *)
Definition slice_to (n : nat) (b : list byte) : GoResult (list byte) :=
  if (n <=? length b)%nat then Returns (firstn n b) else Panics slice_out_of_range.

Definition slice_from (n : nat) (b : list byte) : GoResult (list byte) :=
  if (n <=? length b)%nat then Returns (skipn n b) else Panics slice_out_of_range.

Definition LittleEndian_Uint16 (b : list byte) : GoResult N :=
  match b with
  | b0 :: b1 :: _ => Returns (N.lor (Byte.to_N b0) (N.shiftl (Byte.to_N b1) 8))
  | _ => Panics index_out_of_range
  end.

(** ** The structs of resource/platform_ops *)

Record Response : Type := mkResponse { Status : string; Message : string }.

Module PlatformInfo.
Record t : Type := mk {
  EncPpid : string;   (* json:"enc_ppid" *)
  CPUSvn : string;    (* json:"cpu_svn" *)
  PceSvn : string;    (* json:"pce_svn" *)
  PceID : string;     (* json:"pce_id" *)
  QeID : string;      (* json:"qe_id" *)
  Manifest : string   (* json:"manifest" *)
}.
Definition zero : t := mk "" "" "" "" "" "".
End PlatformInfo.

Module TcbLevels.
Record t : Type := mk {
  SgxTcbComp01Svn : byte; SgxTcbComp02Svn : byte; SgxTcbComp03Svn : byte;
  SgxTcbComp04Svn : byte; SgxTcbComp05Svn : byte; SgxTcbComp06Svn : byte;
  SgxTcbComp07Svn : byte; SgxTcbComp08Svn : byte; SgxTcbComp09Svn : byte;
  SgxTcbComp10Svn : byte; SgxTcbComp11Svn : byte; SgxTcbComp12Svn : byte;
  SgxTcbComp13Svn : byte; SgxTcbComp14Svn : byte; SgxTcbComp15Svn : byte;
  SgxTcbComp16Svn : byte;
  PceSvn : N          (* uint16 *)
}.
End TcbLevels.

Module TcbLevelsType.
Record t : Type := mk {
  Tcb : TcbLevels.t;
  TcbDate : string;
  TcbStatus : string
}.
End TcbLevelsType.

Module TcbInfoType.
Record t : Type := mk {
  Version : Z;
  IssueDate : string;
  NextUpdate : string;
  Fmspc : string;
  PceID : string;
  TcbType : Z;
  TcbEvaluationDataNumber : Z;
  TcbLevels : list TcbLevelsType.t
}.
End TcbInfoType.

Module TcbInfoJSON.
Record t : Type := mk {
  TcbInfo : TcbInfoType.t;
  Signature : string
}.
End TcbInfoJSON.

Module PckCertsInfo.
Record t : Type := mk {
  Tcb : TcbLevels.t;
  Tcbm : string;
  Cert : string
}.
End PckCertsInfo.

(** ** types: the rows of the repository.  [CreatedTime] and [UpdatedTime]
    are left out: nothing below reads them. *)

Module types.

Module Platform.
Record t : Type := mk {
  Encppid : string;
  CPUSvn : string;
  PceSvn : string;
  PceID : string;
  QeID : string;       (* primary key *)
  Fmspc : string;
  Manifest : string
}.
End Platform.

Module PlatformTcb.
Record t : Type := mk {
  QeID : string;       (* primary key *)
  PceID : string;
  CPUSvn : string;
  PceSvn : string;
  Tcbm : string
}.
End PlatformTcb.

Module PckCertChain.
Record t : Type := mk { PckCertChain : string }.
End PckCertChain.

Module PckCert.
Record t : Type := mk {
  QeID : string;       (* primary key *)
  PceID : string;
  Fmspc : string;
  CertIndex : N;       (* uint8 *)
  PckCerts : list string;
  Tcbms : list string
}.
End PckCert.

Module PckCrl.
Record t : Type := mk {
  Ca : string;         (* primary key *)
  PckCrl : string;
  PckCrlCertChain : string
}.
End PckCrl.

Module FmspcTcbInfo.
Record t : Type := mk {
  Fmspc : string;      (* primary key *)
  TcbInfo : string;
  TcbInfoIssuerChain : string
}.
End FmspcTcbInfo.

Module QEIdentity.
Record t : Type := mk {
  QeInfo : string;
  QeIssuerChain : string
}.
End QEIdentity.

End types.
Import types.

(** ** The three-way comparison of TCB components *)

Inductive TcbCompare : Type :=
| Error            (* iota 0 *)
| EqualOrGreater   (* 1 *)
| Lower            (* 2 *)
| Undefined.       (* 3 *)

Definition TcbCompare_eqb (a b : TcbCompare) : bool :=
  match a, b with
  | Error, Error | EqualOrGreater, EqualOrGreater
  | Lower, Lower | Undefined, Undefined => true
  | _, _ => false
  end.

(** One round of the loop over [i]: both tests of the body, on the flags
    [(leftLower, rightLower)].  The index is in range, both slices having
    [MaxTcbLevels] elements when the loop runs. *)
Definition compareStep (pckComponents tcbComponents : list byte)
    (flags : bool * bool) (i : nat) : bool * bool :=
  let p := Byte.to_N (nth i pckComponents Byte.x00) in
  let t := Byte.to_N (nth i tcbComponents Byte.x00) in
  let leftLower := if (p <? t)%N then true else fst flags in
  let rightLower := if (t <? p)%N then true else snd flags in
  (leftLower, rightLower).

Definition compareTcbComponents (pckComponents : list byte) (pckpcesvn : N)
    (tcbComponents : list byte) (tcbpcesvn : N) : TcbCompare :=
  let leftLower := false in
  let rightLower := false in
  if negb (length pckComponents =? constants.MaxTcbLevels)%nat
     || negb (length tcbComponents =? constants.MaxTcbLevels)%nat
  then Error
  else
    let leftLower := if (pckpcesvn <? tcbpcesvn)%N then true else leftLower in
    let rightLower := if (tcbpcesvn <? pckpcesvn)%N then true else rightLower in
    let flags :=
      fold_left (compareStep pckComponents tcbComponents)
                (seq 0 constants.MaxTcbLevels) (leftLower, rightLower) in
    if fst flags && snd flags then Undefined
    else if fst flags then Lower
    else EqualOrGreater.

Definition getTcbCompList (tcbLevelList : TcbLevels.t) : list byte :=
  [ TcbLevels.SgxTcbComp01Svn tcbLevelList; TcbLevels.SgxTcbComp02Svn tcbLevelList;
    TcbLevels.SgxTcbComp03Svn tcbLevelList; TcbLevels.SgxTcbComp04Svn tcbLevelList;
    TcbLevels.SgxTcbComp05Svn tcbLevelList; TcbLevels.SgxTcbComp06Svn tcbLevelList;
    TcbLevels.SgxTcbComp07Svn tcbLevelList; TcbLevels.SgxTcbComp08Svn tcbLevelList;
    TcbLevels.SgxTcbComp09Svn tcbLevelList; TcbLevels.SgxTcbComp10Svn tcbLevelList;
    TcbLevels.SgxTcbComp11Svn tcbLevelList; TcbLevels.SgxTcbComp12Svn tcbLevelList;
    TcbLevels.SgxTcbComp13Svn tcbLevelList; TcbLevels.SgxTcbComp14Svn tcbLevelList;
    TcbLevels.SgxTcbComp15Svn tcbLevelList; TcbLevels.SgxTcbComp16Svn tcbLevelList ].

(** The comparison of the selected certificate with one TCB level, as the
    loop of [getTcbStatus] calls it. *)
Definition compareLevel (pckComponents : list byte) (pckPceSvn : N)
    (level : TcbLevelsType.t) : TcbCompare :=
  let tcbPceSvn := TcbLevels.PceSvn (TcbLevelsType.Tcb level) in
  let tcbComponents := getTcbCompList (TcbLevelsType.Tcb level) in
  compareTcbComponents pckComponents pckPceSvn tcbComponents tcbPceSvn.

(** The loop of [getTcbStatus] over the TCB levels: [status] keeps its zero
    value [""] unless a level compares [EqualOrGreater], and the loop breaks
    at the first such level. *)
Fixpoint tcbLevelStatus (pckComponents : list byte) (pckPceSvn : N)
    (levels : list TcbLevelsType.t) : string :=
  match levels with
  | [] => ""
  | level :: rest =>
      if TcbCompare_eqb (compareLevel pckComponents pckPceSvn level) EqualOrGreater
      then TcbLevelsType.TcbStatus level
      else tcbLevelStatus pckComponents pckPceSvn rest
  end.

Definition tcbVerdict (status : string) : Response :=
  if String.eqb status "UpToDate" || String.eqb status "ConfigurationNeeded"
  then mkResponse "true" "TCB Status is UpToDate"
  else mkResponse "false" "TCB Status is not UpToDate".

(** What the specification says of the two flags of the comparison. *)
Definition left_lower (pck : list byte) (pckPceSvn : N) (tcb : list byte) (tcbPceSvn : N) : Prop :=
  (pckPceSvn < tcbPceSvn)%N
  \/ exists i p t, pck !! i = Some p /\ tcb !! i = Some t /\ (Byte.to_N p < Byte.to_N t)%N.

Definition right_lower (pck : list byte) (pckPceSvn : N) (tcb : list byte) (tcbPceSvn : N) : Prop :=
  (tcbPceSvn < pckPceSvn)%N
  \/ exists i p t, pck !! i = Some p /\ tcb !! i = Some t /\ (Byte.to_N t < Byte.to_N p)%N.

(** What the specification says of a TCB level and of a match: the level
    carries sixteen bytes [sgxtcbcompNNsvn], numbered 01 to 16, and a
    [pcesvn]; the certificate is lower when one of its bytes is below the
    byte of the same number, or its PCE-SVN is below the [pcesvn]; the
    comparison of two vectors of 16 yields EqualOrGreater when the
    certificate is not lower. *)
Definition spec_sgxtcbcompsvn (n : nat) (tcb : TcbLevels.t) : option byte :=
  match n with
  | 1 => Some (TcbLevels.SgxTcbComp01Svn tcb) | 2 => Some (TcbLevels.SgxTcbComp02Svn tcb)
  | 3 => Some (TcbLevels.SgxTcbComp03Svn tcb) | 4 => Some (TcbLevels.SgxTcbComp04Svn tcb)
  | 5 => Some (TcbLevels.SgxTcbComp05Svn tcb) | 6 => Some (TcbLevels.SgxTcbComp06Svn tcb)
  | 7 => Some (TcbLevels.SgxTcbComp07Svn tcb) | 8 => Some (TcbLevels.SgxTcbComp08Svn tcb)
  | 9 => Some (TcbLevels.SgxTcbComp09Svn tcb) | 10 => Some (TcbLevels.SgxTcbComp10Svn tcb)
  | 11 => Some (TcbLevels.SgxTcbComp11Svn tcb) | 12 => Some (TcbLevels.SgxTcbComp12Svn tcb)
  | 13 => Some (TcbLevels.SgxTcbComp13Svn tcb) | 14 => Some (TcbLevels.SgxTcbComp14Svn tcb)
  | 15 => Some (TcbLevels.SgxTcbComp15Svn tcb) | 16 => Some (TcbLevels.SgxTcbComp16Svn tcb)
  | _ => None
  end%nat.

Definition spec_pck_lower (pckComponents : list byte) (pckPceSvn : N)
    (level : TcbLevelsType.t) : Prop :=
  (pckPceSvn < TcbLevels.PceSvn (TcbLevelsType.Tcb level))%N
  \/ exists i p t,
       pckComponents !! i = Some p
       /\ spec_sgxtcbcompsvn (S i) (TcbLevelsType.Tcb level) = Some t
       /\ (Byte.to_N p < Byte.to_N t)%N.

Definition spec_EqualOrGreater (pckComponents : list byte) (pckPceSvn : N)
    (level : TcbLevelsType.t) : Prop :=
  length pckComponents = 16%nat /\ ~ spec_pck_lower pckComponents pckPceSvn level.

(** ** HTTP values *)

Inductive error : Type :=
| plainError (msg : string)                          (* errors.New *)
| resourceError (Message : string) (StatusCode : Z). (* &resourceError{...} *)

Module http.
Definition StatusOK : Z := 200.
Definition StatusCreated : Z := 201.
Definition StatusBadRequest : Z := 400.
Definition StatusNotFound : Z := 404.
Definition StatusInternalServerError : Z := 500.

(** An incoming request: the body is the JSON object it carries, given by
    its members (name and string value) in order; [Query] is
    [r.URL.Query()]. *)
Record Request : Type := mkRequest {
  ContentLength : Z;
  Body : list (string * string);
  Query : list (string * string);
  RemoteAddr : string
}.

(** A response of the PCS server: [RespBody] is what [ioutil.ReadAll]
    gives, [None] when reading fails.  [Header] maps a canonical header
    name to its first value. *)
Record Response : Type := mkResponse {
  StatusCode : Z;
  RespContentLength : Z;
  Header : gmap string string;
  RespBody : option string
}.

(** [Header.Get]: the empty string when the header is missing. *)
Definition Header_Get (h : gmap string string) (name : string) : string :=
  default "" (h !! name).

Definition Query_Get (q : list (string * string)) (name : string) : string :=
  match List.find (fun kv => String.eqb (fst kv) name) q with
  | Some kv => snd kv
  | None => ""
  end.
End http.

(** What a handler did.  [Replied status body]: it set the status with
    [WriteHeader] and handed the JSON body to [w.Write]; what it returns
    after that (nil, or an error with status 500 when [json.Marshal] or
    [w.Write] fails) is not part of the result.  [ReturnedError e]: it
    returned [e] without writing a reply. *)
Inductive HandlerResult : Type :=
| Replied (StatusCode : Z) (body : Response)
| ReturnedError (e : error).

(** ** The repository and the world the handlers run in *)

Record SCSDatabase : Type := mkDB {
  platforms : gmap string Platform.t;
  platform_tcbs : gmap string PlatformTcb.t;
  pck_cert_chain : option PckCertChain.t;
  pck_certs : gmap string PckCert.t;
  pck_crls : gmap string PckCrl.t;
  fmspc_tcb_infos : gmap string FmspcTcbInfo.t;
  qe_identity : option QEIdentity.t
}.

Definition emptyDB : SCSDatabase := mkDB ∅ ∅ None ∅ ∅ ∅ None.

(** A request handed to the upstream client: one call of a client helper. *)
Inductive PcsRequest : Type :=
| GetPckCerts (encrypted_ppid pceid : string)
| GetPckCertsWithManifest (platform_manifest pceid : string)
| GetPckCrl (ca encoding : string)
| GetTcb (fmspc : string)
| GetQeIdentity.

(** The world: the repository, and the requests handed to the upstream
    client so far, one for each call of a client helper, oldest first. *)
Record World : Type := mkWorld {
  db : SCSDatabase;
  pcs_requests : list PcsRequest
}.

Inductive Outcome (A : Type) : Type :=
| Done (a : A) (w : World)           (* returned [a] with a nil error *)
| Failed (err : string) (w : World)  (* returned a non-nil error *)
| Panicked (msg : string) (w : World).
Arguments Done {A} a w.
Arguments Failed {A} err w.
Arguments Panicked {A} msg w.

Definition M (A : Type) : Type := World -> Outcome A.

#[global] Instance M_ret : MRet M := fun A a w => Done a w.
#[global] Instance M_bind : MBind M := fun A B f m w =>
  match m w with
  | Done a w' => f a w'
  | Failed e w' => Failed e w'
  | Panicked msg w' => Panicked msg w'
  end.

Definition fail {A : Type} (err : string) : M A := fun w => Failed err w.
Definition panic {A : Type} (msg : string) : M A := fun w => Panicked msg w.
Definition getDB : M SCSDatabase := fun w => Done (db w) w.
Definition putDB (d : SCSDatabase) : M unit :=
  fun w => Done tt (mkWorld d (pcs_requests w)).

(** [v, err := m]: the error is a value the caller looks at. *)
Definition try {A : Type} (m : M A) : M (string + A) := fun w =>
  match m w with
  | Done a w' => Done (inr a) w'
  | Failed e w' => Done (inl e) w'
  | Panicked msg w' => Panicked msg w'
  end.

Definition liftGo {A : Type} (r : GoResult A) : M A :=
  match r with
  | Returns a => mret a
  | Panics msg => panic msg
  end.

(** [a || b] on results that may panic: [b] is not evaluated when [a] is true. *)
Definition go_or (a b : GoResult bool) : GoResult bool :=
  match a with
  | Returns true => Returns true
  | Returns false => b
  | Panics msg => Panics msg
  end.

Definition go_not (a : GoResult bool) : GoResult bool :=
  match a with
  | Returns v => Returns (negb v)
  | Panics msg => Panics msg
  end.

(** The world a computation leaves behind, whatever its outcome, and the
    frame condition "the part [proj] of the repository is left as it was". *)
Definition outcome_world {A : Type} (o : Outcome A) : World :=
  match o with
  | Done _ w => w
  | Failed _ w => w
  | Panicked _ w => w
  end.

Definition keeps {A X : Type} (proj : SCSDatabase -> X) (m : M A) : Prop :=
  forall w, proj (db (outcome_world (m w))) = proj (db w).

Definition mapErr {A : Type} (f : string -> string) (m : M A) : M A := fun w =>
  match m w with
  | Failed e w' => Failed (f e) w'
  | o => o
  end.

(** ** repository/postgres: the gorm calls of the repositories, on a table
    keyed by its primary key.  The database is taken to be reachable: a call
    fails only when the primary key constraint refuses it. *)

(** [db.Create(&p)]: an INSERT, which the primary key constraint refuses
    when the key is taken. *)
Definition gorm_Create {T : Type} (key : string) (row : T) (tbl : gmap string T)
    : option (gmap string T) :=
  match tbl !! key with
  | Some _ => None
  | None => Some (<[key := row]> tbl)
  end.

(** [db.Save(&u)]: an UPDATE by primary key, followed by an insert when no
    row was updated; a plain INSERT when the primary key has its zero value. *)
Definition gorm_Save {T : Type} (key : string) (row : T) (tbl : gmap string T)
    : option (gmap string T) :=
  if decide (key = "") then gorm_Create key row tbl
  else Some (<[key := row]> tbl).

Definition least_key_row {T : Type} (tbl : gmap string T) : option T :=
  snd <$>
    fold_right
      (fun kv acc =>
         match acc with
         | None => Some kv
         | Some kv' => if String.ltb (fst kv) (fst kv') then Some kv else Some kv'
         end)
      None (map_to_list tbl).

(** [db.Where(&p).First(&p)] with a filter struct that has only its primary
    key set: gorm leaves zero-valued fields out of the condition, so an
    empty key selects the first row in primary key order. *)
Definition gorm_First {T : Type} (key : string) (tbl : gmap string T) : option T :=
  if decide (key = "") then least_key_row tbl else tbl !! key.

(** [db.Find(&rows)]: all rows, in the order the database returns them. *)
Definition gorm_Find {T : Type} (tbl : gmap string T) : list T :=
  (map_to_list tbl).*2.

(** [db.Delete(&u)]: a DELETE by primary key; with a zero-valued primary
    key the statement has no condition and removes every row.  Removing no
    row is not an error. *)
Definition gorm_Delete {T : Type} (key : string) (tbl : gmap string T) : gmap string T :=
  if decide (key = "") then ∅ else delete key tbl.

Definition set_platforms (t : gmap string Platform.t) (d : SCSDatabase) : SCSDatabase :=
  mkDB t (platform_tcbs d) (pck_cert_chain d) (pck_certs d) (pck_crls d)
       (fmspc_tcb_infos d) (qe_identity d).
Definition set_platform_tcbs (t : gmap string PlatformTcb.t) (d : SCSDatabase) : SCSDatabase :=
  mkDB (platforms d) t (pck_cert_chain d) (pck_certs d) (pck_crls d)
       (fmspc_tcb_infos d) (qe_identity d).
Definition set_pck_cert_chain (t : option PckCertChain.t) (d : SCSDatabase) : SCSDatabase :=
  mkDB (platforms d) (platform_tcbs d) t (pck_certs d) (pck_crls d)
       (fmspc_tcb_infos d) (qe_identity d).
Definition set_pck_certs (t : gmap string PckCert.t) (d : SCSDatabase) : SCSDatabase :=
  mkDB (platforms d) (platform_tcbs d) (pck_cert_chain d) t (pck_crls d)
       (fmspc_tcb_infos d) (qe_identity d).
Definition set_pck_crls (t : gmap string PckCrl.t) (d : SCSDatabase) : SCSDatabase :=
  mkDB (platforms d) (platform_tcbs d) (pck_cert_chain d) (pck_certs d) t
       (fmspc_tcb_infos d) (qe_identity d).
Definition set_fmspc_tcb_infos (t : gmap string FmspcTcbInfo.t) (d : SCSDatabase) : SCSDatabase :=
  mkDB (platforms d) (platform_tcbs d) (pck_cert_chain d) (pck_certs d) (pck_crls d)
       t (qe_identity d).
Definition set_qe_identity (t : option QEIdentity.t) (d : SCSDatabase) : SCSDatabase :=
  mkDB (platforms d) (platform_tcbs d) (pck_cert_chain d) (pck_certs d) (pck_crls d)
       (fmspc_tcb_infos d) t.

(** A write to a table: the new table is stored, or the call fails and the
    repository is as before. *)
Definition writeTable {T : Type} (set : gmap string T -> SCSDatabase -> SCSDatabase)
    (res : option (gmap string T)) (msg : string) : M unit :=
  match res with
  | Some t => d ← getDB; putDB (set t d)
  | None => fail msg
  end.

Module PlatformRepository.
Definition Create (p : Platform.t) : M Platform.t :=
  d ← getDB;
  writeTable set_platforms (gorm_Create (Platform.QeID p) p (platforms d))
             "create: failed to create Platform";;
  mret p.
(** The filter struct has only [QeID] set at every call. *)
Definition Retrieve (qeID : string) : M (option Platform.t) :=
  d ← getDB; mret (gorm_First qeID (platforms d)).
Definition RetrieveAll : M (list Platform.t) :=
  d ← getDB; mret (gorm_Find (platforms d)).
Definition Update (u : Platform.t) : M unit :=
  d ← getDB;
  writeTable set_platforms (gorm_Save (Platform.QeID u) u (platforms d))
             "Update: failed to update Platform".
Definition Delete (u : Platform.t) : M unit :=
  d ← getDB; putDB (set_platforms (gorm_Delete (Platform.QeID u) (platforms d)) d).
End PlatformRepository.

Module PlatformTcbRepository.
Definition Create (p : PlatformTcb.t) : M PlatformTcb.t :=
  d ← getDB;
  writeTable set_platform_tcbs (gorm_Create (PlatformTcb.QeID p) p (platform_tcbs d))
             "create: failed to create PlatformTcb";;
  mret p.
Definition Update (u : PlatformTcb.t) : M unit :=
  d ← getDB;
  writeTable set_platform_tcbs (gorm_Save (PlatformTcb.QeID u) u (platform_tcbs d))
             "Update: failed to update PlatformTcb".
Definition Retrieve (qeID : string) : M (option PlatformTcb.t) :=
  d ← getDB; mret (gorm_First qeID (platform_tcbs d)).
Definition RetrieveAll : M (list PlatformTcb.t) :=
  d ← getDB; mret (gorm_Find (platform_tcbs d)).
Definition Delete (u : PlatformTcb.t) : M unit :=
  d ← getDB;
  putDB (set_platform_tcbs (gorm_Delete (PlatformTcb.QeID u) (platform_tcbs d)) d).
End PlatformTcbRepository.

(** Modelled from the spec: the repositories of PckCert, PckCrl,
    FmspcTcbInfo, PckCertChain and QEIdentity, whose implementations are not
    among the sources.  The specification gives each entity [Create],
    [Retrieve(filter) -> e | NotFound], [RetrieveAll] and [Update], keyed by
    QE-ID, CA-type and FMSPC, and makes PckCertChain and QEIdentity
    singletons; the keyed ones are written like the Platform repository. *)
Module PckCertRepository.
Definition Create (p : PckCert.t) : M PckCert.t :=
  d ← getDB;
  writeTable set_pck_certs (gorm_Create (PckCert.QeID p) p (pck_certs d))
             "create: failed to create PckCert";;
  mret p.
Definition Retrieve (qeID : string) : M (option PckCert.t) :=
  d ← getDB; mret (gorm_First qeID (pck_certs d)).
Definition Update (u : PckCert.t) : M unit :=
  d ← getDB;
  writeTable set_pck_certs (gorm_Save (PckCert.QeID u) u (pck_certs d))
             "Update: failed to update PckCert".
End PckCertRepository.

Module PckCrlRepository.
Definition Create (p : PckCrl.t) : M PckCrl.t :=
  d ← getDB;
  writeTable set_pck_crls (gorm_Create (PckCrl.Ca p) p (pck_crls d))
             "create: failed to create PckCrl";;
  mret p.
Definition Retrieve (ca : string) : M (option PckCrl.t) :=
  d ← getDB; mret (gorm_First ca (pck_crls d)).
Definition RetrieveAll : M (list PckCrl.t) :=
  d ← getDB; mret (gorm_Find (pck_crls d)).
Definition Update (u : PckCrl.t) : M unit :=
  d ← getDB;
  writeTable set_pck_crls (gorm_Save (PckCrl.Ca u) u (pck_crls d))
             "Update: failed to update PckCrl".
End PckCrlRepository.

Module FmspcTcbInfoRepository.
Definition Create (p : FmspcTcbInfo.t) : M FmspcTcbInfo.t :=
  d ← getDB;
  writeTable set_fmspc_tcb_infos
             (gorm_Create (FmspcTcbInfo.Fmspc p) p (fmspc_tcb_infos d))
             "create: failed to create FmspcTcbInfo";;
  mret p.
Definition Retrieve (fmspc : string) : M (option FmspcTcbInfo.t) :=
  d ← getDB; mret (gorm_First fmspc (fmspc_tcb_infos d)).
Definition RetrieveAll : M (list FmspcTcbInfo.t) :=
  d ← getDB; mret (gorm_Find (fmspc_tcb_infos d)).
Definition Update (u : FmspcTcbInfo.t) : M unit :=
  d ← getDB;
  writeTable set_fmspc_tcb_infos
             (gorm_Save (FmspcTcbInfo.Fmspc u) u (fmspc_tcb_infos d))
             "Update: failed to update FmspcTcbInfo".
End FmspcTcbInfoRepository.

Module PckCertChainRepository.
Definition Create (p : PckCertChain.t) : M PckCertChain.t :=
  d ← getDB; putDB (set_pck_cert_chain (Some p) d);; mret p.
Definition Update (u : PckCertChain.t) : M unit :=
  d ← getDB; putDB (set_pck_cert_chain (Some u) d).
End PckCertChainRepository.

Module QEIdentityRepository.
Definition Create (p : QEIdentity.t) : M QEIdentity.t :=
  d ← getDB; putDB (set_qe_identity (Some p) d);; mret p.
Definition Retrieve : M (option QEIdentity.t) :=
  d ← getDB; mret (qe_identity d).
Definition Update (u : QEIdentity.t) : M unit :=
  d ← getDB; putDB (set_qe_identity (Some u) d).
End QEIdentityRepository.

(** ** repository/postgres/pg_database.go: opening the database *)

Module postgres.

(** What [Open] did: the result of the last [gorm.Open], the number of
    attempts, and the seconds spent in [time.Sleep]. *)
Record Opened (DB : Type) : Type := mkOpened {
  result : string + DB;
  attempts : nat;
  slept : Z
}.
Arguments mkOpened {DB} result attempts slept.
Arguments result {DB} o.
Arguments attempts {DB} o.
Arguments slept {DB} o.

Definition numAttempts : nat := 4.
Definition retryTime : Z := 5.

Section Open.

(** [strings.ToLower], [strings.TrimSpace] and the [%d] of [fmt.Sprintf] are
    those of the Go library; [gorm_Open i dsn] is the [i]-th call of
    [gorm.Open("postgres", dsn)], counted from 0. *)
Variables (ToLower TrimSpace : string -> string) (FormatInt : Z -> string).
Variable DB : Type.
Variable gorm_Open : nat -> string -> string + DB.

(** The SSL mode [Open] connects with. *)
Definition Open_sslMode (sslMode : string) : string :=
  let sslMode := TrimSpace (ToLower sslMode) in
  if negb (String.eqb sslMode "allow") && negb (String.eqb sslMode "prefer")
     && negb (String.eqb sslMode "require") && negb (String.eqb sslMode "verify-ca")
  then "verify-full"
  else sslMode.

(** The SSL mode [VerifyConnection] connects with. *)
Definition VerifyConnection_sslMode (sslMode : string) : string :=
  let sslMode := TrimSpace (ToLower sslMode) in
  if negb (String.eqb sslMode "disable") && negb (String.eqb sslMode "require")
     && negb (String.eqb sslMode "allow") && negb (String.eqb sslMode "prefer")
     && negb (String.eqb sslMode "verify-ca") && negb (String.eqb sslMode "verify-full")
  then "require"
  else sslMode.

Definition sslCertParams (sslMode sslCert : string) : string :=
  if String.eqb sslMode "verify-ca" || String.eqb sslMode "verify-full"
  then " sslrootcert=" ++ sslCert
  else "".

Definition connectionString (host : string) (port : Z) (dbname user password : string)
    (sslMode sslCertParams : string) : string :=
  "host=" ++ host ++ " port=" ++ FormatInt port ++ " user=" ++ user
  ++ " dbname=" ++ dbname ++ " password=" ++ password
  ++ " sslmode=" ++ sslMode ++ sslCertParams.

(** The loop of [Open]: [remaining] rounds are left, [i] attempts were made
    and all failed, the last one with [dbErr]. *)
Fixpoint connectLoop (dsn : string) (remaining : nat) (i : nat) (dbErr : string + DB)
    : Opened DB :=
  match remaining with
  | O => mkOpened dbErr i (retryTime * Z.of_nat i)
  | S remaining' =>
      match gorm_Open i dsn with
      | inr db => mkOpened (inr db) (S i) (retryTime * Z.of_nat i)   (* break *)
      | inl err => connectLoop dsn remaining' (S i) (inl err)         (* sleep *)
      end
  end.

Definition Open (host : string) (port : Z) (dbname user password sslMode sslCert : string)
    : Opened DB :=
  let sslMode := Open_sslMode sslMode in
  let sslCertParams := sslCertParams sslMode sslCert in
  connectLoop (connectionString host port dbname user password sslMode sslCertParams)
              numAttempts 0 (inl "").

(** [VerifyConnection]: one attempt, the error of which is returned. *)
Definition VerifyConnection (host : string) (port : Z)
    (dbname user password sslMode sslCert : string) : option string :=
  let sslMode := VerifyConnection_sslMode sslMode in
  let sslCertParams := sslCertParams sslMode sslCert in
  match gorm_Open 0 (connectionString host port dbname user password sslMode sslCertParams) with
  | inl dbErr => Some dbErr
  | inr _ => None
  end.

End Open.

End postgres.

(** ** resource/lazy_cache_ops.go, in the form that returns the stored rows *)

Module lazy_cache_ops.

Section QEIdentity.

(** [FetchQEIdentityInfo] and [CacheQEIdentityInfo] work on the [SgxData]
    they are handed a pointer to; [RetrieveAll] of the QEIdentity repository
    gives its rows (nil or not) and its error (nil or not). *)
Variable SgxData : Type.
Variable zeroSgxData : SgxData.
Variable FetchQEIdentityInfo : SgxData -> M SgxData.
Variable CacheQEIdentityInfo : SgxData -> M SgxData.
Variable RetrieveAll : M (option (list QEIdentity.t) * option string).

(** The error of the last step is built from [err.Error()] in the branch
    where [err] is nil. *)
Definition GetLazyCacheQEIdentityInfo : M (option (list QEIdentity.t)) :=
  data ← mapErr (fun e => "FetchQEIdentityInfo:" ++ e) (FetchQEIdentityInfo zeroSgxData);
  data ← mapErr (fun e => "CacheQEIdentityInfo:" ++ e) (CacheQEIdentityInfo data);
  '(existingQeInfo, err) ← RetrieveAll;
  match existingQeInfo, err with
  | None, None => panic nil_dereference
  | _, _ => mret existingQeInfo
  end.

End QEIdentity.

End lazy_cache_ops.

(** ** Sample values: a platform, its requests, and a PCS server *)

Module Samples.

Fixpoint zeros (n : nat) : string :=
  match n with
  | O => EmptyString
  | S n' => String "0"%char (zeros n')
  end.

Definition enc_ppid : string := zeros 768.
Definition cpu_svn : string := zeros 32.
Definition qe_id : string := "0123456789abcdef0123456789abcdef".
Definition fmspc : string := "00906ea10000".

Definition push_body : list (string * string) :=
  [ ("enc_ppid", enc_ppid); ("cpu_svn", cpu_svn); ("pce_svn", "0100");
    ("pce_id", "0000"); ("qe_id", qe_id) ].
Definition push_request : http.Request :=
  http.mkRequest 1162 push_body [] "10.0.0.7:51234".

(** The body of the push with a manifest in the place of the encrypted PPID. *)
Definition manifest_body : list (string * string) :=
  [ ("cpu_svn", cpu_svn); ("pce_svn", "0100"); ("pce_id", "0000");
    ("qe_id", qe_id); ("manifest", "4d414e4946455354") ].
Definition manifest_request : http.Request :=
  http.mkRequest 176 manifest_body [] "10.0.0.7:51234".

(** A body with neither of the two. *)
Definition bare_body : list (string * string) :=
  [ ("cpu_svn", cpu_svn); ("pce_svn", "0100"); ("pce_id", "0000"); ("qe_id", qe_id) ].
Definition bare_request : http.Request :=
  http.mkRequest 120 bare_body [] "10.0.0.7:51234".

Definition refresh_request : http.Request := http.mkRequest 0 [] [] "10.0.0.9:40000".

Definition platformInfo : PlatformInfo.t :=
  PlatformInfo.mk enc_ppid cpu_svn "0100" "0000" qe_id "".
Definition platform : Platform.t :=
  Platform.mk enc_ppid cpu_svn "0100" "0000" qe_id "" "".
Definition cached_platform : Platform.t :=
  Platform.mk enc_ppid cpu_svn "0100" "0000" qe_id fmspc "".

Definition authorized : http.Request -> string -> bool -> option error :=
  fun _ _ _ => None.

Definition empty_world : World := mkWorld emptyDB [].
Definition cached_world : World :=
  mkWorld (set_platforms {[ qe_id := cached_platform ]} emptyDB) [].

(** TCBMs: 16 component bytes and the PCE-SVN, little-endian. *)
Definition tcbm1 : string := "02020202020202020202020202020202" ++ "0900".
Definition tcbm2 : string := "02020202020202020202020202020202" ++ "0a00".
Definition components2 : list byte := repeat Byte.x02 16.

Definition tcb_of (comp : byte) (pcesvn : N) : TcbLevels.t :=
  TcbLevels.mk comp comp comp comp comp comp comp comp
               comp comp comp comp comp comp comp comp pcesvn.

Definition pckCerts : list PckCertsInfo.t :=
  [ PckCertsInfo.mk (tcb_of Byte.x02 9) tcbm1 "-----BEGIN%20CERTIFICATE-----1";
    PckCertsInfo.mk (tcb_of Byte.x02 10) tcbm2 "-----BEGIN%20CERTIFICATE-----2" ].
Definition unavailable : list PckCertsInfo.t :=
  [ PckCertsInfo.mk (tcb_of Byte.x02 9) tcbm1 "Not available";
    PckCertsInfo.mk (tcb_of Byte.x02 10) tcbm2 "Not available" ].

Definition tcbInfo : TcbInfoJSON.t :=
  TcbInfoJSON.mk
    (TcbInfoType.mk 2 "2020-06-01T00:00:00Z" "2020-07-01T00:00:00Z" fmspc "0000" 0 5
       [ TcbLevelsType.mk (tcb_of Byte.x03 10) "2020-05-01T00:00:00Z" "SWHardeningNeeded";
         TcbLevelsType.mk (tcb_of Byte.x02 10) "2020-01-01T00:00:00Z" "UpToDate";
         TcbLevelsType.mk (tcb_of Byte.x01 5) "2019-01-01T00:00:00Z" "OutOfDate" ])
    "signature".

Definition Unmarshal_PckCerts (body : string) : option (list PckCertsInfo.t) :=
  if String.eqb body "pckcerts" then Some pckCerts
  else if String.eqb body "unavailable" then Some unavailable
  else None.

Definition Unmarshal_TcbInfo (body : string) : option TcbInfoJSON.t :=
  if String.eqb body "tcbinfo" then Some tcbInfo else None.

Definition QueryUnescape (s : string) : string := s.
Definition base64_EncodeToString (s : string) : string := s.

(** A selection library that refuses an empty array and otherwise picks
    the last of the first two certificates. *)
Definition pck_cert_select (cpusvn : list byte) (pcesvn pceid : N) (tcb : string)
    (certs : list string) (count : N) : Z * N :=
  match certs with
  | [] => (1%Z, 0%N)
  | [_] => (0%Z, 0%N)
  | _ :: _ :: _ => (0%Z, 1%N)
  end.

Definition pckcerts_headers : gmap string string :=
  {[ "Sgx-Pck-Certificate-Issuer-Chain" := "-----BEGIN CERTIFICATE-----chain";
     "Sgx-Fmspc" := fmspc;
     "Sgx-Pck-Certificate-Ca-Type" := "processor" ]}.

(** A PCS server that answers every request with 200; [pckcertsBody] is
    the body of its /pckcerts answer. *)
Definition pcs (pckcertsBody : string) (seen : list PcsRequest) (rq : PcsRequest)
    : string + http.Response :=
  match rq with
  | GetPckCerts _ _ | GetPckCertsWithManifest _ _ =>
      inr (http.mkResponse 200 (-1) pckcerts_headers (Some pckcertsBody))
  | GetPckCrl _ _ =>
      inr (http.mkResponse 200 3 {[ "Sgx-Pck-Crl-Issuer-Chain" := "crl-chain" ]} (Some "crl"))
  | GetTcb _ =>
      inr (http.mkResponse 200 7 {[ "Sgx-Tcb-Info-Issuer-Chain" := "tcb-chain" ]}
                           (Some "tcbinfo"))
  | GetQeIdentity =>
      inr (http.mkResponse 200 2 {[ "Sgx-Enclave-Identity-Issuer-Chain" := "qe-chain" ]}
                           (Some "qe"))
  end.

(** The same server, sending no issuer-chain header. *)
Definition bare_response : http.Response :=
  http.mkResponse 200 7 {[ "Sgx-Fmspc" := fmspc ]} (Some "pckcerts").
Definition pcs_without_chains (seen : list PcsRequest) (rq : PcsRequest)
    : string + http.Response :=
  inr bare_response.

(** The repository after the sample push: the platform with its FMSPC, the
    two certificates with the second one chosen, and the TCB info. *)
Definition pushed_world : World :=
  mkWorld
    (mkDB {[ qe_id := cached_platform ]} ∅ None
          {[ qe_id := PckCert.mk qe_id "0000" fmspc 1
                                 ["-----BEGIN%20CERTIFICATE-----1";
                                  "-----BEGIN%20CERTIFICATE-----2"]
                                 [tcbm1; tcbm2] ]}
          ∅ {[ fmspc := FmspcTcbInfo.mk fmspc "tcbinfo" "tcb-chain" ]} None)
    [].

(** The push of a second platform, and a push whose member names are
    spelled in other cases. *)
Definition qe_id2 : string := "fedcba9876543210fedcba9876543210".
Definition second_push_request : http.Request :=
  http.mkRequest 1162
    [ ("enc_ppid", enc_ppid); ("cpu_svn", cpu_svn); ("pce_svn", "0100");
      ("pce_id", "0000"); ("qe_id", qe_id2) ] [] "10.0.0.7:51236".
Definition upper_case_body : list (string * string) :=
  [ ("ENC_PPID", enc_ppid); ("Cpu_Svn", cpu_svn); ("pce_SVN", "0100");
    ("PCE_id", "0000"); ("Qe_Id", qe_id) ].

(** A body with a manifest and an enc_ppid of 767 digits. *)
Definition short_ppid_request : http.Request :=
  http.mkRequest 1190
    [ ("enc_ppid", zeros 767); ("cpu_svn", cpu_svn); ("pce_svn", "0100");
      ("pce_id", "0000"); ("qe_id", qe_id); ("manifest", "4d414e4946455354") ]
    [] "10.0.0.7:51234".

(** A selection library that reports success and an index outside the
    array. *)
Definition stray_select (cpusvn : list byte) (pcesvn pceid : N) (tcb : string)
    (certs : list string) (count : N) : Z * N := (0%Z, 7%N).

(** The same repository with the PCK CRL of its CA and the QE identity. *)
Definition served_world : World :=
  mkWorld
    (set_qe_identity (Some (QEIdentity.mk "qe" "qe-chain"))
       (set_pck_crls {[ "processor" := PckCrl.mk "processor" "crl" "crl-chain" ]}
          (db pushed_world)))
    [].

(** A status request for the sample QE-ID, and the PlatformTcb row of the
    sample platform. *)
Definition status_request : http.Request :=
  http.mkRequest 0 [] [("qeid", qe_id)] "10.0.0.8:43210".
Definition platform_tcb : PlatformTcb.t :=
  PlatformTcb.mk qe_id "0000" cpu_svn "0100" tcbm2.

(** A database driver whose first two connections fail. *)
Definition gorm_Open (i : nat) (dsn : string) : string + unit :=
  if (i <? 2)%nat then inl "connection refused" else inr tt.

End Samples.

(** ** resource: the PCS client, the fetchers, the cache writers and the
    handlers *)

Section Resource.

Set Default Proof Using "Type".

(** What the service calls and does not define: the authorization
    middleware, the upstream client with the PCS server behind it ([pcs]
    gives the outcome of a call of a client helper, which may depend on the
    calls made before), the native PCK certificate selection library, and
    the decoders of the Go library. *)
Variable authorizeEndpoint : http.Request -> string -> bool -> option error.
Variable pcs : list PcsRequest -> PcsRequest -> string + http.Response.
(** [pck_cert_select cpusvn pcesvn pceid tcbinfo certs count] gives the
    returned status and the value left in [certIdx]. *)
Variable pck_cert_select :
  list byte -> N -> N -> string -> list string -> N -> Z * N.
(** [url.QueryUnescape], whose result is the empty string on an error. *)
Variable QueryUnescape : string -> string.
(** [json.Unmarshal] into [[]PckCertsInfo] and into [TcbInfoJSON]. *)
Variable Unmarshal_PckCerts : string -> option (list PckCertsInfo.t).
Variable Unmarshal_TcbInfo : string -> option TcbInfoJSON.t.
Variable base64_EncodeToString : string -> string.

(** *** The upstream client *)

(** Modelled from the spec: the client helpers that platform_ops.go calls
    are not among the sources.  The specification (4.1) has a helper issue
    the GET of its collateral and return status, headers and body, or fail:
    before anything is sent, or when its retry budget for transport failures
    is used up.  A call of a helper adds one entry to [pcs_requests],
    whatever the helper puts on the wire for it, and has the outcome [pcs]
    gives it. *)
Definition pcsDo (rq : PcsRequest) : M http.Response := fun w =>
  let w' := mkWorld (db w) (pcs_requests w ++ [rq]) in
  match pcs (pcs_requests w) rq with
  | inl err => Failed err w'
  | inr resp => Done resp w'
  end.

(** Modelled from the spec: [GET {base}/pckcerts?encrypted_ppid=&pceid=]. *)
Definition getPckCertFromProvServer (EncryptedPPID PceID : string) : M http.Response :=
  pcsDo (GetPckCerts EncryptedPPID PceID).
(** Modelled from the spec: [GET {base}/pckcerts?platform_manifest=&pceid=]. *)
Definition getPckCertsWithManifestFromProvServer (manifest PceID : string) : M http.Response :=
  pcsDo (GetPckCertsWithManifest manifest PceID).
(** Modelled from the spec: [GET {base}/pckcrl?ca=&encoding=der]. *)
Definition getPckCrlFromProvServer (ca encoding : string) : M http.Response :=
  pcsDo (GetPckCrl ca encoding).
(** Modelled from the spec: [GET {base}/tcb?fmspc=]. *)
Definition getFmspcTcbInfoFromProvServer (fmspc : string) : M http.Response :=
  pcsDo (GetTcb fmspc).
(** Modelled from the spec: [GET {base}/qe/identity]. *)
Definition getQeInfoFromProvServer : M http.Response :=
  pcsDo GetQeIdentity.

Definition readAll (resp : http.Response) (what : string) : M string :=
  match http.RespBody resp with
  | Some body => mret body
  | None => fail what
  end.

(** *** getBestPckCert *)

Definition certError : list string :=
  [ "PCK Cert Select Lib selected best suited PCK cert";
    "Invalid Arguments provided to PCK Cert Select Lib";
    "Invalid PCK Certificate";
    "PCK certificate CPUSVN doesn't match TCB Components";
    "Invalid PCK Certificate Version";
    "PCK Cert Lib returned Unexpected Error";
    "PCKs PCEID doesn't match other PCKs";
    "PCKs PPID doesn't match other PCKs";
    "PCKs FMSPC doesn't match other PCKs";
    "Invalid TCB Info provided as input to PCK Cert Select Lib";
    "TCB Info PceID does not match input PceID Value";
    "TCBInfo TCB Type is not supported";
    "Raw TCB is lower than all input PCKs" ].

(** The result is [inl err] for a returned error and [inr certIdx]
    otherwise.  [C.CString] does not return nil, so the two allocation
    failures of the source cannot occur.  [&cpusvn.bytes[0]] and
    [&certs[0]] index their slices, which panics on an empty slice;
    [certError[ret]] indexes an array of 13 messages. *)
Definition getBestPckCert (platformInfo : Platform.t) (pckCerts : list string)
    (tcb : string) : GoResult (string + N) :=
  match hex_DecodeString (Platform.CPUSvn platformInfo) with
  | None => Returns (inl "could not decode cpusvn string")
  | Some cpusvn =>
      match ParseUint_16_32 (Platform.PceSvn platformInfo) with
      | None => Returns (inl "could not parse pcesvn string")
      | Some pceSvn =>
          match ParseUint_16_32 (Platform.PceID platformInfo) with
          | None => Returns (inl "could not parse pceid string")
          | Some pceID =>
              let totalPckCerts := length pckCerts in
              match cpusvn, pckCerts with
              | [], _ => Panics index_out_of_range
              | _ :: _, [] => Panics index_out_of_range
              | _ :: _, _ :: _ =>
                  let '(ret, certIdx) :=
                    pck_cert_select cpusvn (pceSvn mod 2 ^ 16)%N (pceID mod 2 ^ 16)%N
                                    tcb pckCerts (N.of_nat totalPckCerts mod 2 ^ 32)%N in
                  if negb (ret =? 0)%Z then
                    if (ret <? 0)%Z then Panics index_out_of_range
                    else
                      match certError !! Z.to_nat ret with
                      | Some msg => Returns (inl msg)
                      | None => Panics index_out_of_range
                      end
                  else Returns (inr (certIdx mod 2 ^ 8)%N)
              end
          end
      end
  end.

(** *** The fetchers *)

(** for a platform FMSPC value, the TCBInfo structure of the PCS server *)
Definition fetchFmspcTcbInfo (fmspc : string) : M FmspcTcbInfo.t :=
  resp ← getFmspcTcbInfoFromProvServer fmspc;
  if negb (http.StatusCode resp =? http.StatusOK)%Z then
    fail "get tcb info api call failed with pcs"
  else
    let TcbInfoIssuerChain := http.Header_Get (http.Header resp) "Sgx-Tcb-Info-Issuer-Chain" in
    if (http.RespContentLength resp =? 0)%Z then
      fail "no content found in getTCBInfo Http Response"
    else
      body ← readAll resp "could not read getTCBInfo http response";
      mret (FmspcTcbInfo.mk fmspc body TcbInfoIssuerChain).

Definition fetchPckCrlInfo (ca : string) : M PckCrl.t :=
  resp ← getPckCrlFromProvServer ca constants.EncodingValue;
  if negb (http.StatusCode resp =? http.StatusOK)%Z then
    fail "get revocation list api call failed with pcs"
  else
    let PckCrlCertChain := http.Header_Get (http.Header resp) "Sgx-Pck-Crl-Issuer-Chain" in
    if (http.RespContentLength resp =? 0)%Z then
      fail "no content found in getPCkCrl Http Response"
    else
      body ← readAll resp "could not read getPckCrl http response";
      mret (PckCrl.mk ca (base64_EncodeToString body) PckCrlCertChain).

Definition fetchQeIdentityInfo : M QEIdentity.t :=
  resp ← getQeInfoFromProvServer;
  if negb (http.StatusCode resp =? http.StatusOK)%Z then
    fail "get qe identity api call failed with pcs"
  else
    let QeIssuerChain := http.Header_Get (http.Header resp) "Sgx-Enclave-Identity-Issuer-Chain" in
    if (http.RespContentLength resp =? 0)%Z then
      fail "no content found in getQeIdentity Http Response"
    else
      body ← readAll resp "could not read getQeIdentity http response";
      mret (QEIdentity.mk body QeIssuerChain).

(** The loop that drops the entries marked "Not available": the kept
    certificates, unescaped, and their TCBMs, in the order of the array. *)
Fixpoint filterPckCerts (pckCerts : list PckCertsInfo.t) : list string * list string :=
  match pckCerts with
  | [] => ([], [])
  | c :: rest =>
      let '(pckCertList, tcbmList) := filterPckCerts rest in
      if negb (String.eqb (PckCertsInfo.Cert c) "Not available")
      then (QueryUnescape (PckCertsInfo.Cert c) :: pckCertList,
            PckCertsInfo.Tcbm c :: tcbmList)
      else (pckCertList, tcbmList)
  end.

Definition fetchPckCertInfo (platformInfo : Platform.t)
    : M (PckCert.t * FmspcTcbInfo.t * string * string) :=
  if String.eqb (Platform.Encppid platformInfo) ""
     && String.eqb (Platform.Manifest platformInfo) ""
  then fail "invalid request, enc_ppid and platform_manifest are null"
  else
    resp ← (if negb (String.eqb (Platform.Manifest platformInfo) "")
            then getPckCertsWithManifestFromProvServer
                   (Platform.Manifest platformInfo) (Platform.PceID platformInfo)
            else getPckCertFromProvServer
                   (Platform.Encppid platformInfo) (Platform.PceID platformInfo));
    if negb (http.StatusCode resp =? http.StatusOK)%Z then
      fail "get pckcerts api call failed with pcs"
    else if (http.RespContentLength resp =? 0)%Z then
      fail "no content found in getPCkCerts Http Response"
    else
      let pckCertChain := http.Header_Get (http.Header resp) "Sgx-Pck-Certificate-Issuer-Chain" in
      let fmspc := http.Header_Get (http.Header resp) "Sgx-Fmspc" in
      let ca := http.Header_Get (http.Header resp) "Sgx-Pck-Certificate-Ca-Type" in
      body ← readAll resp "could not read getPckCerts http Response body";
      match Unmarshal_PckCerts body with
      | None => fail "Could not decode the pckCerts json response"
      | Some pckCerts =>
          let '(pckCertList, tcbmList) := filterPckCerts pckCerts in
          fmspcTcbInfo ← fetchFmspcTcbInfo fmspc;
          best ← liftGo (getBestPckCert platformInfo pckCertList
                                        (FmspcTcbInfo.TcbInfo fmspcTcbInfo));
          match best with
          | inl err => fail err
          | inr CertIndex =>
              let pckCertInfo :=
                PckCert.mk (Platform.QeID platformInfo) (Platform.PceID platformInfo)
                           fmspc CertIndex pckCertList tcbmList in
              mret (pckCertInfo, fmspcTcbInfo, pckCertChain, ca)
          end
      end.

(** *** The cache writers: [Update] on a refresh, [Create] otherwise *)

Definition cachePckCertInfo (pckCert : PckCert.t) (cacheType : constants.CacheType)
    : M PckCert.t :=
  match cacheType with
  | constants.CacheRefresh => PckCertRepository.Update pckCert;; mret pckCert
  | constants.CacheInsert => PckCertRepository.Create pckCert
  end.

Definition cacheQeIdentityInfo (qeIdentity : QEIdentity.t) (cacheType : constants.CacheType)
    : M QEIdentity.t :=
  match cacheType with
  | constants.CacheRefresh => QEIdentityRepository.Update qeIdentity;; mret qeIdentity
  | constants.CacheInsert => QEIdentityRepository.Create qeIdentity
  end.

Definition cachePckCertChainInfo (pckCertChain : string) (cacheType : constants.CacheType)
    : M PckCertChain.t :=
  let certChain := PckCertChain.mk pckCertChain in
  match cacheType with
  | constants.CacheRefresh => PckCertChainRepository.Update certChain;; mret certChain
  | constants.CacheInsert => PckCertChainRepository.Create certChain
  end.

Definition cacheFmspcTcbInfo (fmspcTcb : FmspcTcbInfo.t) (cacheType : constants.CacheType)
    : M FmspcTcbInfo.t :=
  match cacheType with
  | constants.CacheRefresh => FmspcTcbInfoRepository.Update fmspcTcb;; mret fmspcTcb
  | constants.CacheInsert => FmspcTcbInfoRepository.Create fmspcTcb
  end.

Definition cachePlatformInfo (platform : Platform.t) (cacheType : constants.CacheType)
    : M unit :=
  match cacheType with
  | constants.CacheRefresh => PlatformRepository.Update platform
  | constants.CacheInsert => PlatformRepository.Create platform;; mret tt
  end.

Definition cachePlatformTcbInfo (platformInfo : Platform.t) (tcbm : string)
    (cacheType : constants.CacheType) : M unit :=
  let platformTcb :=
    PlatformTcb.mk (Platform.QeID platformInfo) (Platform.PceID platformInfo)
                   (Platform.CPUSvn platformInfo) (Platform.PceSvn platformInfo) tcbm in
  match cacheType with
  | constants.CacheRefresh => PlatformTcbRepository.Update platformTcb
  | constants.CacheInsert => PlatformTcbRepository.Create platformTcb;; mret tt
  end.

Definition cachePckCrlInfo (pckCrl : PckCrl.t) (cacheType : constants.CacheType)
    : M PckCrl.t :=
  match cacheType with
  | constants.CacheRefresh => PckCrlRepository.Update pckCrl;; mret pckCrl
  | constants.CacheInsert => PckCrlRepository.Create pckCrl
  end.

(** *** The fetch-and-cache chain *)

(** Modelled from the spec: [getLazyCachePckCert], which is not among the
    sources.  The specification (4.5, push platform, step 3) has the chain
    run [fetchPckCertInfo], record the FMSPC of the response in the
    platform, and persist PckCertChain, PckCert, FmspcTcbInfo, Platform and
    PlatformTcb, the last with the TCBM of the chosen certificate (3, and
    4.5: the cert-index resolves the matching TCBM).  In the source the
    handler persists FmspcTcbInfo itself, when the FMSPC has no row
    (platform_ops.go, [existingFmspc]); this function persists the other
    four, and hands back the platform it updated and the CA type. *)
Definition getLazyCachePckCert (platform : Platform.t) (cacheType : constants.CacheType)
    : M (PckCert.t * Platform.t * string) :=
  '(pckCertInfo, fmspcTcbInfo, pckCertChain, ca) ← fetchPckCertInfo platform;
  let platform :=
    Platform.mk (Platform.Encppid platform) (Platform.CPUSvn platform)
                (Platform.PceSvn platform) (Platform.PceID platform)
                (Platform.QeID platform) (PckCert.Fmspc pckCertInfo)
                (Platform.Manifest platform) in
  cachePckCertChainInfo pckCertChain cacheType;;
  pckCertInfo ← cachePckCertInfo pckCertInfo cacheType;
  cachePlatformInfo platform cacheType;;
  match PckCert.Tcbms pckCertInfo !! N.to_nat (PckCert.CertIndex pckCertInfo) with
  | None => panic index_out_of_range
  | Some tcbm =>
      cachePlatformTcbInfo platform tcbm cacheType;;
      mret (pckCertInfo, platform, ca)
  end.

(** Modelled from the spec: [getLazyCachePckCrl], which is not among the
    sources in the form the handlers call: it fetches the PCK CRL of the CA
    type and persists it. *)
Definition getLazyCachePckCrl (ca : string) (cacheType : constants.CacheType) : M PckCrl.t :=
  pckCrl ← fetchPckCrlInfo ca;
  cachePckCrlInfo pckCrl cacheType.

(** Modelled from the spec: [getLazyCacheFmspcTcbInfo], likewise: it
    fetches the TCB info of the FMSPC and persists it. *)
Definition getLazyCacheFmspcTcbInfo (fmspc : string) (cacheType : constants.CacheType)
    : M FmspcTcbInfo.t :=
  fmspcTcbInfo ← fetchFmspcTcbInfo fmspc;
  cacheFmspcTcbInfo fmspcTcbInfo cacheType.

(** Modelled from the spec: [getLazyCacheQEIdentityInfo], likewise: it
    fetches the QE identity and persists it. *)
Definition getLazyCacheQEIdentityInfo (cacheType : constants.CacheType) : M QEIdentity.t :=
  qeInfo ← fetchQeIdentityInfo;
  cacheQeIdentityInfo qeInfo cacheType.

(** *** pushPlatformInfo *)

(** The match of a member name [key] with a field tag [tag] that
    [encoding/json] falls back on when no tag is the name itself, for an
    ASCII tag: letters match in either case, and U+017F and U+212A, in
    UTF-8, match [s] and [k]. *)
Definition ascii_upper (c : ascii) : ascii :=
  if in_class c [("a"%char, "z"%char)] then ascii_of_nat (nat_of_ascii c - 32) else c.

Fixpoint equalFold (tag key : string) : bool :=
  match tag, key with
  | EmptyString, EmptyString => true
  | EmptyString, String _ _ => false
  | String _ _, EmptyString => false
  | String sb tag', String tb key' =>
      if (nat_of_ascii tb <? 128)%nat then
        Ascii.eqb (ascii_upper sb) (ascii_upper tb) && equalFold tag' key'
      else if Ascii.eqb (ascii_upper sb) "S"%char then
        match key with
        | String "197"%char (String "191"%char key'') => equalFold tag' key''
        | _ => false
        end
      else if Ascii.eqb (ascii_upper sb) "K"%char then
        match key with
        | String "226"%char (String "132"%char (String "170"%char key'')) =>
            equalFold tag' key''
        | _ => false
        end
      else false
  end.

(** [dec.Decode(&platformInfo)] with [DisallowUnknownFields]: a member sets
    the field whose tag matches its name, a later member overriding an
    earlier one; a field without a member keeps its zero value; the first
    member that matches no tag gives the error. *)
Definition decodeMember (acc : string + PlatformInfo.t) (kv : string * string)
    : string + PlatformInfo.t :=
  match acc with
  | inl err => inl err
  | inr p =>
      let '(k, v) := kv in
      if equalFold "enc_ppid" k then
        inr (PlatformInfo.mk v (PlatformInfo.CPUSvn p) (PlatformInfo.PceSvn p)
                             (PlatformInfo.PceID p) (PlatformInfo.QeID p)
                             (PlatformInfo.Manifest p))
      else if equalFold "cpu_svn" k then
        inr (PlatformInfo.mk (PlatformInfo.EncPpid p) v (PlatformInfo.PceSvn p)
                             (PlatformInfo.PceID p) (PlatformInfo.QeID p)
                             (PlatformInfo.Manifest p))
      else if equalFold "pce_svn" k then
        inr (PlatformInfo.mk (PlatformInfo.EncPpid p) (PlatformInfo.CPUSvn p) v
                             (PlatformInfo.PceID p) (PlatformInfo.QeID p)
                             (PlatformInfo.Manifest p))
      else if equalFold "pce_id" k then
        inr (PlatformInfo.mk (PlatformInfo.EncPpid p) (PlatformInfo.CPUSvn p)
                             (PlatformInfo.PceSvn p) v (PlatformInfo.QeID p)
                             (PlatformInfo.Manifest p))
      else if equalFold "qe_id" k then
        inr (PlatformInfo.mk (PlatformInfo.EncPpid p) (PlatformInfo.CPUSvn p)
                             (PlatformInfo.PceSvn p) (PlatformInfo.PceID p) v
                             (PlatformInfo.Manifest p))
      else if equalFold "manifest" k then
        inr (PlatformInfo.mk (PlatformInfo.EncPpid p) (PlatformInfo.CPUSvn p)
                             (PlatformInfo.PceSvn p) (PlatformInfo.PceID p)
                             (PlatformInfo.QeID p) v)
      else inl ("json: unknown field " ++ k)
  end.

Definition decodePlatformInfo (body : list (string * string)) : string + PlatformInfo.t :=
  fold_left decodeMember body (inr PlatformInfo.zero).

(** The validation of the five fields of the body, as one [||] chain:
    true when the request is to be refused.  [validateInputString] is
    [ValidateInputString] of resource/validation.go. *)
Definition platformInfoInvalid (platformInfo : PlatformInfo.t) : GoResult bool :=
  go_or (go_not (ValidateInputString constants.EncPPID_Key (PlatformInfo.EncPpid platformInfo)))
 (go_or (go_not (ValidateInputString constants.CpuSvn_Key (PlatformInfo.CPUSvn platformInfo)))
 (go_or (go_not (ValidateInputString constants.PceSvn_Key (PlatformInfo.PceSvn platformInfo)))
 (go_or (go_not (ValidateInputString constants.PceId_Key (PlatformInfo.PceID platformInfo)))
        (go_not (ValidateInputString constants.QeId_Key (PlatformInfo.QeID platformInfo)))))).

(** [_, err = f(); if err != nil { return &resourceError{err.Error(), 500} }] *)
Definition orInternalServerError {A : Type} (m : M A) (k : A -> M HandlerResult)
    : M HandlerResult :=
  r ← try m;
  match r with
  | inl err => mret (ReturnedError (resourceError err http.StatusInternalServerError))
  | inr a => k a
  end.

Definition pushPlatformInfo (r : http.Request) : M HandlerResult :=
  match authorizeEndpoint r constants.HostDataUpdaterGroupName true with
  | Some err => mret (ReturnedError err)
  | None =>
      if (http.ContentLength r =? 0)%Z then
        mret (ReturnedError (resourceError "platform data not provided" http.StatusBadRequest))
      else
        match decodePlatformInfo (http.Body r) with
        | inl err => mret (ReturnedError (resourceError err http.StatusBadRequest))
        | inr platformInfo =>
            invalid ← liftGo (platformInfoInvalid platformInfo);
            if invalid : bool then
              mret (ReturnedError (resourceError "invalid query param data" http.StatusBadRequest))
            else
              existingPlaformData ← PlatformRepository.Retrieve (PlatformInfo.QeID platformInfo);
              match existingPlaformData with
              | Some _ =>
                  mret (Replied http.StatusOK
                          (mkResponse "Success" "platform info already cached"))
              | None =>
                  let platform :=
                    Platform.mk (PlatformInfo.EncPpid platformInfo)
                                (PlatformInfo.CPUSvn platformInfo)
                                (PlatformInfo.PceSvn platformInfo)
                                (PlatformInfo.PceID platformInfo)
                                (PlatformInfo.QeID platformInfo) ""
                                (PlatformInfo.Manifest platformInfo) in
                  orInternalServerError (getLazyCachePckCert platform constants.CacheInsert)
                    (fun '(_, platform, ca) =>
                  existingPckCrl ← PckCrlRepository.Retrieve ca;
                  orInternalServerError
                    (match existingPckCrl with
                     | None => getLazyCachePckCrl ca constants.CacheInsert;; mret tt
                     | Some _ => mret tt
                     end)
                    (fun _ =>
                  existingFmspc ← FmspcTcbInfoRepository.Retrieve (Platform.Fmspc platform);
                  orInternalServerError
                    (match existingFmspc with
                     | None =>
                         getLazyCacheFmspcTcbInfo (Platform.Fmspc platform)
                                                  constants.CacheInsert;; mret tt
                     | Some _ => mret tt
                     end)
                    (fun _ =>
                  qeIdentity ← QEIdentityRepository.Retrieve;
                  orInternalServerError
                    (match qeIdentity with
                     | None => getLazyCacheQEIdentityInfo constants.CacheInsert;; mret tt
                     | Some _ => mret tt
                     end)
                    (fun _ =>
                  mret (Replied http.StatusCreated
                          (mkResponse "Created" "platform data pushed to scs"))))))
              end
        end
  end.

(** *** The refresh chain *)

Fixpoint forEach {A : Type} (f : A -> M unit) (l : list A) : M unit :=
  match l with
  | [] => mret tt
  | x :: l' => f x;; forEach f l'
  end.

Definition refreshPckCerts : M unit :=
  existingPlaformData ← PlatformRepository.RetrieveAll;
  if (length existingPlaformData =? 0)%nat then
    fail "no platform value records are found in db, cannot perform refresh"
  else
    forEach
      (fun platform =>
         '(pckCertInfo, _, _, _) ←
           mapErr (fun e => "pck cert refresh failed: " ++ e) (fetchPckCertInfo platform);
         mapErr (fun e => "Error in Cache Pck Cert Info: " ++ e)
                (cachePckCertInfo pckCertInfo constants.CacheRefresh);;
         mret tt)
      existingPlaformData.

Definition refreshAllPckCrl : M unit :=
  existingPckCrlData ← PckCrlRepository.RetrieveAll;
  if (length existingPckCrlData =? 0)%nat then
    fail "no pck crl record found in db, cannot perform refresh operation"
  else
    forEach
      (fun crl =>
         mapErr (fun e => "refresh of pckcrl failed: " ++ e)
                (getLazyCachePckCrl (PckCrl.Ca crl) constants.CacheRefresh);;
         mret tt)
      existingPckCrlData.

Definition refreshAllTcbInfo : M unit :=
  existingTcbInfoData ← FmspcTcbInfoRepository.RetrieveAll;
  if (length existingTcbInfoData =? 0)%nat then
    fail "no tcbinfo record found in db, cannot perform refresh operation"
  else
    forEach
      (fun info =>
         mapErr (fun e => "Error in Refresh Tcb info: " ++ e)
                (getLazyCacheFmspcTcbInfo (FmspcTcbInfo.Fmspc info) constants.CacheRefresh);;
         mret tt)
      existingTcbInfoData.

Definition refreshAllQE : M unit :=
  existingQEData ← QEIdentityRepository.Retrieve;
  match existingQEData with
  | None => fail "no qe identity record found in db, cannot perform refresh operation"
  | Some _ =>
      mapErr (fun e => "Error in Refresh QEIdentity info: " ++ e)
             (getLazyCacheQEIdentityInfo constants.CacheRefresh);;
      mret tt
  end.

Definition refreshNonPCKCollaterals : M unit :=
  refreshAllPckCrl;;
  refreshAllTcbInfo;;
  refreshAllQE.

Definition RefreshPlatformInfoTimer (rtype : string) : M unit :=
  if String.eqb rtype constants.Type_Refresh_Cert then refreshPckCerts
  else if String.eqb rtype constants.Type_Refresh_Tcb then refreshNonPCKCollaterals
  else mret tt.

(** After a failed step the handler writes the 404 reply and returns the
    error of [w.Write], which is nil. *)
Definition refreshPlatformInfo (r : http.Request) : M HandlerResult :=
  match authorizeEndpoint r constants.CacheManagerGroupName true with
  | Some err => mret (ReturnedError err)
  | None =>
      r1 ← try refreshPckCerts;
      match r1 with
      | inl _ =>
          mret (Replied http.StatusNotFound
                  (mkResponse "Failure" "could not find platform info in database"))
      | inr _ =>
          r2 ← try refreshNonPCKCollaterals;
          match r2 with
          | inl _ =>
              mret (Replied http.StatusNotFound
                      (mkResponse "Failure" "could not find platform info in database"))
          | inr _ =>
              mret (Replied http.StatusOK
                      (mkResponse "Success" "sgx collaterals refreshed successfully"))
          end
      end
  end.

(** *** getTcbStatus *)

(** The handler from the decoding of the TCBM of the selected certificate
    to its reply: [tcbmHex] is [existingPckCertData.Tcbms[certIndex]] and
    [tcbInfoJSON] is [existingFmspc.TcbInfo].  A TCBM of fewer than 18 bytes
    makes one of the two slice expressions or [Uint16] panic. *)
Definition evalTcbStatus (tcbmHex tcbInfoJSON : string) : GoResult HandlerResult :=
  match hex_DecodeString tcbmHex with
  | None =>
      Returns (ReturnedError
                 (resourceError "cannot decode tcbm: encoding/hex: invalid input"
                                http.StatusInternalServerError))
  | Some tcbm =>
      match slice_to 16 tcbm with
      | Panics msg => Panics msg
      | Returns pckComponents =>
          match slice_from 16 tcbm with
          | Panics msg => Panics msg
          | Returns tail =>
              match LittleEndian_Uint16 tail with
              | Panics msg => Panics msg
              | Returns pckPceSvn =>
                  match Unmarshal_TcbInfo tcbInfoJSON with
                  | None =>
                      Returns (ReturnedError
                                 (resourceError "cannot unmarshal tcbinfo: invalid json"
                                                http.StatusInternalServerError))
                  | Some tcbInfo =>
                      let status :=
                        tcbLevelStatus pckComponents pckPceSvn
                          (TcbInfoType.TcbLevels (TcbInfoJSON.TcbInfo tcbInfo)) in
                      let response := tcbVerdict status in
                      Returns (Replied http.StatusOK
                                 (mkResponse (Status response) (Message response)))
                  end
              end
          end
      end
  end.

Definition getTcbStatus (r : http.Request) : M HandlerResult :=
  match authorizeEndpoint r constants.HostDataReaderGroupName true with
  | Some err => mret (ReturnedError err)
  | None =>
      if (length (http.Query r) =? 0)%nat then
        mret (ReturnedError (resourceError "query data not provided" http.StatusBadRequest))
      else
        let qeID := http.Query_Get (http.Query r) "qeid" in
        valid ← liftGo (ValidateInputString constants.QeId_Key qeID);
        if negb valid then
          mret (ReturnedError (resourceError "invalid qeid" http.StatusBadRequest))
        else
          existingPckCertData ← PckCertRepository.Retrieve qeID;
          match existingPckCertData with
          | None =>
              mret (ReturnedError
                      (resourceError "no pck cert record found: record not found"
                                     http.StatusNotFound))
          | Some existingPckCertData =>
              let certIndex := PckCert.CertIndex existingPckCertData in
              existingPlatformData ← PlatformRepository.Retrieve qeID;
              match existingPlatformData with
              | None =>
                  mret (ReturnedError
                          (resourceError "no platform record found: record not found"
                                         http.StatusNotFound))
              | Some existingPlatformData =>
                  existingFmspc ←
                    FmspcTcbInfoRepository.Retrieve (Platform.Fmspc existingPlatformData);
                  match existingFmspc with
                  | None =>
                      mret (ReturnedError
                              (resourceError "no tcb info record found: record not found"
                                             http.StatusNotFound))
                  | Some existingFmspc =>
                      match PckCert.Tcbms existingPckCertData !! N.to_nat certIndex with
                      | None => panic index_out_of_range
                      | Some tcbmHex =>
                          liftGo (evalTcbStatus tcbmHex (FmspcTcbInfo.TcbInfo existingFmspc))
                      end
                  end
              end
          end
  end.


(** The tables other than PckCert. *)
Definition tables_but_pck_certs (d : SCSDatabase) :=
  (platforms d, platform_tcbs d, pck_cert_chain d, pck_crls d, fmspc_tcb_infos d,
   qe_identity d).

(** *** Properties of the validation *)

Lemma rmatch_lit (t : string) :
  forall s pos k,
    rmatch (lit t) pos s k = true <->
    exists s', s = t ++ s' /\ k (pos + String.length t)%nat s' = true.
Proof.
  induction t as [|c t IH]; intros s pos k; simpl.
  - rewrite Nat.add_0_r. split.
    + intros H. exists s. split; [reflexivity | exact H].
    + intros (s' & -> & H). exact H.
  - destruct s as [|a s].
    + split; [discriminate | intros (s' & Hs & _); discriminate].
    + destruct (Ascii.eqb_spec a c) as [->|Hne].
      * rewrite IH. replace (S pos + String.length t)%nat with (pos + S (String.length t))%nat by lia.
        split.
        -- intros (s' & -> & H). exists s'. split; [reflexivity | exact H].
        -- intros (s' & Hs & H). change (String c s = String c (t ++ s')) in Hs. injection Hs as ->. exists s'. split; [reflexivity | exact H].
      * split; [discriminate | intros (s' & Hs & _); change (String a s = String c (t ++ s')) in Hs; congruence].
Qed.

Lemma search_anchored_off (r : regex) (s : string) :
  forall pos, pos <> 0%nat -> search (anchored r) pos s = false.
Proof.
  induction s as [|a s IH]; intros pos Hpos; simpl;
    destruct pos as [|pos]; try congruence; simpl.
  - reflexivity.
  - apply IH. lia.
Qed.

Lemma MatchString_anchored (r : regex) (s : string) :
  MatchString (anchored r) s =
  rmatch r 0 s (fun _ s' => match s' with EmptyString => true | String _ _ => false end).
Proof.
  unfold MatchString. destruct s as [|a s]; simpl.
  - rewrite orb_false_r. f_equal.
  - rewrite search_anchored_off by lia. rewrite orb_false_r. f_equal.
Qed.

Lemma append_empty_r (t : string) : t ++ "" = t.
Proof.
  induction t as [|c t IH]; [reflexivity|].
  change (String c (t ++ "") = String c t). by rewrite IH.
Qed.

Lemma MatchString_anchored_lit (t s : string) :
  MatchString (anchored (lit t)) s = String.eqb s t.
Proof.
  rewrite MatchString_anchored.
  apply eq_true_iff_eq. rewrite rmatch_lit, String.eqb_eq. split.
  - intros (s' & -> & H). destruct s'; [|discriminate].
    apply append_empty_r.
  - intros ->. exists EmptyString. split; [|reflexivity].
    symmetry. apply append_empty_r.
Qed.

Lemma regExMap_unknown (key : string) :
  key ∉ regExList.*1 -> regExMap !! key = None.
Proof. intros H. unfold regExMap. by apply not_elem_of_list_to_map_1. Qed.

(** C7, as the code has it: the [ca] field is accepted exactly when it is
    the string "processor"; the validation never panics on this key. *)
Theorem ValidateInputString_ca (s : string) :
  ValidateInputString constants.Ca_Key s = Returns (String.eqb s constants.Ca_Processor).
Proof.
  unfold ValidateInputString.
  replace (regExMap !! constants.Ca_Key) with (Some (anchored (lit "processor")))
    by (vm_compute; reflexivity).
  cbn [String.length constants.Ca_Key Nat.leb].
  rewrite MatchString_anchored_lit. unfold constants.Ca_Processor.
  by destruct (String.eqb s "processor").
Qed.

(** C10: a non-empty key that is none of the eight keys of [regExMap]
    makes [ValidateInputString] dereference a nil regular expression: it
    panics, whatever the input string. *)
Theorem ValidateInputString_unknown_key_panics (key inString : string) :
  key <> "" ->
  key ∉ [constants.EncPPID_Key; constants.CpuSvn_Key; constants.PceSvn_Key;
         constants.PceId_Key; constants.Ca_Key; constants.Type_Key;
         constants.Fmspc_Key; constants.QeId_Key] ->
  ValidateInputString key inString = Panics nil_dereference.
Proof.
  intros Hne Hkey. unfold ValidateInputString.
  rewrite (regExMap_unknown key Hkey).
  destruct key as [|a key]; [congruence | reflexivity].
Qed.

(** On the eight keys of the map, and on the empty key, the validation
    returns. *)
Lemma ValidateInputString_known_key_returns (key inString : string) :
  key ∈ [""; constants.EncPPID_Key; constants.CpuSvn_Key; constants.PceSvn_Key;
         constants.PceId_Key; constants.Ca_Key; constants.Type_Key;
         constants.Fmspc_Key; constants.QeId_Key] ->
  exists b, ValidateInputString key inString = Returns b.
Proof.
  intros Hkey. unfold ValidateInputString.
  repeat (apply elem_of_cons in Hkey as [->|Hkey]).
  10: by apply elem_of_nil in Hkey.
  1: by exists false.
  all: match goal with
       | |- context [regExMap !! ?k] =>
           let v := eval vm_compute in (regExMap !! k) in
           replace (regExMap !! k) with v by (vm_compute; reflexivity)
       end.
  all: cbv beta iota zeta; simpl Nat.leb; cbv iota.
  all: match goal with |- context [MatchString ?re ?x] =>
         destruct (MatchString re x) end.
  all: simpl; eauto.
Qed.

(** *** Further properties of the validation *)

Ltac clear_externals :=
  try clear authorizeEndpoint; try clear pcs; try clear pck_cert_select;
  try clear QueryUnescape; try clear Unmarshal_PckCerts; try clear Unmarshal_TcbInfo;
  try clear base64_EncodeToString.

Lemma is_hex_digit_fromHexChar (c : ascii) :
  is_hex_digit c = true <-> exists d, fromHexChar c = Some d /\ (d < 16)%N.
Proof.
  unfold is_hex_digit, in_class, in_range, fromHexChar. cbn [existsb fst snd].
  change (N_of_ascii "0") with 48%N. change (N_of_ascii "9") with 57%N.
  change (N_of_ascii "a") with 97%N. change (N_of_ascii "f") with 102%N.
  change (N_of_ascii "A") with 65%N. change (N_of_ascii "F") with 70%N.
  generalize (N_of_ascii c). intros n.
  destruct (N.leb_spec 48 n), (N.leb_spec n 57), (N.leb_spec 97 n), (N.leb_spec n 102),
    (N.leb_spec 65 n), (N.leb_spec n 70); cbn [andb orb]; split;
    try (intros _; eexists; split; [reflexivity | lia]);
    try discriminate; try (intros (d & Hd & _); discriminate); try lia.
Qed.

Lemma rmatch_Rep_class (rs : list (ascii * ascii)) (n : nat) :
  forall s pos k,
    rmatch (Rep n (Class rs)) pos s k = true <->
    exists p s', s = p ++ s' /\ String.length p = n
                 /\ forallb (fun c => in_class c rs) (list_ascii_of_string p) = true
                 /\ k (pos + n)%nat s' = true.
Proof.
  induction n as [|n IH]; intros s pos k.
  - simpl. rewrite Nat.add_0_r. split.
    + intros H. exists "", s. auto.
    + intros (p & s' & -> & Hp & _ & H). destruct p; [exact H | discriminate].
  - destruct s as [|a s].
    + change (rmatch (Rep (S n) (Class rs)) pos "" k) with false.
      split; [discriminate|]. intros (p & s' & Hs & Hp & _). destruct p; discriminate.
    + change (rmatch (Rep (S n) (Class rs)) pos (String a s) k)
        with (if in_class a rs then rmatch (Rep n (Class rs)) (S pos) s k else false).
      destruct (in_class a rs) eqn:Ha.
      * rewrite IH. replace (S pos + n)%nat with (pos + S n)%nat by lia. split.
        -- intros (p & s' & -> & Hp & Hall & Hk). exists (String a p), s'.
           repeat split; [by rewrite <- Hp | by cbn; rewrite Ha, Hall | exact Hk].
        -- intros (p & s' & Hs & Hp & Hall & Hk). destruct p as [|b p]; [discriminate|].
           change (String a s = String b (p ++ s')) in Hs. injection Hs as -> ->.
           cbn in Hall. apply andb_true_iff in Hall as [_ Hall].
           exists p, s'. repeat split; [by injection Hp | exact Hall | exact Hk].
      * split; [discriminate|]. intros (p & s' & Hs & Hp & Hall & _).
        destruct p as [|b p]; [discriminate|].
        change (String a s = String b (p ++ s')) in Hs. injection Hs as -> ->.
        cbn in Hall. by rewrite Ha in Hall.
Qed.

Lemma MatchString_anchored_hex (n : nat) (s : string) :
  MatchString (anchored (Rep n hexdigit)) s = (String.length s =? n)%nat && all_hex s.
Proof.
  rewrite MatchString_anchored. apply eq_true_iff_eq.
  unfold hexdigit. rewrite rmatch_Rep_class, andb_true_iff, Nat.eqb_eq. split.
  - intros (p & s' & -> & Hp & Hall & Hk). destruct s'; [|discriminate].
    rewrite append_empty_r. auto.
  - intros [Hlen Hall]. exists s, "". rewrite append_empty_r. auto.
Qed.

Lemma ValidateInputString_hex_pattern (key : string) (width : nat) (inString : string) :
  key <> "" ->
  regExMap !! key = Some (anchored (Rep width hexdigit)) ->
  ValidateInputString key inString =
    Returns ((String.length inString =? width)%nat && all_hex inString).
Proof.
  intros Hne Hre. unfold ValidateInputString. rewrite Hre.
  destruct key; [done|]. cbv beta zeta. simpl Nat.leb. cbv iota.
  rewrite MatchString_anchored_hex. by destruct (_ && _).
Qed.

(** X1: each hexadecimal field is accepted exactly when it has the width of
    its pattern and consists of hexadecimal digits: 768 for encrypted_ppid,
    32 for cpu_svn and qe_id, 12 for fmspc, 4 for pce_svn and pce_id.  The
    validation does not panic on these keys. *)
Theorem ValidateInputString_hex_field (key : string) (width : nat) (inString : string) :
  (key, width) ∈ hexFieldWidths ->
  ValidateInputString key inString =
    Returns ((String.length inString =? width)%nat && all_hex inString).
Proof.
  intros Hkey. unfold hexFieldWidths in Hkey.
  repeat (apply elem_of_cons in Hkey as [Hkey|Hkey]; [injection Hkey as -> ->|]).
  7: by apply elem_of_nil in Hkey.
  all: apply ValidateInputString_hex_pattern; [discriminate | vm_compute; reflexivity].
Qed.

(** X2: the [type] field is accepted exactly when it is "certs".  The other
    refresh type of the constants, "tcbs", which [RefreshPlatformInfoTimer]
    handles, does not pass the validation. *)
Theorem ValidateInputString_type (s : string) :
  ValidateInputString constants.Type_Key s = Returns (String.eqb s constants.Type_Refresh_Cert)
  /\ ValidateInputString constants.Type_Key constants.Type_Refresh_Tcb = Returns false.
Proof.
  assert (forall t, ValidateInputString constants.Type_Key t
                    = Returns (String.eqb t constants.Type_Refresh_Cert)) as H.
  { intros t. unfold ValidateInputString.
    replace (regExMap !! constants.Type_Key) with (Some (anchored (lit "certs")))
      by (vm_compute; reflexivity).
    cbv beta zeta. simpl Nat.leb. cbv iota.
    rewrite MatchString_anchored_lit. unfold constants.Type_Refresh_Cert.
    by destruct (String.eqb t "certs"). }
  split; [apply H | by rewrite H].
Qed.

Lemma hex_DecodeString_all_hex (m : nat) :
  forall s, String.length s = (2 * m)%nat -> all_hex s = true ->
            exists l, hex_DecodeString s = Some l /\ length l = m.
Proof.
  induction m as [|m IH]; intros s Hlen Hall.
  - destruct s; [|discriminate]. by exists [].
  - destruct s as [|a [|b s]]; simpl in Hlen; try lia.
    cbn in Hall. apply andb_true_iff in Hall as [Ha Hall].
    apply andb_true_iff in Hall as [Hb Hall].
    apply is_hex_digit_fromHexChar in Ha as (hi & Hhi & _).
    apply is_hex_digit_fromHexChar in Hb as (lo & Hlo & _).
    destruct (IH s) as (l & Hl & Hm); [lia | exact Hall |].
    cbn [hex_DecodeString]. rewrite Hhi, Hlo, Hl. eexists. split; [reflexivity|].
    simpl. by rewrite Hm.
Qed.

Lemma parse_hex_digits_all_hex (s : string) :
  forall acc, all_hex s = true ->
              exists v, parse_hex_digits acc s = Some v
                        /\ (v < (acc + 1) * 16 ^ N.of_nat (String.length s))%N.
Proof.
  induction s as [|c s IH]; intros acc Hall.
  - exists acc. split; [reflexivity|]. simpl. lia.
  - cbn in Hall. apply andb_true_iff in Hall as [Hc Hall].
    apply is_hex_digit_fromHexChar in Hc as (d & Hd & Hlt).
    destruct (IH (16 * acc + d)%N Hall) as (v & Hv & Hbound).
    exists v. cbn [parse_hex_digits]. rewrite Hd. split; [exact Hv|].
    cbn [String.length]. rewrite Nat2N.inj_succ, N.pow_succ_r'. nia.
Qed.

Lemma ParseUint_16_32_valid (s : string) :
  String.length s = 4%nat -> all_hex s = true ->
  exists v, ParseUint_16_32 s = Some v /\ (v < 2 ^ 16)%N.
Proof.
  intros Hlen Hall. destruct (parse_hex_digits_all_hex s 0 Hall) as (v & Hv & Hbound).
  rewrite Hlen in Hbound. change ((0 + 1) * 16 ^ N.of_nat 4)%N with 65536%N in Hbound.
  exists v. unfold ParseUint_16_32. destruct s; [discriminate|]. rewrite Hv.
  change (2 ^ 16)%N with 65536%N. change (2 ^ 32)%N with 4294967296%N.
  destruct (N.ltb_spec v 4294967296); [auto | lia].
Qed.

Lemma go_or_false (a b : GoResult bool) :
  go_or a b = Returns false -> a = Returns false /\ b = Returns false.
Proof. destruct a as [[]|]; simpl; [discriminate | auto | discriminate]. Qed.

Lemma go_not_false (a : GoResult bool) : go_not a = Returns false -> a = Returns true.
Proof. destruct a as [[]|]; simpl; [auto | discriminate | discriminate]. Qed.

(** X3: a body that passes the validation of [pushPlatformInfo] decodes:
    its cpu_svn to 16 bytes, its pce_svn and pce_id to values below 2^16, so
    that the conversions to [C.ushort] in [getBestPckCert] lose nothing and
    none of its three decoding errors can occur. *)
Theorem platformInfo_valid_decodes (platformInfo : PlatformInfo.t) :
  platformInfoInvalid platformInfo = Returns false ->
  exists cpusvn pceSvn pceID,
    hex_DecodeString (PlatformInfo.CPUSvn platformInfo) = Some cpusvn
    /\ length cpusvn = 16%nat
    /\ ParseUint_16_32 (PlatformInfo.PceSvn platformInfo) = Some pceSvn
    /\ (pceSvn mod 2 ^ 16 = pceSvn)%N
    /\ ParseUint_16_32 (PlatformInfo.PceID platformInfo) = Some pceID
    /\ (pceID mod 2 ^ 16 = pceID)%N.
Proof.
  clear_externals.
  intros H. unfold platformInfoInvalid in H.
  apply go_or_false in H as [_ H]. apply go_or_false in H as [Hcpu H].
  apply go_or_false in H as [Hsvn H]. apply go_or_false in H as [Hid _].
  apply go_not_false in Hcpu, Hsvn, Hid.
  rewrite (ValidateInputString_hex_pattern constants.CpuSvn_Key 32) in Hcpu
    by (first [discriminate | vm_compute; reflexivity]).
  rewrite (ValidateInputString_hex_pattern constants.PceSvn_Key 4) in Hsvn
    by (first [discriminate | vm_compute; reflexivity]).
  rewrite (ValidateInputString_hex_pattern constants.PceId_Key 4) in Hid
    by (first [discriminate | vm_compute; reflexivity]).
  injection Hcpu as Hcpu. injection Hsvn as Hsvn. injection Hid as Hid.
  apply andb_true_iff in Hcpu as [Hcl Hch]. apply Nat.eqb_eq in Hcl.
  apply andb_true_iff in Hsvn as [Hsl Hsh]. apply Nat.eqb_eq in Hsl.
  apply andb_true_iff in Hid as [Hil Hih]. apply Nat.eqb_eq in Hil.
  destruct (hex_DecodeString_all_hex 16 _ Hcl Hch) as (cpusvn & Hdec & Hlen).
  destruct (ParseUint_16_32_valid _ Hsl Hsh) as (pceSvn & Hp1 & Hb1).
  destruct (ParseUint_16_32_valid _ Hil Hih) as (pceID & Hp2 & Hb2).
  exists cpusvn, pceSvn, pceID. repeat split; try done; by apply N.mod_small.
Qed.

(** *** Properties of the TCB comparison *)

Lemma fold_compareStep (pck tcb : list byte) (n : nat) :
  forall a l r,
    fold_left (compareStep pck tcb) (seq a n) (l, r) =
    (l || existsb (fun i => (Byte.to_N (nth i pck Byte.x00) <? Byte.to_N (nth i tcb Byte.x00))%N)
                  (seq a n),
     r || existsb (fun i => (Byte.to_N (nth i tcb Byte.x00) <? Byte.to_N (nth i pck Byte.x00))%N)
                  (seq a n)).
Proof.
  induction n as [|n IH]; intros a l r; simpl.
  - by rewrite !orb_false_r.
  - unfold compareStep at 2. simpl. rewrite IH.
    destruct (Byte.to_N (nth a pck Byte.x00) <? Byte.to_N (nth a tcb Byte.x00))%N,
             (Byte.to_N (nth a tcb Byte.x00) <? Byte.to_N (nth a pck Byte.x00))%N,
             l, r; reflexivity.
Qed.

Lemma existsb_components (pck tcb : list byte) (lt : N -> N -> bool) :
  length pck = constants.MaxTcbLevels -> length tcb = constants.MaxTcbLevels ->
  existsb (fun i => lt (Byte.to_N (nth i pck Byte.x00)) (Byte.to_N (nth i tcb Byte.x00)))
          (seq 0 constants.MaxTcbLevels) = true <->
  exists i p t, pck !! i = Some p /\ tcb !! i = Some t /\ lt (Byte.to_N p) (Byte.to_N t) = true.
Proof.
  intros Hp Ht. rewrite existsb_exists. split.
  - intros (i & Hi & Hlt). apply in_seq in Hi.
    destruct (lookup_lt_is_Some_2 pck i) as [p Hpi]; [lia|].
    destruct (lookup_lt_is_Some_2 tcb i) as [t Hti]; [lia|].
    exists i, p, t. rewrite !nth_lookup, Hpi, Hti in Hlt. auto.
  - intros (i & p & t & Hpi & Hti & Hlt). exists i. split.
    + apply in_seq. apply lookup_lt_Some in Hpi. lia.
    + by rewrite !nth_lookup, Hpi, Hti.
Qed.

Lemma compare_flags (pck : list byte) (ps : N) (tcb : list byte) (ts : N) :
  length pck = constants.MaxTcbLevels -> length tcb = constants.MaxTcbLevels ->
  exists L R : bool,
    (L = true <-> left_lower pck ps tcb ts) /\
    (R = true <-> right_lower pck ps tcb ts) /\
    compareTcbComponents pck ps tcb ts =
      if L && R then Undefined else if L then Lower else EqualOrGreater.
Proof.
  intros Hp Ht.
  exists ((ps <? ts)%N
          || existsb (fun i => (Byte.to_N (nth i pck Byte.x00) <? Byte.to_N (nth i tcb Byte.x00))%N)
                     (seq 0 constants.MaxTcbLevels)),
         ((ts <? ps)%N
          || existsb (fun i => (Byte.to_N (nth i tcb Byte.x00) <? Byte.to_N (nth i pck Byte.x00))%N)
                     (seq 0 constants.MaxTcbLevels)).
  split; [|split].
  - rewrite orb_true_iff, N.ltb_lt, (existsb_components pck tcb N.ltb Hp Ht).
    unfold left_lower. by setoid_rewrite N.ltb_lt.
  - rewrite orb_true_iff, N.ltb_lt.
    rewrite (existsb_components pck tcb (fun a b => N.ltb b a) Hp Ht).
    unfold right_lower. by setoid_rewrite N.ltb_lt.
  - unfold compareTcbComponents. rewrite Hp, Ht, Nat.eqb_refl. simpl negb. simpl orb.
    rewrite fold_compareStep. cbn [fst snd].
    by destruct (ps <? ts)%N, (ts <? ps)%N.
Qed.

(** C2: the three-way comparison gives [Error] when a vector has not 16
    components; on two vectors of 16 it gives [Undefined] when both the
    left-lower and the right-lower flag hold, [Lower] when only the left
    one holds, and [EqualOrGreater] when the left one does not hold (only
    the right one, or neither). *)
Theorem compareTcbComponents_spec (pck : list byte) (ps : N) (tcb : list byte) (ts : N) :
  ((length pck <> 16%nat \/ length tcb <> 16%nat) ->
     compareTcbComponents pck ps tcb ts = Error) /\
  (length pck = 16%nat -> length tcb = 16%nat ->
     (left_lower pck ps tcb ts /\ right_lower pck ps tcb ts ->
        compareTcbComponents pck ps tcb ts = Undefined) /\
     (left_lower pck ps tcb ts /\ ~ right_lower pck ps tcb ts ->
        compareTcbComponents pck ps tcb ts = Lower) /\
     (~ left_lower pck ps tcb ts ->
        compareTcbComponents pck ps tcb ts = EqualOrGreater)).
Proof.
  split.
  - intros H. unfold compareTcbComponents, constants.MaxTcbLevels.
    destruct (Nat.eqb_spec (length pck) 16), (Nat.eqb_spec (length tcb) 16);
      simpl; try reflexivity. lia.
  - intros Hp Ht.
    destruct (compare_flags pck ps tcb ts Hp Ht) as (L & R & HL & HR & ->).
    repeat split.
    + intros [Hl Hr]. apply HL in Hl. apply HR in Hr. by rewrite Hl, Hr.
    + intros [Hl Hr]. apply HL in Hl. rewrite Hl.
      destruct R; [|reflexivity]. exfalso. apply Hr, HR. reflexivity.
    + intros Hl. destruct L; [|reflexivity]. exfalso. apply Hl, HL. reflexivity.
Qed.

(** *** Properties of the TCB status evaluator *)

Lemma TcbCompare_eqb_eq (a b : TcbCompare) : TcbCompare_eqb a b = true <-> a = b.
Proof. destruct a, b; simpl; split; congruence. Qed.

Lemma tcbLevelStatus_first (comps : list byte) (svn : N) (levels : list TcbLevelsType.t) :
  forall i level,
    levels !! i = Some level ->
    compareLevel comps svn level = EqualOrGreater ->
    (forall j lj, (j < i)%nat -> levels !! j = Some lj ->
                  compareLevel comps svn lj <> EqualOrGreater) ->
    tcbLevelStatus comps svn levels = TcbLevelsType.TcbStatus level.
Proof.
  induction levels as [|l0 levels IH]; intros i level Hi Heq Hbefore; [done|].
  simpl. destruct i as [|i].
  - injection Hi as ->. by rewrite Heq.
  - destruct (TcbCompare_eqb (compareLevel comps svn l0) EqualOrGreater) eqn:E.
    + apply TcbCompare_eqb_eq in E. exfalso. apply (Hbefore 0%nat l0); [lia | done | done].
    + apply (IH i level); [done | done |].
      intros j lj Hj Hlj. apply (Hbefore (S j) lj); [lia | done].
Qed.

Lemma tcbLevelStatus_none (comps : list byte) (svn : N) (levels : list TcbLevelsType.t) :
  (forall level, level ∈ levels -> compareLevel comps svn level <> EqualOrGreater) ->
  tcbLevelStatus comps svn levels = "".
Proof.
  induction levels as [|l0 levels IH]; intros Hall; [done|]. simpl.
  destruct (TcbCompare_eqb (compareLevel comps svn l0) EqualOrGreater) eqn:E.
  - apply TcbCompare_eqb_eq in E. exfalso. apply (Hall l0); [left | done].
  - apply IH. intros level Hin. apply Hall. by right.
Qed.

Lemma tcbVerdict_true (status : string) :
  status = "UpToDate" \/ status = "ConfigurationNeeded" ->
  tcbVerdict status = mkResponse "true" "TCB Status is UpToDate".
Proof. intros [-> | ->]; reflexivity. Qed.

Lemma tcbVerdict_false (status : string) :
  ~ (status = "UpToDate" \/ status = "ConfigurationNeeded") ->
  tcbVerdict status = mkResponse "false" "TCB Status is not UpToDate".
Proof.
  intros H. unfold tcbVerdict.
  destruct (String.eqb_spec status "UpToDate") as [->|_]; [exfalso; auto|].
  destruct (String.eqb_spec status "ConfigurationNeeded") as [->|_]; [exfalso; auto|].
  reflexivity.
Qed.

Lemma land_byte_shiftl (lo : byte) (x : N) :
  N.land (Byte.to_N lo) (N.shiftl x 8) = 0%N.
Proof.
  pose proof (Byte.to_N_bounded lo) as Hlo.
  apply N.bits_inj; intros n; rewrite N.land_spec, N.bits_0.
  destruct (N.lt_ge_cases n 8) as [Hn|Hn].
  - by rewrite (N.shiftl_spec_low _ _ _ Hn), andb_false_r.
  - replace (N.testbit (Byte.to_N lo) n) with false; [done|].
    symmetry. destruct (N.eq_dec (Byte.to_N lo) 0%N) as [->|Hz]; [apply N.bits_0|].
    apply N.bits_above_log2.
    apply N.lt_le_trans with 8%N; [|done].
    apply N.log2_lt_pow2; [lia|]. change (2 ^ 8)%N with 256%N. lia.
Qed.

Lemma LittleEndian_Uint16_value (lo hi : byte) (rest : list byte) :
  LittleEndian_Uint16 (lo :: hi :: rest) = Returns (Byte.to_N lo + 256 * Byte.to_N hi)%N.
Proof.
  unfold LittleEndian_Uint16. f_equal.
  rewrite <- N.lxor_lor, <- N.add_nocarry_lxor by apply land_byte_shiftl.
  rewrite N.shiftl_mul_pow2. change (2 ^ 8)%N with 256%N. lia.
Qed.

(** *** Further properties of the TCB comparison *)

Lemma compare_cases (a : list byte) (sa : N) (b : list byte) (sb : N) :
  length a = 16%nat -> length b = 16%nat ->
  (compareTcbComponents a sa b sb = EqualOrGreater <-> ~ left_lower a sa b sb)
  /\ (compareTcbComponents a sa b sb = Lower
      <-> left_lower a sa b sb /\ ~ right_lower a sa b sb)
  /\ (compareTcbComponents a sa b sb = Undefined
      <-> left_lower a sa b sb /\ right_lower a sa b sb).
Proof.
  clear_externals.
  intros Ha Hb. destruct (compare_flags a sa b sb Ha Hb) as (L & R & HL & HR & ->).
  destruct L, R; simpl; repeat split; try discriminate; try tauto;
    intuition (try discriminate; try congruence).
Qed.

Lemma compare_lengths (a : list byte) (sa : N) (b : list byte) (sb : N) :
  compareTcbComponents a sa b sb <> Error -> length a = 16%nat /\ length b = 16%nat.
Proof.
  unfold compareTcbComponents, constants.MaxTcbLevels. intros H.
  destruct (Nat.eqb_spec (length a) 16), (Nat.eqb_spec (length b) 16); simpl in H; done.
Qed.

Lemma left_right_swap (a : list byte) (sa : N) (b : list byte) (sb : N) :
  left_lower a sa b sb <-> right_lower b sb a sa.
Proof.
  unfold left_lower, right_lower. split.
  - intros [H|(i & p & t & Hp & Ht & H)]; [by left | right; exists i, t, p; auto].
  - intros [H|(i & p & t & Hp & Ht & H)]; [by left | right; exists i, t, p; auto].
Qed.

Lemma not_left_lower (a : list byte) (sa : N) (b : list byte) (sb : N) :
  ~ left_lower a sa b sb <->
  (sb <= sa)%N
  /\ forall i p t, a !! i = Some p -> b !! i = Some t -> (Byte.to_N t <= Byte.to_N p)%N.
Proof.
  unfold left_lower. split.
  - intros H. split; [lia|]. intros i p t Hp Ht.
    destruct (N.le_gt_cases (Byte.to_N t) (Byte.to_N p)) as [|Hlt]; [done|].
    exfalso. apply H. right. exists i, p, t. repeat split; try done; lia.
  - intros [Hs Hall] [H|(i & p & t & Hp & Ht & H)]; [lia|].
    specialize (Hall i p t Hp Ht). lia.
Qed.

Lemma to_N_inj (p t : byte) : Byte.to_N p = Byte.to_N t -> p = t.
Proof.
  intros H. assert (Some p = Some t) as E by (rewrite <- !Byte.of_to_N; by rewrite H).
  by injection E.
Qed.

(** X4: on two TCBs of 16 components the comparison is consistent when its
    arguments are exchanged: a TCB that is [Lower] than another has the other
    [EqualOrGreater] than itself, [Undefined] holds in both directions or in
    none, and two TCBs are [EqualOrGreater] than each other exactly when they
    are equal. *)
Theorem compareTcbComponents_exchange (a : list byte) (sa : N) (b : list byte) (sb : N) :
  length a = 16%nat -> length b = 16%nat ->
  (compareTcbComponents a sa b sb = Lower ->
     compareTcbComponents b sb a sa = EqualOrGreater)
  /\ (compareTcbComponents a sa b sb = Undefined <->
      compareTcbComponents b sb a sa = Undefined)
  /\ (compareTcbComponents a sa b sb = EqualOrGreater
      /\ compareTcbComponents b sb a sa = EqualOrGreater
      <-> a = b /\ sa = sb).
Proof.
  clear_externals.
  intros Ha Hb.
  destruct (compare_cases a sa b sb Ha Hb) as (Heg & Hlo & Hun).
  destruct (compare_cases b sb a sa Hb Ha) as (Heg' & Hlo' & Hun').
  pose proof (left_right_swap a sa b sb) as Hs1.
  pose proof (left_right_swap b sb a sa) as Hs2.
  split; [|split].
  - intros H. apply Hlo in H. apply Heg'. tauto.
  - rewrite Hun, Hun'. tauto.
  - rewrite Heg, Heg', !not_left_lower. split.
    + intros [[Hs Hall] [Hs' Hall']]. split; [|lia].
      apply list_eq. intros i.
      destruct (a !! i) as [p|] eqn:Hp.
      * destruct (lookup_lt_is_Some_2 b i) as [t Ht];
          [apply lookup_lt_Some in Hp; lia|].
        rewrite Ht. f_equal. apply to_N_inj.
        specialize (Hall i p t Hp Ht). specialize (Hall' i t p Ht Hp). lia.
      * symmetry. apply lookup_ge_None. apply lookup_ge_None in Hp. lia.
    + intros [-> ->]. assert (forall i p t, b !! i = Some p -> b !! i = Some t ->
                                            (Byte.to_N t <= Byte.to_N p)%N) as Hrefl.
      { intros i p t Hp Ht. rewrite Hp in Ht. injection Ht as ->. lia. }
      repeat split; try lia; exact Hrefl.
Qed.

Lemma compare_EqualOrGreater_trans (a : list byte) (sa : N) (b : list byte) (sb : N)
    (c : list byte) (sc : N) :
  compareTcbComponents a sa b sb = EqualOrGreater ->
  compareTcbComponents b sb c sc = EqualOrGreater ->
  compareTcbComponents a sa c sc = EqualOrGreater.
Proof.
  intros Hab Hbc.
  destruct (compare_lengths a sa b sb) as [Ha Hb]; [by rewrite Hab|].
  destruct (compare_lengths b sb c sc) as [_ Hc]; [by rewrite Hbc|].
  apply (compare_cases a sa b sb Ha Hb) in Hab.
  apply (compare_cases b sb c sc Hb Hc) in Hbc.
  apply (compare_cases a sa c sc Ha Hc).
  rewrite not_left_lower in *. destruct Hab as [Hs1 H1], Hbc as [Hs2 H2].
  split; [lia|]. intros i p t Hp Ht.
  destruct (lookup_lt_is_Some_2 b i) as [q Hq]; [apply lookup_lt_Some in Hp; lia|].
  specialize (H1 i p q Hp Hq). specialize (H2 i q t Hq Ht). lia.
Qed.

(** X5: [EqualOrGreater] is transitive: a TCB that is at least a second
    one, which is at least a third one, is at least the third one.  (An
    [EqualOrGreater] result already says that both vectors have 16
    components.) *)
Theorem compareTcbComponents_transitive (a : list byte) (sa : N) (b : list byte) (sb : N)
    (c : list byte) (sc : N) :
  compareTcbComponents a sa b sb = EqualOrGreater ->
  compareTcbComponents b sb c sc = EqualOrGreater ->
  compareTcbComponents a sa c sc = EqualOrGreater
  /\ length a = 16%nat /\ length b = 16%nat /\ length c = 16%nat.
Proof.
  clear_externals.
  intros Hab Hbc. split; [by eapply compare_EqualOrGreater_trans|].
  destruct (compare_lengths a sa b sb) as [Ha Hb]; [by rewrite Hab|].
  destruct (compare_lengths b sb c sc) as [_ Hc]; [by rewrite Hbc|]. done.
Qed.

(** X6: the status loop is monotone in the certificate: when the TCB of a
    certificate is at least the TCB of another one, and the other one is
    matched by the level at index [i], the first one is matched at an index
    not after [i], and its status is that of the level there. *)
Theorem tcbLevelStatus_monotone (a : list byte) (sa : N) (b : list byte) (sb : N)
    (levels : list TcbLevelsType.t) (i : nat) (level : TcbLevelsType.t) :
  compareTcbComponents a sa b sb = EqualOrGreater ->
  levels !! i = Some level ->
  compareLevel b sb level = EqualOrGreater ->
  exists j lj,
    (j <= i)%nat /\ levels !! j = Some lj
    /\ compareLevel a sa lj = EqualOrGreater
    /\ (forall j' lj', (j' < j)%nat -> levels !! j' = Some lj' ->
                       compareLevel a sa lj' <> EqualOrGreater)
    /\ tcbLevelStatus a sa levels = TcbLevelsType.TcbStatus lj.
Proof.
  clear_externals.
  intros Hab. revert i.
  induction levels as [|l0 levels IH]; intros i Hi Hb; [done|].
  destruct (TcbCompare_eqb (compareLevel a sa l0) EqualOrGreater) eqn:E.
  - exists 0%nat, l0. simpl. rewrite E. apply TcbCompare_eqb_eq in E.
    repeat split; [lia | done | intros; lia].
  - destruct i as [|i].
    + injection Hi as ->. exfalso.
      assert (compareLevel a sa level = EqualOrGreater) as Ha
        by (unfold compareLevel in *; by eapply compare_EqualOrGreater_trans).
      apply TcbCompare_eqb_eq in Ha. congruence.
    + destruct (IH i Hi Hb) as (j & lj & Hj & Hlj & Hcmp & Hfirst & Hst).
      exists (S j), lj. repeat split; [lia | done | done | | by simpl; rewrite E].
      intros j' lj' Hlt Hl'. destruct j' as [|j'].
      * injection Hl' as <-. intros Hc. apply TcbCompare_eqb_eq in Hc. congruence.
      * apply (Hfirst j' lj'); [lia | done].
Qed.

(** *** The monad, unfolded *)

Lemma bind_run {A B : Type} (m : M A) (f : A -> M B) (w : World) :
  (m ≫= f) w =
  match m w with
  | Done a w' => f a w'
  | Failed e w' => Failed e w'
  | Panicked msg w' => Panicked msg w'
  end.
Proof. reflexivity. Qed.

Lemma ret_run {A : Type} (a : A) (w : World) : (mret a : M A) w = Done a w.
Proof. reflexivity. Qed.

(** The handler up to the evaluation: for an authorized request whose
    [qeid] is valid and has its PckCert, Platform and FmspcTcbInfo rows, the
    reply is that of [evalTcbStatus] on the TCBM at the stored index and on
    the stored TCB info; the world is left as it was. *)
Lemma getTcbStatus_evaluates (r : http.Request) (w : World)
    (pckCert : PckCert.t) (platform : Platform.t) (tcb : FmspcTcbInfo.t) (tcbmHex : string) :
  let qeID := http.Query_Get (http.Query r) "qeid" in
  authorizeEndpoint r constants.HostDataReaderGroupName true = None ->
  http.Query r <> [] ->
  ValidateInputString constants.QeId_Key qeID = Returns true ->
  pck_certs (db w) !! qeID = Some pckCert ->
  platforms (db w) !! qeID = Some platform ->
  gorm_First (Platform.Fmspc platform) (fmspc_tcb_infos (db w)) = Some tcb ->
  PckCert.Tcbms pckCert !! N.to_nat (PckCert.CertIndex pckCert) = Some tcbmHex ->
  getTcbStatus r w = liftGo (evalTcbStatus tcbmHex (FmspcTcbInfo.TcbInfo tcb)) w.
Proof.
  intros qeID Hauth Hq Hvalid Hpc Hp Htcb Hidx.
  assert (qeID <> "") as Hne.
  { intros E. rewrite E in Hvalid. vm_compute in Hvalid. discriminate. }
  unfold getTcbStatus. rewrite Hauth.
  assert ((length (http.Query r) =? 0)%nat = false) as ->
    by (destruct (http.Query r); [done | reflexivity]).
  fold qeID.
  rewrite bind_run, Hvalid. simpl liftGo. rewrite ret_run.
  change (negb true) with false. cbv iota.
  assert (forall T (tbl : gmap string T), gorm_First qeID tbl = tbl !! qeID) as Hfirst.
  { intros T tbl. unfold gorm_First. by destruct (decide (qeID = "")). }
  rewrite bind_run.
  change (PckCertRepository.Retrieve qeID w)
    with (Done (gorm_First qeID (pck_certs (db w))) w).
  rewrite Hfirst, Hpc. cbv beta iota. rewrite bind_run.
  change (PlatformRepository.Retrieve qeID w)
    with (Done (gorm_First qeID (platforms (db w))) w).
  rewrite Hfirst, Hp. cbv beta iota. rewrite bind_run.
  change (FmspcTcbInfoRepository.Retrieve (Platform.Fmspc platform) w)
    with (Done (gorm_First (Platform.Fmspc platform) (fmspc_tcb_infos (db w))) w).
  rewrite Htcb. cbv beta iota. by rewrite Hidx.
Qed.

(** The comparison the loop makes with a level is the one the
    specification describes. *)
Lemma getTcbCompList_spec (tcb : TcbLevels.t) (i : nat) (t : byte) :
  getTcbCompList tcb !! i = Some t <-> spec_sgxtcbcompsvn (S i) tcb = Some t.
Proof.
  clear_externals.
  do 16 (destruct i as [|i]; [reflexivity|]). simpl. split; discriminate.
Qed.

Lemma compareLevel_spec (comps : list byte) (svn : N) (level : TcbLevelsType.t) :
  compareLevel comps svn level = EqualOrGreater <-> spec_EqualOrGreater comps svn level.
Proof.
  clear_externals.
  unfold compareLevel, spec_EqualOrGreater.
  assert (left_lower comps svn (getTcbCompList (TcbLevelsType.Tcb level))
                     (TcbLevels.PceSvn (TcbLevelsType.Tcb level))
          <-> spec_pck_lower comps svn level) as Hlow.
  { unfold left_lower, spec_pck_lower. split.
    - intros [H|(i & p & t & Hp & Ht & H)]; [by left|].
      right. exists i, p, t. by rewrite <- getTcbCompList_spec.
    - intros [H|(i & p & t & Hp & Ht & H)]; [by left|].
      right. exists i, p, t. by rewrite getTcbCompList_spec. }
  split.
  - intros H.
    destruct (compare_lengths comps svn (getTcbCompList (TcbLevelsType.Tcb level))
                (TcbLevels.PceSvn (TcbLevelsType.Tcb level))) as [Hc Ht]; [by rewrite H|].
    split; [exact Hc|]. rewrite <- Hlow. by apply (compare_cases _ _ _ _ Hc Ht).
  - intros [Hc Hn].
    apply (compare_cases comps svn (getTcbCompList (TcbLevelsType.Tcb level))
             (TcbLevels.PceSvn (TcbLevelsType.Tcb level)) Hc eq_refl).
    by rewrite Hlow.
Qed.

(** C1: the TCB status handler, for an authorized request with a valid
    [qeid] whose PckCert, Platform and FmspcTcbInfo rows are stored, the
    TCBM of the selected certificate decoding to 18 bytes.  It replies 200,
    and there is a status for which the verdict is ("true", "TCB Status is
    UpToDate") exactly when it is "UpToDate" or "ConfigurationNeeded", and
    ("false", "TCB Status is not UpToDate") exactly when it is not: the
    [tcbStatus] of the first level, in array order, that the 16 components
    and the little-endian PCE-SVN of the TCBM are not lower than.  When
    there is no such level the verdict is the false one. *)
Theorem getTcbStatus_verdict (r : http.Request) (w : World)
    (pckCert : PckCert.t) (platform : Platform.t) (tcb : FmspcTcbInfo.t)
    (tcbmHex : string) (comps : list byte) (lo hi : byte) (tcbInfo : TcbInfoJSON.t) :
  let qeID := http.Query_Get (http.Query r) "qeid" in
  authorizeEndpoint r constants.HostDataReaderGroupName true = None ->
  http.Query r <> [] ->
  ValidateInputString constants.QeId_Key qeID = Returns true ->
  pck_certs (db w) !! qeID = Some pckCert ->
  platforms (db w) !! qeID = Some platform ->
  gorm_First (Platform.Fmspc platform) (fmspc_tcb_infos (db w)) = Some tcb ->
  PckCert.Tcbms pckCert !! N.to_nat (PckCert.CertIndex pckCert) = Some tcbmHex ->
  hex_DecodeString tcbmHex = Some (comps ++ [lo; hi])%list ->
  length comps = 16%nat ->
  Unmarshal_TcbInfo (FmspcTcbInfo.TcbInfo tcb) = Some tcbInfo ->
  let levels := TcbInfoType.TcbLevels (TcbInfoJSON.TcbInfo tcbInfo) in
  let pckPceSvn := (Byte.to_N lo + 256 * Byte.to_N hi)%N in
  let verdict_true := Replied 200 (mkResponse "true" "TCB Status is UpToDate") in
  let verdict_false := Replied 200 (mkResponse "false" "TCB Status is not UpToDate") in
  exists status,
    (forall i level,
       levels !! i = Some level ->
       spec_EqualOrGreater comps pckPceSvn level ->
       (forall j lj, (j < i)%nat -> levels !! j = Some lj ->
                     ~ spec_EqualOrGreater comps pckPceSvn lj) ->
       status = TcbLevelsType.TcbStatus level) /\
    ((forall level, level ∈ levels -> ~ spec_EqualOrGreater comps pckPceSvn level) ->
     getTcbStatus r w = Done verdict_false w) /\
    (getTcbStatus r w = Done verdict_true w <->
     status = "UpToDate" \/ status = "ConfigurationNeeded") /\
    (getTcbStatus r w = Done verdict_false w <->
     ~ (status = "UpToDate" \/ status = "ConfigurationNeeded")).
Proof.
  clear pcs pck_cert_select QueryUnescape Unmarshal_PckCerts base64_EncodeToString.
  intros qeID Hauth Hq Hvalid Hpc Hp Htcb Hidx Hhex Hlen Hjson levels pckPceSvn
    verdict_true verdict_false.
  assert (getTcbStatus r w
          = Done (Replied 200 (tcbVerdict (tcbLevelStatus comps pckPceSvn levels))) w)
    as Hrun.
  { rewrite (getTcbStatus_evaluates r w pckCert platform tcb tcbmHex) by done.
    unfold evalTcbStatus. rewrite Hhex.
    unfold slice_to, slice_from. rewrite length_app, Hlen. simpl Nat.leb. cbv iota.
    rewrite take_app_length' by done.
    rewrite drop_app_length' by done.
    rewrite LittleEndian_Uint16_value, Hjson.
    fold levels. fold pckPceSvn.
    by destruct (tcbVerdict (tcbLevelStatus comps pckPceSvn levels)). }
  exists (tcbLevelStatus comps pckPceSvn levels). rewrite Hrun.
  split; [|split; [|split]].
  - intros i level Hi Heq Hbefore. apply (tcbLevelStatus_first _ _ _ i level Hi).
    + by apply compareLevel_spec.
    + intros j lj Hj Hlj Hc. apply (Hbefore j lj Hj Hlj). by apply compareLevel_spec.
  - intros Hall. rewrite tcbLevelStatus_none; [reflexivity|].
    intros level Hin Hc. apply (Hall level Hin). by apply compareLevel_spec.
  - split.
    + intros Hv.
      destruct (String.eqb_spec (tcbLevelStatus comps pckPceSvn levels) "UpToDate") as [E|E1];
        [by left|].
      destruct (String.eqb_spec (tcbLevelStatus comps pckPceSvn levels) "ConfigurationNeeded")
        as [E|E2]; [by right|].
      rewrite tcbVerdict_false in Hv; [discriminate | intros [?|?]; done].
    + intros Hs. by rewrite (tcbVerdict_true _ Hs).
  - split.
    + intros Hv Hs. rewrite (tcbVerdict_true _ Hs) in Hv. discriminate.
    + intros Hs. by rewrite (tcbVerdict_false _ Hs).
Qed.

(** *** Properties of the push handler *)

Lemma platformInfoInvalid_ppid (platformInfo : PlatformInfo.t) :
  (String.length (PlatformInfo.EncPpid platformInfo) =? 768)%nat
    && all_hex (PlatformInfo.EncPpid platformInfo) = false ->
  platformInfoInvalid platformInfo = Returns true.
Proof.
  intros H. unfold platformInfoInvalid.
  rewrite (ValidateInputString_hex_pattern constants.EncPPID_Key 768) by done.
  by rewrite H.
Qed.

Lemma platformInfoInvalid_qeid (platformInfo : PlatformInfo.t) :
  platformInfoInvalid platformInfo = Returns false ->
  PlatformInfo.QeID platformInfo <> "".
Proof.
  intros H E. unfold platformInfoInvalid in H. rewrite E in H.
  replace (ValidateInputString constants.QeId_Key "") with (Returns false) in H
    by (vm_compute; reflexivity).
  destruct (ValidateInputString constants.EncPPID_Key _) as [[]|]; simpl in H; try discriminate.
  destruct (ValidateInputString constants.CpuSvn_Key _) as [[]|]; simpl in H; try discriminate.
  destruct (ValidateInputString constants.PceSvn_Key _) as [[]|]; simpl in H; try discriminate.
  destruct (ValidateInputString constants.PceId_Key _) as [[]|]; simpl in H; discriminate.
Qed.

(** C8, as the code has it: the [enc_ppid] field is validated whether a
    manifest is supplied or not.  A body whose [enc_ppid] is not 768
    hexadecimal digits (absent, empty or malformed) is refused with 400
    "invalid query param data", whatever its manifest and its other fields
    are; nothing is fetched or written. *)
Theorem pushPlatformInfo_enc_ppid_required
    (r : http.Request) (w : World) (platformInfo : PlatformInfo.t) :
  authorizeEndpoint r constants.HostDataUpdaterGroupName true = None ->
  http.ContentLength r <> 0%Z ->
  decodePlatformInfo (http.Body r) = inr platformInfo ->
  (String.length (PlatformInfo.EncPpid platformInfo) =? 768)%nat
    && all_hex (PlatformInfo.EncPpid platformInfo) = false ->
  pushPlatformInfo r w =
    Done (ReturnedError (resourceError "invalid query param data" 400)) w.
Proof.
  clear Unmarshal_TcbInfo.
  intros Hauth Hlen Hdec Hppid. unfold pushPlatformInfo.
  rewrite Hauth. destruct (Z.eqb_spec (http.ContentLength r) 0) as [|_]; [done|].
  rewrite Hdec, bind_run.
  by rewrite (platformInfoInvalid_ppid _ Hppid).
Qed.

(** C5: a push that passes authorization and validation and whose QE-ID
    has a Platform row is answered 200, "Success", "platform info already
    cached"; the world is left as it was: no request to the PCS server,
    no write to the repository. *)
Theorem pushPlatformInfo_already_cached
    (r : http.Request) (w : World) (platformInfo : PlatformInfo.t) (row : Platform.t) :
  authorizeEndpoint r constants.HostDataUpdaterGroupName true = None ->
  http.ContentLength r <> 0%Z ->
  decodePlatformInfo (http.Body r) = inr platformInfo ->
  platformInfoInvalid platformInfo = Returns false ->
  platforms (db w) !! PlatformInfo.QeID platformInfo = Some row ->
  pushPlatformInfo r w =
    Done (Replied 200 (mkResponse "Success" "platform info already cached")) w.
Proof.
  intros Hauth Hlen Hdec Hvalid Hrow. unfold pushPlatformInfo.
  rewrite Hauth. destruct (Z.eqb_spec (http.ContentLength r) 0) as [|_]; [done|].
  rewrite Hdec, bind_run, Hvalid. simpl liftGo. rewrite ret_run. cbv iota.
  rewrite bind_run. unfold PlatformRepository.Retrieve, gorm_First.
  rewrite bind_run. unfold getDB. rewrite ret_run.
  destruct (decide (PlatformInfo.QeID platformInfo = "")) as [E|_].
  - by apply platformInfoInvalid_qeid in Hvalid.
  - by rewrite Hrow.
Qed.

(** *** Properties of the refresh chain *)

Lemma refreshPckCerts_empty (w : World) :
  platforms (db w) = ∅ ->
  refreshPckCerts w =
    Failed "no platform value records are found in db, cannot perform refresh" w.
Proof.
  intros H. unfold refreshPckCerts, PlatformRepository.RetrieveAll, gorm_Find.
  rewrite !bind_run. unfold getDB. rewrite ret_run, H, map_to_list_empty. reflexivity.
Qed.

(** C9: an authorized refresh-all request on an empty Platform table:
    the first step, [refreshPckCerts], fails with its not-found error, and
    the handler replies 404, "Failure", "could not find platform info in
    database"; the world is left as it was: no request to the PCS server,
    no write to the repository. *)
Theorem refreshPlatformInfo_empty (r : http.Request) (w : World) :
  authorizeEndpoint r constants.CacheManagerGroupName true = None ->
  platforms (db w) = ∅ ->
  refreshPckCerts w =
    Failed "no platform value records are found in db, cannot perform refresh" w
  /\ refreshPlatformInfo r w =
       Done (Replied 404 (mkResponse "Failure" "could not find platform info in database")) w.
Proof.
  intros Hauth Hempty. split; [by apply refreshPckCerts_empty|].
  unfold refreshPlatformInfo. rewrite Hauth, bind_run. unfold try.
  by rewrite (refreshPckCerts_empty w Hempty).
Qed.

(** *** Frame conditions *)

Lemma keeps_ret {A X : Type} (proj : SCSDatabase -> X) (a : A) : keeps proj (mret a : M A).
Proof. by intros w. Qed.

Lemma keeps_fail {A X : Type} (proj : SCSDatabase -> X) (e : string) :
  keeps proj (fail e : M A).
Proof. by intros w. Qed.

Lemma keeps_panic {A X : Type} (proj : SCSDatabase -> X) (e : string) :
  keeps proj (panic e : M A).
Proof. by intros w. Qed.

Lemma keeps_bind {A B X : Type} (proj : SCSDatabase -> X) (m : M A) (f : A -> M B) :
  keeps proj m -> (forall a, keeps proj (f a)) -> keeps proj (m ≫= f).
Proof.
  intros Hm Hf w. rewrite bind_run. specialize (Hm w).
  destruct (m w) as [a w1|e w1|msg w1]; simpl in *; [|done|done].
  by rewrite (Hf a w1).
Qed.

Lemma keeps_try {A X : Type} (proj : SCSDatabase -> X) (m : M A) :
  keeps proj m -> keeps proj (try m).
Proof. intros Hm w. specialize (Hm w). unfold try. by destruct (m w). Qed.

Lemma keeps_mapErr {A X : Type} (proj : SCSDatabase -> X) (f : string -> string) (m : M A) :
  keeps proj m -> keeps proj (mapErr f m).
Proof. intros Hm w. specialize (Hm w). unfold mapErr. by destruct (m w). Qed.

Lemma keeps_liftGo {A X : Type} (proj : SCSDatabase -> X) (r : GoResult A) :
  keeps proj (liftGo r).
Proof. destruct r; [apply keeps_ret | apply keeps_panic]. Qed.

Lemma keeps_getDB {X : Type} (proj : SCSDatabase -> X) : keeps proj getDB.
Proof. by intros w. Qed.

Lemma keeps_pcsDo {X : Type} (proj : SCSDatabase -> X) (rq : PcsRequest) :
  keeps proj (pcsDo rq).
Proof. intros w. unfold pcsDo. by destruct (pcs _ _). Qed.

Lemma keeps_readAll {X : Type} (proj : SCSDatabase -> X) resp what :
  keeps proj (readAll resp what).
Proof. unfold readAll. destruct (http.RespBody resp); [apply keeps_ret | apply keeps_fail]. Qed.

Lemma keeps_writeTable {T X : Type} (proj : SCSDatabase -> X)
    (set : gmap string T -> SCSDatabase -> SCSDatabase) res msg :
  (forall t d, proj (set t d) = proj d) -> keeps proj (writeTable set res msg).
Proof.
  intros Hset. unfold writeTable. destruct res as [t|]; [|apply keeps_fail].
  intros w. simpl. apply Hset.
Qed.

Lemma keeps_orInternalServerError {A X : Type} (proj : SCSDatabase -> X)
    (m : M A) (k : A -> M HandlerResult) :
  keeps proj m -> (forall a, keeps proj (k a)) -> keeps proj (orInternalServerError m k).
Proof.
  intros Hm Hk. unfold orInternalServerError.
  apply keeps_bind; [by apply keeps_try|]. intros [e|a]; [apply keeps_ret | apply Hk].
Qed.

Ltac keeps_step :=
  first
    [ apply keeps_ret | apply keeps_fail | apply keeps_panic | apply keeps_getDB
    | apply keeps_pcsDo | apply keeps_readAll | apply keeps_liftGo
    | apply keeps_try | apply keeps_mapErr
    | apply keeps_writeTable; intros; reflexivity
    | apply keeps_orInternalServerError; [| intros ?]
    | apply keeps_bind; [| intros ?] ].

(** The fetchers do not touch the repository. *)
Lemma keeps_fetchFmspcTcbInfo {X : Type} (proj : SCSDatabase -> X) fmspc :
  keeps proj (fetchFmspcTcbInfo fmspc).
Proof.
  unfold fetchFmspcTcbInfo, getFmspcTcbInfoFromProvServer.
  keeps_step; [keeps_step|].
  repeat (case_match; repeat keeps_step).
Qed.

Lemma keeps_fetchPckCrlInfo {X : Type} (proj : SCSDatabase -> X) ca :
  keeps proj (fetchPckCrlInfo ca).
Proof.
  unfold fetchPckCrlInfo, getPckCrlFromProvServer.
  keeps_step; [keeps_step|].
  repeat (case_match; repeat keeps_step).
Qed.

Lemma keeps_fetchQeIdentityInfo {X : Type} (proj : SCSDatabase -> X) :
  keeps proj fetchQeIdentityInfo.
Proof.
  unfold fetchQeIdentityInfo, getQeInfoFromProvServer.
  keeps_step; [keeps_step|].
  repeat (case_match; repeat keeps_step).
Qed.

Lemma keeps_fetchPckCertInfo {X : Type} (proj : SCSDatabase -> X) platform :
  keeps proj (fetchPckCertInfo platform).
Proof.
  unfold fetchPckCertInfo, getPckCertsWithManifestFromProvServer, getPckCertFromProvServer.
  case_match; [keeps_step|].
  keeps_step; [case_match; keeps_step|].
  repeat (case_match; repeat keeps_step).
Qed.

(** The steps of a push after [getLazyCachePckCert] do not touch the
    PckCert table. *)
Lemma keeps_pck_certs_getLazyCachePckCrl ca cacheType :
  keeps pck_certs (getLazyCachePckCrl ca cacheType).
Proof.
  unfold getLazyCachePckCrl. keeps_step; [apply keeps_fetchPckCrlInfo|].
  unfold cachePckCrlInfo, PckCrlRepository.Update, PckCrlRepository.Create.
  destruct cacheType; repeat keeps_step.
Qed.

Lemma keeps_pck_certs_getLazyCacheFmspcTcbInfo fmspc cacheType :
  keeps pck_certs (getLazyCacheFmspcTcbInfo fmspc cacheType).
Proof.
  unfold getLazyCacheFmspcTcbInfo. keeps_step; [apply keeps_fetchFmspcTcbInfo|].
  unfold cacheFmspcTcbInfo, FmspcTcbInfoRepository.Update, FmspcTcbInfoRepository.Create.
  destruct cacheType; repeat keeps_step.
Qed.

Lemma keeps_pck_certs_getLazyCacheQEIdentityInfo cacheType :
  keeps pck_certs (getLazyCacheQEIdentityInfo cacheType).
Proof.
  unfold getLazyCacheQEIdentityInfo. keeps_step; [apply keeps_fetchQeIdentityInfo|].
  unfold cacheQeIdentityInfo, QEIdentityRepository.Update, QEIdentityRepository.Create.
  destruct cacheType; repeat keeps_step; by intros w.
Qed.

(** *** The PckCert record of a push *)

Ltac clean_outcomes :=
  repeat
    match goal with
    | H : mret _ _ = _ |- _ => rewrite ret_run in H
    | H : Done _ _ = Done _ _ |- _ => injection H as ? ?; subst
    | H : Failed _ _ = Failed _ _ |- _ => injection H as ? ?; subst
    | H : inl _ = inl _ |- _ => injection H as ?; subst
    | H : inr _ = inr _ |- _ => injection H as ?; subst
    | H : Returns _ = Returns _ |- _ => injection H as ?; subst
    | H : Done _ _ = Failed _ _ |- _ => discriminate H
    | H : Done _ _ = Panicked _ _ |- _ => discriminate H
    | H : Failed _ _ = Done _ _ |- _ => discriminate H
    | H : Panicked _ _ = Done _ _ |- _ => discriminate H
    end.

Ltac run_in H :=
  repeat
    first
      [ rewrite bind_run in H
      | rewrite ret_run in H
      | progress unfold fail, panic, liftGo, try, mapErr in H
      | discriminate H
      | case_match; try discriminate ];
  clean_outcomes.

Lemma filterPckCerts_length (l : list PckCertsInfo.t) :
  length (fst (filterPckCerts l)) = length (snd (filterPckCerts l)).
Proof.
  induction l as [|c l IH]; [reflexivity|]. simpl.
  destruct (filterPckCerts l) as [cs ts]. simpl in IH.
  destruct (negb _); simpl; lia.
Qed.

(** [getBestPckCert] returns an index only for a certificate list that is
    not empty, and returns it as a [uint8]: the index the library reports is
    not compared with the length of the list. *)
Lemma getBestPckCert_index (platform : Platform.t) (certs : list string) (tcb : string) (idx : N) :
  getBestPckCert platform certs tcb = Returns (inr idx) ->
  (0 < length certs)%nat /\ (idx < 256)%N.
Proof.
  clear authorizeEndpoint pcs QueryUnescape Unmarshal_PckCerts Unmarshal_TcbInfo
    base64_EncodeToString.
  unfold getBestPckCert. intros H.
  destruct (hex_DecodeString _) as [cpusvn|]; [|discriminate].
  destruct (ParseUint_16_32 (Platform.PceSvn platform)) as [pceSvn|]; [|discriminate].
  destruct (ParseUint_16_32 (Platform.PceID platform)) as [pceID|]; [|discriminate].
  destruct cpusvn as [|b cpusvn]; [discriminate|].
  destruct certs as [|c certs]; [discriminate|].
  destruct (pck_cert_select _ _ _ _ _ _) as [ret certIdx] eqn:Hsel.
  destruct (Z.eqb_spec ret 0) as [->|Hret]; simpl in H.
  - injection H as <-. split; [simpl; lia|].
    apply N.mod_upper_bound. discriminate.
  - destruct (ret <? 0)%Z; [discriminate|].
    destruct (certError !! Z.to_nat ret); discriminate.
Qed.

Lemma fetchPckCertInfo_Done (platform : Platform.t) (w w' : World)
    (pc : PckCert.t) (ti : FmspcTcbInfo.t) (chain ca : string) :
  fetchPckCertInfo platform w = Done (pc, ti, chain, ca) w' ->
  PckCert.QeID pc = Platform.QeID platform
  /\ length (PckCert.PckCerts pc) = length (PckCert.Tcbms pc)
  /\ (0 < length (PckCert.PckCerts pc))%nat.
Proof.
  clear Unmarshal_TcbInfo base64_EncodeToString authorizeEndpoint.
  unfold fetchPckCertInfo. intros H. run_in H.
  all: simpl.
  all: match goal with
       | Hf : filterPckCerts ?l = (?cs, ?ts), Hb : getBestPckCert _ _ _ = _ |- _ =>
           pose proof (filterPckCerts_length l) as Hlen; rewrite Hf in Hlen; simpl in Hlen;
           apply getBestPckCert_index in Hb
       end.
  all: intuition lia.
Qed.

Lemma keeps_outcome {A X : Type} (proj : SCSDatabase -> X) (m : M A) (w : World) :
  keeps proj m ->
  forall a w', m w = Done a w' -> proj (db w') = proj (db w).
Proof. intros Hk a w' H. specialize (Hk w). by rewrite H in Hk. Qed.

(** A successful [getLazyCachePckCert] has written the record of
    [fetchPckCertInfo] under the QE-ID of the platform and has resolved the
    TCBM at its CertIndex, for the PlatformTcb row: the index is one of the
    TCBM list. *)
Lemma getLazyCachePckCert_Done (platform platform' : Platform.t) (w w' : World)
    (pc : PckCert.t) (ca : string) :
  getLazyCachePckCert platform constants.CacheInsert w = Done (pc, platform', ca) w' ->
  pck_certs (db w') !! Platform.QeID platform = Some pc
  /\ length (PckCert.PckCerts pc) = length (PckCert.Tcbms pc)
  /\ (0 < length (PckCert.PckCerts pc))%nat
  /\ (N.to_nat (PckCert.CertIndex pc) < length (PckCert.PckCerts pc))%nat.
Proof.
  clear authorizeEndpoint Unmarshal_TcbInfo base64_EncodeToString.
  intros H. unfold getLazyCachePckCert in H. rewrite bind_run in H.
  destruct (fetchPckCertInfo platform w) as [[[[pc0 ti] chain] ca0] w1| |] eqn:HF;
    try discriminate.
  apply fetchPckCertInfo_Done in HF as (Hq & Hlen & Hpos).
  rewrite bind_run in H.
  destruct (cachePckCertChainInfo chain constants.CacheInsert w1) as [cc w2| |] eqn:HC;
    try discriminate.
  rewrite bind_run in H. unfold cachePckCertInfo, PckCertRepository.Create in H.
  rewrite !bind_run in H. unfold getDB, writeTable, gorm_Create in H.
  destruct (pck_certs (db w2) !! PckCert.QeID pc0) eqn:Hfree; [discriminate|].
  match type of H with
  | match ?s with _ => _ end = _ =>
      let v := eval cbv [mbind M_bind getDB putDB mret M_ret] in s in
      change s with v in H
  end.
  cbv beta iota in H.
  match type of H with
  | ?m ?w3 = _ =>
      assert (keeps pck_certs m) as Hk;
      [ | pose proof (keeps_outcome pck_certs m w3 Hk _ _ H) as Hdb ]
  end.
  { unfold cachePlatformInfo, cachePlatformTcbInfo,
      PlatformRepository.Create, PlatformTcbRepository.Create.
    repeat keeps_step. case_match; repeat keeps_step. }
  simpl in Hdb. clear Hk.
  rewrite bind_run in H.
  match type of H with
  | match ?m ?w3 with _ => _ end = _ => destruct (m w3) as [[] w4| |]; try discriminate
  end.
  destruct (PckCert.Tcbms pc0 !! N.to_nat (PckCert.CertIndex pc0)) as [tcbm|] eqn:Hidx;
    [|discriminate].
  apply lookup_lt_Some in Hidx.
  assert (pc = pc0) as ->.
  { run_in H. reflexivity. }
  split; [rewrite Hdb, <- Hq; apply lookup_insert_eq|].
  split; [exact Hlen|]. split; [exact Hpos | lia].
Qed.


(** *** A response without certificates *)

Lemma filterPckCerts_all_unavailable (pckCerts : list PckCertsInfo.t) :
  Forall (fun c => PckCertsInfo.Cert c = "Not available") pckCerts ->
  filterPckCerts pckCerts = ([], []).
Proof.
  induction 1 as [|c l Hc _ IH]; [reflexivity|]. simpl. by rewrite IH, Hc.
Qed.

(** On an empty certificate list [getBestPckCert] never reaches the
    selection library: it returns a decoding error of the platform values
    or panics on [&certs[0]]. *)
Lemma getBestPckCert_no_certs (platform : Platform.t) (tcb : string) :
  getBestPckCert platform [] tcb = Panics index_out_of_range
  \/ getBestPckCert platform [] tcb = Returns (inl "could not decode cpusvn string")
  \/ getBestPckCert platform [] tcb = Returns (inl "could not parse pcesvn string")
  \/ getBestPckCert platform [] tcb = Returns (inl "could not parse pceid string").
Proof.
  unfold getBestPckCert.
  destruct (hex_DecodeString _) as [cpusvn|]; [|auto].
  destruct (ParseUint_16_32 (Platform.PceSvn platform)); [|auto].
  destruct (ParseUint_16_32 (Platform.PceID platform)); [|auto].
  destruct cpusvn; auto.
Qed.

Lemma fetchFmspcTcbInfo_ok (fmspc : string) (w : World) (resp : http.Response) (body : string) :
  pcs (pcs_requests w) (GetTcb fmspc) = inr resp ->
  http.StatusCode resp = 200%Z ->
  http.RespContentLength resp <> 0%Z ->
  http.RespBody resp = Some body ->
  fetchFmspcTcbInfo fmspc w =
    Done (FmspcTcbInfo.mk fmspc body
            (http.Header_Get (http.Header resp) "Sgx-Tcb-Info-Issuer-Chain"))
         (mkWorld (db w) (pcs_requests w ++ [GetTcb fmspc])).
Proof.
  intros Hpcs Hst Hlen Hbody.
  unfold fetchFmspcTcbInfo, getFmspcTcbInfoFromProvServer. rewrite bind_run.
  unfold pcsDo. rewrite Hpcs. cbv beta iota. rewrite Hst.
  change (negb (200 =? http.StatusOK)%Z) with false. cbv beta iota zeta.
  destruct (Z.eqb_spec (http.RespContentLength resp) 0) as [|_]; [done|].
  rewrite bind_run. unfold readAll. by rewrite Hbody.
Qed.

(** C3, on the code: when every entry of the /pckcerts array is marked
    "Not available", nothing is left after the filter, and once the TCB
    info is fetched [getBestPckCert] indexes the empty certificate array:
    [fetchPckCertInfo] panics; it returns no selection error. *)
Theorem fetchPckCertInfo_all_not_available
    (platform : Platform.t) (w : World) (resp tcbResp : http.Response)
    (body tcbBody : string) (pckCerts : list PckCertsInfo.t)
    (cpusvn : list byte) (pceSvn pceID : N) :
  let rq :=
    if negb (String.eqb (Platform.Manifest platform) "")
    then GetPckCertsWithManifest (Platform.Manifest platform) (Platform.PceID platform)
    else GetPckCerts (Platform.Encppid platform) (Platform.PceID platform) in
  let fmspc := http.Header_Get (http.Header resp) "Sgx-Fmspc" in
  (Platform.Encppid platform <> "" \/ Platform.Manifest platform <> "") ->
  pcs (pcs_requests w) rq = inr resp ->
  http.StatusCode resp = 200%Z ->
  http.RespContentLength resp <> 0%Z ->
  http.RespBody resp = Some body ->
  Unmarshal_PckCerts body = Some pckCerts ->
  Forall (fun c => PckCertsInfo.Cert c = "Not available") pckCerts ->
  pcs (pcs_requests w ++ [rq]) (GetTcb fmspc) = inr tcbResp ->
  http.StatusCode tcbResp = 200%Z ->
  http.RespContentLength tcbResp <> 0%Z ->
  http.RespBody tcbResp = Some tcbBody ->
  hex_DecodeString (Platform.CPUSvn platform) = Some cpusvn ->
  ParseUint_16_32 (Platform.PceSvn platform) = Some pceSvn ->
  ParseUint_16_32 (Platform.PceID platform) = Some pceID ->
  filterPckCerts pckCerts = ([], [])
  /\ fetchPckCertInfo platform w =
       Panicked index_out_of_range
                (mkWorld (db w) ((pcs_requests w ++ [rq]) ++ [GetTcb fmspc])).
Proof.
  clear Unmarshal_TcbInfo base64_EncodeToString authorizeEndpoint.
  intros rq fmspc Hsome Hpcs Hst Hlen Hbody Hjson Hall Htcb Htst Htlen Htbody Hcpu Hsvn Hid.
  split; [by apply filterPckCerts_all_unavailable|].
  unfold fetchPckCertInfo.
  assert (String.eqb (Platform.Encppid platform) "" && String.eqb (Platform.Manifest platform) ""
          = false) as ->.
  { destruct (String.eqb_spec (Platform.Encppid platform) ""),
             (String.eqb_spec (Platform.Manifest platform) ""); simpl; intuition. }
  rewrite bind_run.
  assert ((if negb (String.eqb (Platform.Manifest platform) "")
           then getPckCertsWithManifestFromProvServer
                  (Platform.Manifest platform) (Platform.PceID platform)
           else getPckCertFromProvServer
                  (Platform.Encppid platform) (Platform.PceID platform)) = pcsDo rq) as ->.
  { unfold rq. by destruct (negb _). }
  unfold pcsDo at 1. rewrite Hpcs. cbv beta iota. rewrite Hst.
  change (negb (200 =? http.StatusOK)%Z) with false. cbv beta iota zeta.
  destruct (Z.eqb_spec (http.RespContentLength resp) 0) as [|_]; [done|].
  rewrite bind_run. unfold readAll. rewrite Hbody, ret_run, Hjson.
  rewrite (filterPckCerts_all_unavailable _ Hall).
  rewrite bind_run.
  rewrite (fetchFmspcTcbInfo_ok fmspc _ tcbResp tcbBody); try done.
  rewrite bind_run. unfold getBestPckCert. rewrite Hcpu, Hsvn, Hid.
  by destruct cpusvn.
Qed.

(** *** Responses without an issuer-chain header *)

(** C6, as the code has it: a 200 response with a non-empty, readable
    body is accepted without its issuer-chain header.  [fetchFmspcTcbInfo],
    [fetchPckCrlInfo] and [fetchQeIdentityInfo] return the collateral
    record with the empty string as issuer chain, and a successful
    [fetchPckCertInfo] hands back the empty string as PCK certificate
    chain. *)
Theorem fetch_without_issuer_chain (w : World) (resp : http.Response) (body : string) :
  http.StatusCode resp = 200%Z ->
  http.RespContentLength resp <> 0%Z ->
  http.RespBody resp = Some body ->
  (forall fmspc,
     pcs (pcs_requests w) (GetTcb fmspc) = inr resp ->
     http.Header resp !! "Sgx-Tcb-Info-Issuer-Chain" = None ->
     fetchFmspcTcbInfo fmspc w =
       Done (FmspcTcbInfo.mk fmspc body "")
            (mkWorld (db w) (pcs_requests w ++ [GetTcb fmspc])))
  /\ (forall ca,
     pcs (pcs_requests w) (GetPckCrl ca constants.EncodingValue) = inr resp ->
     http.Header resp !! "Sgx-Pck-Crl-Issuer-Chain" = None ->
     fetchPckCrlInfo ca w =
       Done (PckCrl.mk ca (base64_EncodeToString body) "")
            (mkWorld (db w) (pcs_requests w ++ [GetPckCrl ca constants.EncodingValue])))
  /\ (pcs (pcs_requests w) GetQeIdentity = inr resp ->
     http.Header resp !! "Sgx-Enclave-Identity-Issuer-Chain" = None ->
     fetchQeIdentityInfo w =
       Done (QEIdentity.mk body "")
            (mkWorld (db w) (pcs_requests w ++ [GetQeIdentity])))
  /\ (forall platform pc ti chain ca w',
     pcs (pcs_requests w)
         (if negb (String.eqb (Platform.Manifest platform) "")
          then GetPckCertsWithManifest (Platform.Manifest platform) (Platform.PceID platform)
          else GetPckCerts (Platform.Encppid platform) (Platform.PceID platform))
       = inr resp ->
     http.Header resp !! "Sgx-Pck-Certificate-Issuer-Chain" = None ->
     fetchPckCertInfo platform w = Done (pc, ti, chain, ca) w' ->
     chain = "").
Proof.
  clear Unmarshal_TcbInfo authorizeEndpoint.
  intros Hst Hlen Hbody. split; [|split; [|split]].
  - intros fmspc Hpcs Hhdr.
    rewrite (fetchFmspcTcbInfo_ok fmspc w resp body) by done.
    unfold http.Header_Get. by rewrite Hhdr.
  - intros ca Hpcs Hhdr.
    unfold fetchPckCrlInfo, getPckCrlFromProvServer. rewrite bind_run.
    unfold pcsDo. rewrite Hpcs. cbv beta iota. rewrite Hst.
  change (negb (200 =? http.StatusOK)%Z) with false. cbv beta iota zeta.
    destruct (Z.eqb_spec (http.RespContentLength resp) 0) as [|_]; [done|].
    rewrite bind_run. unfold readAll, http.Header_Get. by rewrite Hbody, Hhdr.
  - intros Hpcs Hhdr.
    unfold fetchQeIdentityInfo, getQeInfoFromProvServer. rewrite bind_run.
    unfold pcsDo. rewrite Hpcs. cbv beta iota. rewrite Hst.
  change (negb (200 =? http.StatusOK)%Z) with false. cbv beta iota zeta.
    destruct (Z.eqb_spec (http.RespContentLength resp) 0) as [|_]; [done|].
    rewrite bind_run. unfold readAll, http.Header_Get. by rewrite Hbody, Hhdr.
  - intros platform pc ti chain ca w' Hpcs Hhdr H.
    unfold fetchPckCertInfo in H.
    destruct (_ && _); [discriminate|].
    rewrite bind_run in H.
    assert (forall rq, pcs (pcs_requests w) rq = inr resp -> pcsDo rq w =
              Done resp (mkWorld (db w) (pcs_requests w ++ [rq]))) as Hdo.
    { intros rq Hrq. unfold pcsDo. by rewrite Hrq. }
    unfold getPckCertsWithManifestFromProvServer, getPckCertFromProvServer in H.
    destruct (negb _); rewrite (Hdo _ Hpcs) in H; run_in H;
      unfold http.Header_Get; by rewrite Hhdr.
Qed.

(** *** Further properties of the TCB status handler *)

(** X7: a stored TCBM that decodes to fewer than 18 bytes makes the handler
    panic, on one of its slice expressions or in [Uint16]: it returns no
    error and no verdict, whatever the TCB info is. *)
Theorem evalTcbStatus_short_tcbm (tcbmHex tcbInfoJSON : string) (tcbm : list byte) :
  hex_DecodeString tcbmHex = Some tcbm ->
  (length tcbm < 18)%nat ->
  exists msg, evalTcbStatus tcbmHex tcbInfoJSON = Panics msg.
Proof.
  clear_externals.
  intros Hhex Hlen. unfold evalTcbStatus. rewrite Hhex. unfold slice_to, slice_from.
  destruct (Nat.leb_spec 16 (length tcbm)) as [Hge|Hlt]; [|eauto].
  assert (length (skipn 16 tcbm) <= 1)%nat as Hrest by (rewrite length_skipn; lia).
  destruct (skipn 16 tcbm) as [|x [|y rest]]; simpl in *; [eauto | eauto | lia].
Qed.

(** X8: the handler reads the first 18 bytes of the TCBM only: two stored
    TCBMs that agree on them get the same answer, whatever follows in the
    longer one and whatever the TCB info is. *)
Theorem evalTcbStatus_first_18_bytes (tcbmHex tcbmHex' tcbInfoJSON : string)
    (comps : list byte) (lo hi : byte) (rest : list byte) :
  length comps = 16%nat ->
  hex_DecodeString tcbmHex = Some (comps ++ [lo; hi])%list ->
  hex_DecodeString tcbmHex' = Some (comps ++ lo :: hi :: rest)%list ->
  evalTcbStatus tcbmHex' tcbInfoJSON = evalTcbStatus tcbmHex tcbInfoJSON.
Proof.
  clear_externals.
  intros Hlen H1 H2. unfold evalTcbStatus. rewrite H1, H2.
  unfold slice_to, slice_from. rewrite !length_app, Hlen. simpl Nat.leb. cbv iota.
  rewrite !take_app_length' by done. rewrite !drop_app_length' by done.
  by rewrite !LittleEndian_Uint16_value.
Qed.

(** X9: the TCB status handler only reads: whatever the request and
    whatever the outcome (a reply, a returned error or a panic), the
    repository is as before and no request went to the PCS server. *)
Theorem getTcbStatus_readonly (r : http.Request) (w : World) :
  outcome_world (getTcbStatus r w) = w.
Proof.
  unfold getTcbStatus, PckCertRepository.Retrieve, PlatformRepository.Retrieve,
    FmspcTcbInfoRepository.Retrieve.
  destruct (authorizeEndpoint r _ true); [reflexivity|].
  destruct (length (http.Query r) =? 0)%nat; [reflexivity|].
  rewrite bind_run. unfold liftGo.
  destruct (ValidateInputString _ _) as [[]|]; [|reflexivity|reflexivity].
  rewrite ret_run. change (negb true) with false. cbv iota.
  rewrite !bind_run. unfold getDB. rewrite !ret_run.
  destruct (gorm_First _ (pck_certs (db w))); [|reflexivity].
  rewrite !bind_run, !ret_run.
  destruct (gorm_First _ (platforms (db w))); [|reflexivity].
  rewrite !bind_run, !ret_run.
  destruct (gorm_First _ (fmspc_tcb_infos (db w))); [|reflexivity].
  destruct (_ !! _); [|reflexivity].
  unfold liftGo. by destruct (evalTcbStatus _ _).
Qed.

(** X10: the refusals of the TCB status handler, for an authorized request:
    400 "query data not provided" without query parameters, 400 "invalid
    qeid" when [qeid] is not 32 hexadecimal digits, and 404 when the PckCert
    row, then the Platform row, then the FmspcTcbInfo row is missing. *)
Theorem getTcbStatus_refusals (r : http.Request) (w : World) :
  authorizeEndpoint r constants.HostDataReaderGroupName true = None ->
  let qeID := http.Query_Get (http.Query r) "qeid" in
  (http.Query r = [] ->
     getTcbStatus r w = Done (ReturnedError (resourceError "query data not provided" 400)) w)
  /\ (http.Query r <> [] ->
      ((String.length qeID =? 32)%nat && all_hex qeID = false ->
         getTcbStatus r w = Done (ReturnedError (resourceError "invalid qeid" 400)) w)
      /\ ((String.length qeID =? 32)%nat && all_hex qeID = true ->
          (pck_certs (db w) !! qeID = None ->
             exists msg, getTcbStatus r w = Done (ReturnedError (resourceError msg 404)) w)
          /\ (forall pckCert,
                pck_certs (db w) !! qeID = Some pckCert ->
                platforms (db w) !! qeID = None ->
                exists msg, getTcbStatus r w = Done (ReturnedError (resourceError msg 404)) w)
          /\ (forall pckCert platform,
                pck_certs (db w) !! qeID = Some pckCert ->
                platforms (db w) !! qeID = Some platform ->
                gorm_First (Platform.Fmspc platform) (fmspc_tcb_infos (db w)) = None ->
                exists msg,
                  getTcbStatus r w = Done (ReturnedError (resourceError msg 404)) w))).
Proof.
  intros Hauth qeID. unfold getTcbStatus. rewrite Hauth. split.
  - intros ->. reflexivity.
  - intros Hq.
    assert ((length (http.Query r) =? 0)%nat = false) as ->
      by (destruct (http.Query r); [done | reflexivity]).
    fold qeID. rewrite bind_run.
    rewrite (ValidateInputString_hex_pattern constants.QeId_Key 32)
      by (first [discriminate | vm_compute; reflexivity]).
    simpl liftGo. rewrite ret_run. split.
    + intros ->. reflexivity.
    + intros Hv. rewrite Hv. change (negb true) with false. cbv iota.
      assert (qeID <> "") as Hne.
      { intros E. rewrite E in Hv. vm_compute in Hv. discriminate. }
      assert (forall T (tbl : gmap string T), gorm_First qeID tbl = tbl !! qeID) as Hfirst.
      { intros T tbl. unfold gorm_First. by destruct (decide (qeID = "")). }
      rewrite bind_run.
      change (PckCertRepository.Retrieve qeID w)
        with (Done (gorm_First qeID (pck_certs (db w))) w).
      rewrite Hfirst. split; [|split].
      * intros ->. eauto.
      * intros pckCert -> Hp. cbv beta iota. rewrite bind_run.
        change (PlatformRepository.Retrieve qeID w)
          with (Done (gorm_First qeID (platforms (db w))) w).
        rewrite Hfirst, Hp. eauto.
      * intros pckCert platform -> Hp Ht. cbv beta iota. rewrite bind_run.
        change (PlatformRepository.Retrieve qeID w)
          with (Done (gorm_First qeID (platforms (db w))) w).
        rewrite Hfirst, Hp. cbv beta iota. rewrite bind_run.
        change (FmspcTcbInfoRepository.Retrieve (Platform.Fmspc platform) w)
          with (Done (gorm_First (Platform.Fmspc platform) (fmspc_tcb_infos (db w))) w).
        rewrite Ht. eauto.
Qed.

(** *** Further properties of the push handler *)

Lemma bind_Done_inv {A B : Type} (m : M A) (f : A -> M B) (w w' : World) (b : B) :
  (m ≫= f) w = Done b w' -> exists a w1, m w = Done a w1 /\ f a w1 = Done b w'.
Proof. rewrite bind_run. destruct (m w) as [a w1| |]; [eauto | discriminate ..]. Qed.

Lemma orInternalServerError_inv {A : Type} (m : M A) (k : A -> M HandlerResult)
    (w w' : World) (res : HandlerResult) :
  orInternalServerError m k w = Done res w' ->
  (exists err, res = ReturnedError (resourceError err 500))
  \/ exists a w1, m w = Done a w1 /\ k a w1 = Done res w'.
Proof.
  unfold orInternalServerError. rewrite bind_run. unfold try.
  destruct (m w) as [a w1|e w1|]; [eauto | | discriminate].
  rewrite ret_run. intros H. injection H as <- <-. eauto.
Qed.

(** X11: the answers of an authorized push are 400, 200 "already cached",
    201 "Created" and 500; with 400 and 200 the world is as before: every
    refusal of the input comes before any repository write and any request
    to the PCS server. *)
Theorem pushPlatformInfo_answers (r : http.Request) (w w' : World) (res : HandlerResult) :
  authorizeEndpoint r constants.HostDataUpdaterGroupName true = None ->
  pushPlatformInfo r w = Done res w' ->
  ((exists msg, res = ReturnedError (resourceError msg 400)) /\ w' = w)
  \/ (res = Replied 200 (mkResponse "Success" "platform info already cached") /\ w' = w)
  \/ res = Replied 201 (mkResponse "Created" "platform data pushed to scs")
  \/ exists msg, res = ReturnedError (resourceError msg 500).
Proof.
  intros Hauth H. unfold pushPlatformInfo in H. rewrite Hauth in H.
  destruct (http.ContentLength r =? 0)%Z.
  { injection H as <- <-. left. eauto. }
  destruct (decodePlatformInfo (http.Body r)) as [e|platformInfo].
  { injection H as <- <-. left. eauto. }
  rewrite bind_run in H. unfold liftGo in H.
  destruct (platformInfoInvalid platformInfo) as [[]|]; [| |discriminate].
  { injection H as <- <-. left. eauto. }
  rewrite ret_run in H. cbv iota in H.
  apply bind_Done_inv in H as (existing & w1 & HR & H).
  assert (w1 = w) as -> by (by injection HR).
  destruct existing.
  { injection H as <- <-. auto. }
  do 2 right.
  apply orInternalServerError_inv in H as [|([[pc platform] ca] & w2 & _ & H)]; [auto|].
  apply bind_Done_inv in H as (? & w3 & _ & H).
  apply orInternalServerError_inv in H as [|(? & w4 & _ & H)]; [auto|].
  apply bind_Done_inv in H as (? & w5 & _ & H).
  apply orInternalServerError_inv in H as [|(? & w6 & _ & H)]; [auto|].
  apply bind_Done_inv in H as (? & w7 & _ & H).
  apply orInternalServerError_inv in H as [|(? & w8 & _ & H)]; [auto|].
  injection H as <- <-. auto.
Qed.

(** *** Further properties of the fetchers *)

Lemma pcsDo_run (rq : PcsRequest) (w : World) :
  pcsDo rq w =
  match pcs (pcs_requests w) rq with
  | inl err => Failed err (mkWorld (db w) (pcs_requests w ++ [rq]))
  | inr resp => Done resp (mkWorld (db w) (pcs_requests w ++ [rq]))
  end.
Proof. reflexivity. Qed.

Lemma fetchFmspcTcbInfo_one_call (w : World) (fmspc : string) :
  outcome_world (fetchFmspcTcbInfo fmspc w)
    = mkWorld (db w) (pcs_requests w ++ [GetTcb fmspc])%list
  /\ forall msg w', fetchFmspcTcbInfo fmspc w <> Panicked msg w'.
Proof.
  unfold fetchFmspcTcbInfo, getFmspcTcbInfoFromProvServer, readAll.
  rewrite bind_run, pcsDo_run.
  destruct (pcs _ _) as [e|resp]; try done.
  destruct (negb _); try done.
  destruct (http.RespContentLength resp =? 0)%Z; try done.
  rewrite bind_run; by destruct (http.RespBody resp).
Qed.

(** X12: each of the three fetchers of one collateral calls the upstream
    client exactly once, with the request for its own collateral and key,
    whatever the outcome of the call is; it leaves the repository as it is,
    and does not panic. *)
Theorem fetch_calls_client_once (w : World) :
  (forall fmspc,
     outcome_world (fetchFmspcTcbInfo fmspc w)
       = mkWorld (db w) (pcs_requests w ++ [GetTcb fmspc])
     /\ forall msg w', fetchFmspcTcbInfo fmspc w <> Panicked msg w')
  /\ (forall ca,
     outcome_world (fetchPckCrlInfo ca w)
       = mkWorld (db w) (pcs_requests w ++ [GetPckCrl ca "der"])
     /\ forall msg w', fetchPckCrlInfo ca w <> Panicked msg w')
  /\ (outcome_world (fetchQeIdentityInfo w)
       = mkWorld (db w) (pcs_requests w ++ [GetQeIdentity])
     /\ forall msg w', fetchQeIdentityInfo w <> Panicked msg w').
Proof.
  clear_externals.
  unfold fetchFmspcTcbInfo, fetchPckCrlInfo, fetchQeIdentityInfo,
    getFmspcTcbInfoFromProvServer, getPckCrlFromProvServer, getQeInfoFromProvServer,
    constants.EncodingValue, readAll.
  repeat split; intros; rewrite bind_run, pcsDo_run;
    destruct (pcs _ _) as [e|resp]; try done;
    destruct (negb _); try done;
    destruct (http.RespContentLength resp =? 0)%Z; try done;
    rewrite bind_run; destruct (http.RespBody resp); done.
Qed.

Lemma fetchFmspcTcbInfo_run (fmspc : string) (w : World) (resp : http.Response) :
  pcs (pcs_requests w) (GetTcb fmspc) = inr resp ->
  fetchFmspcTcbInfo fmspc w =
    let w1 := mkWorld (db w) (pcs_requests w ++ [GetTcb fmspc]) in
    if negb (http.StatusCode resp =? 200)%Z then
      Failed "get tcb info api call failed with pcs" w1
    else if (http.RespContentLength resp =? 0)%Z then
      Failed "no content found in getTCBInfo Http Response" w1
    else
      match http.RespBody resp with
      | Some body =>
          Done (FmspcTcbInfo.mk fmspc body
                  (http.Header_Get (http.Header resp) "Sgx-Tcb-Info-Issuer-Chain")) w1
      | None => Failed "could not read getTCBInfo http response" w1
      end.
Proof.
  intros H. unfold fetchFmspcTcbInfo, getFmspcTcbInfoFromProvServer, readAll.
  rewrite bind_run, pcsDo_run, H. cbv beta iota zeta.
  change http.StatusOK with 200%Z.
  destruct (negb _); [done|]. destruct (_ =? 0)%Z; [done|].
  rewrite bind_run. by destruct (http.RespBody resp).
Qed.

Lemma fetchPckCrlInfo_run (ca : string) (w : World) (resp : http.Response) :
  pcs (pcs_requests w) (GetPckCrl ca "der") = inr resp ->
  fetchPckCrlInfo ca w =
    let w1 := mkWorld (db w) (pcs_requests w ++ [GetPckCrl ca "der"]) in
    if negb (http.StatusCode resp =? 200)%Z then
      Failed "get revocation list api call failed with pcs" w1
    else if (http.RespContentLength resp =? 0)%Z then
      Failed "no content found in getPCkCrl Http Response" w1
    else
      match http.RespBody resp with
      | Some body =>
          Done (PckCrl.mk ca (base64_EncodeToString body)
                  (http.Header_Get (http.Header resp) "Sgx-Pck-Crl-Issuer-Chain")) w1
      | None => Failed "could not read getPckCrl http response" w1
      end.
Proof.
  intros H. unfold fetchPckCrlInfo, getPckCrlFromProvServer, readAll,
    constants.EncodingValue.
  rewrite bind_run, pcsDo_run, H. cbv beta iota zeta.
  change http.StatusOK with 200%Z.
  destruct (negb _); [done|]. destruct (_ =? 0)%Z; [done|].
  rewrite bind_run. by destruct (http.RespBody resp).
Qed.

Lemma fetchQeIdentityInfo_run (w : World) (resp : http.Response) :
  pcs (pcs_requests w) GetQeIdentity = inr resp ->
  fetchQeIdentityInfo w =
    let w1 := mkWorld (db w) (pcs_requests w ++ [GetQeIdentity]) in
    if negb (http.StatusCode resp =? 200)%Z then
      Failed "get qe identity api call failed with pcs" w1
    else if (http.RespContentLength resp =? 0)%Z then
      Failed "no content found in getQeIdentity Http Response" w1
    else
      match http.RespBody resp with
      | Some body =>
          Done (QEIdentity.mk body
                  (http.Header_Get (http.Header resp) "Sgx-Enclave-Identity-Issuer-Chain")) w1
      | None => Failed "could not read getQeIdentity http response" w1
      end.
Proof.
  intros H. unfold fetchQeIdentityInfo, getQeInfoFromProvServer, readAll.
  rewrite bind_run, pcsDo_run, H. cbv beta iota zeta.
  change http.StatusOK with 200%Z.
  destruct (negb _); [done|]. destruct (_ =? 0)%Z; [done|].
  rewrite bind_run. by destruct (http.RespBody resp).
Qed.

Ltac fetch_cases resp :=
  cbv zeta;
  destruct (Z.eqb_spec (http.StatusCode resp) 200) as [Hst|Hst]; cbn [negb]; cbv iota;
  [ destruct (Z.eqb_spec (http.RespContentLength resp) 0) as [Hcl|Hcl];
    [ | destruct (http.RespBody resp) as [body|] eqn:Hbody ] | ];
  (split;
   [ split;
     [ intros (rec & w' & HD); first [ discriminate HD | (repeat split; eauto) ]
     | intros (Hs & Hc & Hb); first [ done | by destruct Hb | eauto ] ]
   | intros rec w' HD; first [ discriminate HD | (injection HD as <- <-; done) ] ]).

(** X13: a fetch of the TCB info, of the PCK CRL or of the QE identity
    succeeds exactly when the status is 200, the Content-Length of the
    response is not 0 and the body can be read; the record then carries the
    body as it came (the CRL base64-encoded) and the value of the
    issuer-chain header.  The body itself is not examined: an empty body
    with an unknown Content-Length is stored. *)
Theorem fetch_succeeds_iff (w : World) (resp : http.Response) :
  let ok := http.StatusCode resp = 200%Z /\ http.RespContentLength resp <> 0%Z
            /\ is_Some (http.RespBody resp) in
  (forall fmspc,
     pcs (pcs_requests w) (GetTcb fmspc) = inr resp ->
     ((exists rec w', fetchFmspcTcbInfo fmspc w = Done rec w') <-> ok)
     /\ forall rec w', fetchFmspcTcbInfo fmspc w = Done rec w' ->
          Some (FmspcTcbInfo.TcbInfo rec) = http.RespBody resp
          /\ FmspcTcbInfo.Fmspc rec = fmspc
          /\ FmspcTcbInfo.TcbInfoIssuerChain rec
             = http.Header_Get (http.Header resp) "Sgx-Tcb-Info-Issuer-Chain")
  /\ (forall ca,
     pcs (pcs_requests w) (GetPckCrl ca "der") = inr resp ->
     ((exists rec w', fetchPckCrlInfo ca w = Done rec w') <-> ok)
     /\ forall rec w', fetchPckCrlInfo ca w = Done rec w' ->
          Some (PckCrl.PckCrl rec) = base64_EncodeToString <$> http.RespBody resp
          /\ PckCrl.Ca rec = ca
          /\ PckCrl.PckCrlCertChain rec
             = http.Header_Get (http.Header resp) "Sgx-Pck-Crl-Issuer-Chain")
  /\ (pcs (pcs_requests w) GetQeIdentity = inr resp ->
     ((exists rec w', fetchQeIdentityInfo w = Done rec w') <-> ok)
     /\ forall rec w', fetchQeIdentityInfo w = Done rec w' ->
          Some (QEIdentity.QeInfo rec) = http.RespBody resp
          /\ QEIdentity.QeIssuerChain rec
             = http.Header_Get (http.Header resp) "Sgx-Enclave-Identity-Issuer-Chain").
Proof.
  clear_externals.
  intros ok. unfold ok. split; [|split].
  - intros fmspc H. rewrite (fetchFmspcTcbInfo_run _ _ _ H). clear H. fetch_cases resp.
  - intros ca H. rewrite (fetchPckCrlInfo_run _ _ _ H). clear H. fetch_cases resp.
  - intros H. rewrite (fetchQeIdentityInfo_run _ _ H). clear H. fetch_cases resp.
Qed.

(** X14: the calls [fetchPckCertInfo] makes of the upstream client.
    Without an encrypted PPID and without a manifest it fails at once and
    makes none.  Otherwise its first call is the one for the PCK
    certificates, by the manifest when there is one, also when an encrypted
    PPID is there, and by the encrypted PPID when there is none; at most one
    more call follows, for the TCB info of the FMSPC named in the
    [Sgx-Fmspc] header of the first answer.  The repository is left as it
    is. *)
Theorem fetchPckCertInfo_client_calls (platform : Platform.t) (w : World) :
  let rq :=
    if negb (String.eqb (Platform.Manifest platform) "")
    then GetPckCertsWithManifest (Platform.Manifest platform) (Platform.PceID platform)
    else GetPckCerts (Platform.Encppid platform) (Platform.PceID platform) in
  (Platform.Encppid platform = "" /\ Platform.Manifest platform = "" ->
     fetchPckCertInfo platform w
       = Failed "invalid request, enc_ppid and platform_manifest are null" w)
  /\ (Platform.Encppid platform <> "" \/ Platform.Manifest platform <> "" ->
      db (outcome_world (fetchPckCertInfo platform w)) = db w
      /\ (pcs_requests (outcome_world (fetchPckCertInfo platform w))
            = (pcs_requests w ++ [rq])%list
          \/ exists resp,
               pcs (pcs_requests w) rq = inr resp
               /\ pcs_requests (outcome_world (fetchPckCertInfo platform w))
                  = (pcs_requests w
                     ++ [rq; GetTcb (http.Header_Get (http.Header resp) "Sgx-Fmspc")])%list)).
Proof.
  clear authorizeEndpoint Unmarshal_TcbInfo
    base64_EncodeToString.
  intros rq. split.
  - intros [He Hm]. unfold fetchPckCertInfo. by rewrite He, Hm.
  - intros Hsome. split; [apply (keeps_fetchPckCertInfo (fun d => d))|].
    unfold fetchPckCertInfo.
    assert (String.eqb (Platform.Encppid platform) "" && String.eqb (Platform.Manifest platform) ""
            = false) as ->.
    { destruct (String.eqb_spec (Platform.Encppid platform) ""),
               (String.eqb_spec (Platform.Manifest platform) ""); simpl; intuition. }
    rewrite bind_run.
    assert ((if negb (String.eqb (Platform.Manifest platform) "")
             then getPckCertsWithManifestFromProvServer
                    (Platform.Manifest platform) (Platform.PceID platform)
             else getPckCertFromProvServer
                    (Platform.Encppid platform) (Platform.PceID platform)) = pcsDo rq) as ->.
    { unfold rq. by destruct (negb _). }
    clearbody rq. rewrite pcsDo_run. destruct (pcs (pcs_requests w) rq) as [e|resp] eqn:Hpcs; [by left|].
    destruct (negb _); [by left|]. destruct (_ =? 0)%Z; [by left|].
    rewrite bind_run. unfold readAll. destruct (http.RespBody resp); [|by left].
    rewrite ret_run. destruct (Unmarshal_PckCerts _); [|by left].
    destruct (filterPckCerts _) as [cs ts]. right. exists resp. split; [done|].
    rewrite bind_run.
    pose proof (proj1 (fetchFmspcTcbInfo_one_call
                         (mkWorld (db w) (pcs_requests w ++ [rq])%list)
                         (http.Header_Get (http.Header resp) "Sgx-Fmspc"))) as Hone.
    destruct (fetchFmspcTcbInfo _ _) as [ti w2|e w2|msg w2]; simpl in Hone; subst w2;
      simpl; rewrite <- ?app_assoc; try done.
    rewrite bind_run. unfold liftGo. destruct (getBestPckCert _ _ _) as [[e|idx]|msg];
      simpl; by rewrite <- ?app_assoc.
Qed.

(** X15: the filter of the /pckcerts array keeps the entries whose
    certificate is not "Not available", in the order of the array, and keeps
    each certificate next to the TCBM of its own entry. *)
Theorem filterPckCerts_kept (pckCerts : list PckCertsInfo.t) :
  let kept :=
    List.filter (fun c => negb (String.eqb (PckCertsInfo.Cert c) "Not available")) pckCerts in
  filterPckCerts pckCerts
    = (map (fun c => QueryUnescape (PckCertsInfo.Cert c)) kept, map PckCertsInfo.Tcbm kept)
  /\ forall i cert tcbm,
       fst (filterPckCerts pckCerts) !! i = Some cert ->
       snd (filterPckCerts pckCerts) !! i = Some tcbm ->
       exists c, c ∈ pckCerts /\ PckCertsInfo.Cert c <> "Not available"
                 /\ cert = QueryUnescape (PckCertsInfo.Cert c)
                 /\ tcbm = PckCertsInfo.Tcbm c.
Proof.
  clear authorizeEndpoint pcs pck_cert_select
    Unmarshal_PckCerts Unmarshal_TcbInfo base64_EncodeToString.
  intros kept.
  assert (filterPckCerts pckCerts
          = (map (fun c => QueryUnescape (PckCertsInfo.Cert c)) kept,
             map PckCertsInfo.Tcbm kept)) as Heq.
  { unfold kept. induction pckCerts as [|c l IH]; [reflexivity|].
    simpl. rewrite IH. by destruct (negb _). }
  split; [exact Heq|].
  intros i cert tcbm. rewrite Heq. simpl. rewrite !list_lookup_fmap.
  destruct (kept !! i) as [c|] eqn:Hc; [|discriminate]. simpl.
  intros [= <-] [= <-]. exists c.
  apply list_elem_of_lookup_2 in Hc. apply list_elem_of_In in Hc.
  unfold kept in Hc. apply filter_In in Hc as [Hin Hav].
  split; [by apply list_elem_of_In|]. split; [|done].
  intros E. rewrite E in Hav. discriminate.
Qed.

(** X16: what [getBestPckCert] makes of the answer of the selection library,
    once the platform values decode and the certificate array is not empty:
    status 0 gives the index truncated to 8 bits; a status from 1 to 12 gives
    the error message of that number and no index; any other status indexes
    the table of 13 messages out of range, and the function panics. *)
Theorem getBestPckCert_status (platform : Platform.t) (c : string) (certs : list string)
    (tcb : string) (b : byte) (cpusvn : list byte) (pceSvn pceID : N) (ret : Z) (certIdx : N) :
  hex_DecodeString (Platform.CPUSvn platform) = Some (b :: cpusvn) ->
  ParseUint_16_32 (Platform.PceSvn platform) = Some pceSvn ->
  ParseUint_16_32 (Platform.PceID platform) = Some pceID ->
  pck_cert_select (b :: cpusvn) (pceSvn mod 2 ^ 16)%N (pceID mod 2 ^ 16)%N tcb (c :: certs)
                  (N.of_nat (length (c :: certs)) mod 2 ^ 32)%N = (ret, certIdx) ->
  (ret = 0%Z ->
     getBestPckCert platform (c :: certs) tcb = Returns (inr (certIdx mod 256)%N))
  /\ ((1 <= ret <= 12)%Z ->
      exists msg, certError !! Z.to_nat ret = Some msg
                  /\ getBestPckCert platform (c :: certs) tcb = Returns (inl msg))
  /\ ((ret < 0 \/ 12 < ret)%Z ->
      getBestPckCert platform (c :: certs) tcb = Panics index_out_of_range).
Proof.
  clear authorizeEndpoint pcs QueryUnescape
    Unmarshal_PckCerts Unmarshal_TcbInfo base64_EncodeToString.
  intros Hcpu Hsvn Hid Hsel. unfold getBestPckCert. rewrite Hcpu, Hsvn, Hid, Hsel.
  split; [|split].
  - intros ->. reflexivity.
  - intros Hret. destruct (Z.eqb_spec ret 0) as [|_]; [lia|]. simpl negb. cbv iota.
    destruct (Z.ltb_spec ret 0) as [|_]; [lia|].
    destruct (lookup_lt_is_Some_2 certError (Z.to_nat ret)) as [msg Hmsg];
      [simpl; lia|].
    rewrite Hmsg. eauto.
  - intros Hret. destruct (Z.eqb_spec ret 0) as [|_]; [lia|]. simpl negb. cbv iota.
    destruct (Z.ltb_spec ret 0) as [|Hge]; [reflexivity|].
    rewrite (proj2 (lookup_ge_None certError (Z.to_nat ret))); [reflexivity|].
    simpl. lia.
Qed.

(** *** More on the refresh chain *)

Lemma keeps_forEach {A X : Type} (proj : SCSDatabase -> X) (f : A -> M unit) (l : list A) :
  (forall a, keeps proj (f a)) -> keeps proj (forEach f l).
Proof.
  intros Hf. induction l as [|a l IH]; [apply keeps_ret|].
  simpl. apply keeps_bind; [apply Hf | by intros _].
Qed.

Lemma keeps_cachePckCertInfo pckCert cacheType :
  keeps tables_but_pck_certs (cachePckCertInfo pckCert cacheType).
Proof.
  unfold cachePckCertInfo, PckCertRepository.Update, PckCertRepository.Create.
  destruct cacheType; repeat keeps_step.
Qed.

Lemma keeps_refreshPckCerts : keeps tables_but_pck_certs refreshPckCerts.
Proof.
  clear authorizeEndpoint Unmarshal_TcbInfo
    base64_EncodeToString.
  unfold refreshPckCerts. apply keeps_bind; [by intros ?|]. intros l.
  destruct (_ =? _)%nat; [apply keeps_fail|].
  apply keeps_forEach. intros p.
  apply keeps_bind; [apply keeps_mapErr, keeps_fetchPckCertInfo|].
  intros [[[pc ?] ?] ?].
  apply keeps_bind; [apply keeps_mapErr, keeps_cachePckCertInfo | intros ?; apply keeps_ret].
Qed.

(** X17: a refresh of the PCK certificates writes to the PckCert table
    only: the Platform, PlatformTcb, PckCertChain, PckCrl, FmspcTcbInfo and
    QEIdentity tables are as before, whatever the outcome and however many
    platforms were refreshed before a failure. *)
Theorem refreshPckCerts_frame (w : World) :
  tables_but_pck_certs (db (outcome_world (refreshPckCerts w))) = tables_but_pck_certs (db w).
Proof.
  clear authorizeEndpoint Unmarshal_TcbInfo base64_EncodeToString.
  revert w. change (keeps tables_but_pck_certs refreshPckCerts).
  unfold refreshPckCerts. apply keeps_bind; [by intros ?|]. intros platforms.
  destruct (length platforms =? 0)%nat; [apply keeps_fail|].
  induction platforms as [|p rest IH]; [apply keeps_ret|].
  simpl forEach. apply keeps_bind; [|intros _; exact IH].
  apply keeps_bind; [apply keeps_mapErr, keeps_fetchPckCertInfo|].
  intros [[[pckCertInfo ?] ?] ?].
  apply keeps_bind; [apply keeps_mapErr | intros ?; apply keeps_ret].
  unfold cachePckCertInfo, PckCertRepository.Update.
  apply keeps_bind; [|intros ?; apply keeps_ret].
  apply keeps_bind; [apply keeps_getDB|]. intros d.
  apply keeps_writeTable. by intros tbl [].
Qed.

Lemma refreshPlatformInfo_run (r : http.Request) (w : World) :
  authorizeEndpoint r constants.CacheManagerGroupName true = None ->
  refreshPlatformInfo r w =
  match refreshPckCerts w with
  | Done _ w1 =>
      match refreshNonPCKCollaterals w1 with
      | Done _ w2 =>
          Done (Replied http.StatusOK
                  (mkResponse "Success" "sgx collaterals refreshed successfully")) w2
      | Failed _ w2 =>
          Done (Replied http.StatusNotFound
                  (mkResponse "Failure" "could not find platform info in database")) w2
      | Panicked msg w2 => Panicked msg w2
      end
  | Failed _ w1 =>
      Done (Replied http.StatusNotFound
              (mkResponse "Failure" "could not find platform info in database")) w1
  | Panicked msg w1 => Panicked msg w1
  end.
Proof.
  try clear Unmarshal_TcbInfo.
  intros Hauth. unfold refreshPlatformInfo. rewrite Hauth, bind_run. unfold try at 1.
  destruct (refreshPckCerts w) as [[] w1|e w1|msg w1]; [|done|done].
  rewrite bind_run. unfold try at 1.
  by destruct (refreshNonPCKCollaterals w1) as [[] w2|e w2|msg w2].
Qed.

(** X18: the replies of the refresh handler to an authorized request.  It
    writes 200 "Success" exactly when [refreshPckCerts] and, after it,
    [refreshNonPCKCollaterals] succeed; when one of them fails it writes 404
    "Failure", "could not find platform info in database", whatever the
    failure was, in the world the failing step left. *)
Theorem refreshPlatformInfo_replies (r : http.Request) (w : World) :
  authorizeEndpoint r constants.CacheManagerGroupName true = None ->
  let success :=
    Replied http.StatusOK (mkResponse "Success" "sgx collaterals refreshed successfully") in
  let failure :=
    Replied http.StatusNotFound
            (mkResponse "Failure" "could not find platform info in database") in
  (forall w', refreshPlatformInfo r w = Done success w' <->
              exists w1, refreshPckCerts w = Done tt w1
                         /\ refreshNonPCKCollaterals w1 = Done tt w')
  /\ (forall e w1, refreshPckCerts w = Failed e w1 ->
                   refreshPlatformInfo r w = Done failure w1)
  /\ (forall e w1 w2, refreshPckCerts w = Done tt w1 ->
                      refreshNonPCKCollaterals w1 = Failed e w2 ->
                      refreshPlatformInfo r w = Done failure w2).
Proof.
  try clear Unmarshal_TcbInfo.
  intros Hauth success failure. rewrite (refreshPlatformInfo_run r w Hauth).
  split; [|split].
  - intros w'. split.
    + destruct (refreshPckCerts w) as [[] w1|e w1|msg w1]; [|discriminate|discriminate].
      destruct (refreshNonPCKCollaterals w1) as [[] w2|e w2|msg w2] eqn:H2;
        [|discriminate|discriminate].
      intros [= <-]. eauto.
    + intros (w1 & -> & ->). reflexivity.
  - intros e w1 ->. reflexivity.
  - intros e w1 w2 -> ->. reflexivity.
Qed.

(** X19: no roll-back.  When the PCK certificates were refreshed and the
    PckCrl table is empty, the handler replies 404 "Failure" and leaves the
    world as the refresh of the certificates made it: the PckCert rows it
    rewrote stay rewritten, and no further request is sent. *)
Theorem refreshPlatformInfo_partial (r : http.Request) (w w1 : World) :
  authorizeEndpoint r constants.CacheManagerGroupName true = None ->
  refreshPckCerts w = Done tt w1 ->
  pck_crls (db w) = ∅ ->
  refreshPlatformInfo r w
    = Done (Replied http.StatusNotFound
              (mkResponse "Failure" "could not find platform info in database")) w1.
Proof.
  try clear Unmarshal_TcbInfo.
  intros Hauth Hcerts Hcrl.
  assert (pck_crls (db w1) = ∅) as Hcrl1.
  { pose proof (keeps_refreshPckCerts w) as Hk. rewrite Hcerts in Hk.
    simpl in Hk. unfold tables_but_pck_certs in Hk. injection Hk as _ _ _ Hk _ _. congruence. }
  rewrite (refreshPlatformInfo_run r w Hauth), Hcerts.
  unfold refreshNonPCKCollaterals, refreshAllPckCrl. rewrite !bind_run.
  change (PckCrlRepository.RetrieveAll w1) with (Done (gorm_Find (pck_crls (db w1))) w1).
  cbv iota. unfold gorm_Find. by rewrite Hcrl1, map_to_list_empty.
Qed.

(** X20: the timer callback.  A refresh type other than "certs" and "tcbs"
    does nothing and reports success.  With "certs" and an empty Platform
    table, and with "tcbs" and an empty PckCrl table, whatever the other
    tables hold, it fails at its first step, without a request to the PCS
    server and without a write. *)
Theorem RefreshPlatformInfoTimer_first_step (rtype : string) (w : World) :
  (rtype <> constants.Type_Refresh_Cert -> rtype <> constants.Type_Refresh_Tcb ->
     RefreshPlatformInfoTimer rtype w = Done tt w)
  /\ (platforms (db w) = ∅ ->
      RefreshPlatformInfoTimer constants.Type_Refresh_Cert w
        = Failed "no platform value records are found in db, cannot perform refresh" w)
  /\ (pck_crls (db w) = ∅ ->
      RefreshPlatformInfoTimer constants.Type_Refresh_Tcb w
        = Failed "no pck crl record found in db, cannot perform refresh operation" w).
Proof.
  try clear authorizeEndpoint.
  try clear Unmarshal_TcbInfo.
  split; [|split].
  - intros Hc Ht. unfold RefreshPlatformInfoTimer.
    destruct (String.eqb_spec rtype constants.Type_Refresh_Cert); [done|].
    by destruct (String.eqb_spec rtype constants.Type_Refresh_Tcb).
  - intros Hempty. change (RefreshPlatformInfoTimer constants.Type_Refresh_Cert w)
      with (refreshPckCerts w). by apply refreshPckCerts_empty.
  - intros Hempty. change (RefreshPlatformInfoTimer constants.Type_Refresh_Tcb w)
      with (refreshNonPCKCollaterals w).
    unfold refreshNonPCKCollaterals, refreshAllPckCrl. rewrite !bind_run.
    change (PckCrlRepository.RetrieveAll w) with (Done (gorm_Find (pck_crls (db w))) w).
    cbv iota. unfold gorm_Find. by rewrite Hempty, map_to_list_empty.
Qed.

End Resource.

(** ** The Platform and PlatformTcb repositories, and their cache writers *)

Lemma PlatformRepository_Create_run (p : Platform.t) (w : World) :
  PlatformRepository.Create p w =
  match platforms (db w) !! Platform.QeID p with
  | Some _ => Failed "create: failed to create Platform" w
  | None =>
      Done p (mkWorld (set_platforms (<[Platform.QeID p := p]> (platforms (db w))) (db w))
                      (pcs_requests w))
  end.
Proof.
  unfold PlatformRepository.Create, gorm_Create, writeTable.
  rewrite bind_run. unfold getDB at 1. cbv beta iota.
  by destruct (platforms (db w) !! Platform.QeID p).
Qed.

Lemma PlatformRepository_Update_run (u : Platform.t) (w : World) :
  Platform.QeID u <> "" ->
  PlatformRepository.Update u w =
  Done tt (mkWorld (set_platforms (<[Platform.QeID u := u]> (platforms (db w))) (db w))
                   (pcs_requests w)).
Proof.
  intros Hkey. unfold PlatformRepository.Update, gorm_Save, writeTable.
  rewrite bind_run. unfold getDB at 1. cbv beta iota.
  by rewrite decide_False by done.
Qed.

Lemma PlatformRepository_Retrieve_run (qeID : string) (w : World) :
  qeID <> "" ->
  PlatformRepository.Retrieve qeID w = Done (platforms (db w) !! qeID) w.
Proof.
  intros Hkey. unfold PlatformRepository.Retrieve, gorm_First.
  rewrite bind_run. unfold getDB at 1. cbv beta iota.
  by rewrite decide_False by done.
Qed.

Lemma PlatformRepository_Delete_run (u : Platform.t) (w : World) :
  Platform.QeID u <> "" ->
  PlatformRepository.Delete u w =
  Done tt (mkWorld (set_platforms (delete (Platform.QeID u) (platforms (db w))) (db w))
                   (pcs_requests w)).
Proof.
  intros Hkey. unfold PlatformRepository.Delete, gorm_Delete.
  rewrite bind_run. unfold getDB at 1. cbv beta iota.
  by rewrite decide_False by done.
Qed.

Lemma PlatformTcbRepository_Delete_run (u : PlatformTcb.t) (w : World) :
  PlatformTcb.QeID u <> "" ->
  PlatformTcbRepository.Delete u w =
  Done tt (mkWorld (set_platform_tcbs (delete (PlatformTcb.QeID u) (platform_tcbs (db w)))
                                      (db w))
                   (pcs_requests w)).
Proof.
  intros Hkey. unfold PlatformTcbRepository.Delete, gorm_Delete.
  rewrite bind_run. unfold getDB at 1. cbv beta iota.
  by rewrite decide_False by done.
Qed.

Lemma PlatformTcbRepository_Retrieve_run (qeID : string) (w : World) :
  qeID <> "" ->
  PlatformTcbRepository.Retrieve qeID w = Done (platform_tcbs (db w) !! qeID) w.
Proof.
  intros Hkey. unfold PlatformTcbRepository.Retrieve, gorm_First.
  rewrite bind_run. unfold getDB at 1. cbv beta iota.
  by rewrite decide_False by done.
Qed.

Lemma PlatformTcbRepository_Create_run (p : PlatformTcb.t) (w : World) :
  PlatformTcbRepository.Create p w =
  match platform_tcbs (db w) !! PlatformTcb.QeID p with
  | Some _ => Failed "create: failed to create PlatformTcb" w
  | None =>
      Done p (mkWorld (set_platform_tcbs (<[PlatformTcb.QeID p := p]> (platform_tcbs (db w)))
                                         (db w))
                      (pcs_requests w))
  end.
Proof.
  unfold PlatformTcbRepository.Create, gorm_Create, writeTable.
  rewrite bind_run. unfold getDB at 1. cbv beta iota.
  by destruct (platform_tcbs (db w) !! PlatformTcb.QeID p).
Qed.

Lemma PlatformTcbRepository_Update_run (u : PlatformTcb.t) (w : World) :
  PlatformTcb.QeID u <> "" ->
  PlatformTcbRepository.Update u w =
  Done tt (mkWorld (set_platform_tcbs (<[PlatformTcb.QeID u := u]> (platform_tcbs (db w)))
                                      (db w))
                   (pcs_requests w)).
Proof.
  intros Hkey. unfold PlatformTcbRepository.Update, gorm_Save, writeTable.
  rewrite bind_run. unfold getDB at 1. cbv beta iota.
  by rewrite decide_False by done.
Qed.

(** X21: [Create] of the Platform repository under a QE-ID that is not
    empty.  When the QE-ID has a row, it fails and the world is as before;
    when it has none, it returns the platform it was given, [Retrieve] by
    that QE-ID then finds this platform, every other row and every other
    table is as before, and [Delete] of the platform brings the world
    back. *)
Theorem PlatformRepository_Create_Retrieve (p : Platform.t) (w : World) :
  Platform.QeID p <> "" ->
  (is_Some (platforms (db w) !! Platform.QeID p) ->
     exists e, PlatformRepository.Create p w = Failed e w)
  /\ (platforms (db w) !! Platform.QeID p = None ->
      exists w',
        PlatformRepository.Create p w = Done p w'
        /\ PlatformRepository.Retrieve (Platform.QeID p) w' = Done (Some p) w'
        /\ (forall k, k <> Platform.QeID p ->
              platforms (db w') !! k = platforms (db w) !! k)
        /\ set_platforms (platforms (db w)) (db w') = db w
        /\ pcs_requests w' = pcs_requests w
        /\ PlatformRepository.Delete p w' = Done tt w).
Proof.
  intros Hkey. rewrite PlatformRepository_Create_run. split.
  - intros [row ->]. eauto.
  - intros Hnone. rewrite Hnone. eexists. split; [reflexivity|].
    rewrite PlatformRepository_Retrieve_run, PlatformRepository_Delete_run by done.
    simpl. rewrite lookup_insert_eq, delete_insert_id by done.
    split; [done|]. split; [by intros k Hk; rewrite lookup_insert_ne|].
    by destruct w as [[] ?].
Qed.

(** X22: [Update] of the Platform repository under a QE-ID that is not
    empty is an upsert.  It succeeds whether the QE-ID has a row or not,
    [Retrieve] then finds the platform it was given, the other rows are as
    before, and a second [Update] with the same platform changes nothing. *)
Theorem PlatformRepository_Update_upsert (u : Platform.t) (w : World) :
  Platform.QeID u <> "" ->
  exists w',
    PlatformRepository.Update u w = Done tt w'
    /\ PlatformRepository.Retrieve (Platform.QeID u) w' = Done (Some u) w'
    /\ (forall k, k <> Platform.QeID u -> platforms (db w') !! k = platforms (db w) !! k)
    /\ PlatformRepository.Update u w' = Done tt w'.
Proof.
  intros Hkey. eexists. split; [by apply PlatformRepository_Update_run|].
  rewrite PlatformRepository_Retrieve_run, PlatformRepository_Update_run by done.
  simpl. rewrite lookup_insert_eq, insert_insert_eq.
  split; [done|]. split; [by intros k Hk; rewrite lookup_insert_ne|done].
Qed.

(** X23: [Delete] of the two repositories touches its own table only.  With
    a QE-ID that is not empty it removes the row of that QE-ID, if there is
    one, and no other; it reports success also when there was no row. *)
Theorem Repository_Delete (qeID : string) (p : Platform.t) (t : PlatformTcb.t) (w : World) :
  qeID <> "" -> Platform.QeID p = qeID -> PlatformTcb.QeID t = qeID ->
  (exists w',
     PlatformRepository.Delete p w = Done tt w'
     /\ PlatformRepository.Retrieve qeID w' = Done None w'
     /\ (forall k, k <> qeID -> platforms (db w') !! k = platforms (db w) !! k)
     /\ set_platforms (platforms (db w)) (db w') = db w
     /\ pcs_requests w' = pcs_requests w)
  /\ (exists w',
        PlatformTcbRepository.Delete t w = Done tt w'
        /\ PlatformTcbRepository.Retrieve qeID w' = Done None w'
        /\ (forall k, k <> qeID -> platform_tcbs (db w') !! k = platform_tcbs (db w) !! k)
        /\ set_platform_tcbs (platform_tcbs (db w)) (db w') = db w
        /\ pcs_requests w' = pcs_requests w).
Proof.
  intros Hkey Hp Ht. split; eexists.
  - rewrite PlatformRepository_Delete_run by congruence. split; [reflexivity|].
    rewrite PlatformRepository_Retrieve_run by done. simpl.
    rewrite Hp, lookup_delete_eq. split; [done|].
    split; [by intros k Hk; rewrite lookup_delete_ne|]. by destruct w as [[] ?].
  - rewrite PlatformTcbRepository_Delete_run by congruence. split; [reflexivity|].
    rewrite PlatformTcbRepository_Retrieve_run by done. simpl.
    rewrite Ht, lookup_delete_eq. split; [done|].
    split; [by intros k Hk; rewrite lookup_delete_ne|]. by destruct w as [[] ?].
Qed.

(** X24: the PlatformTcb row of a platform.  For a platform with a QE-ID
    that is not empty, [cachePlatformTcbInfo] on a refresh always succeeds,
    and on an insert succeeds when and only when the QE-ID has no row yet;
    after a success [Retrieve] by the QE-ID of the platform finds the row
    made of the QE-ID, PCE-ID, CPUSVN and PCESVN of the platform and of the
    TCBM handed in.  A failed insert leaves the world as it was. *)
Theorem cachePlatformTcbInfo_Retrieve (p : Platform.t) (tcbm : string)
    (cacheType : constants.CacheType) (w : World) :
  Platform.QeID p <> "" ->
  let row := PlatformTcb.mk (Platform.QeID p) (Platform.PceID p) (Platform.CPUSvn p)
                            (Platform.PceSvn p) tcbm in
  match cachePlatformTcbInfo p tcbm cacheType w with
  | Done _ w' =>
      PlatformTcbRepository.Retrieve (Platform.QeID p) w' = Done (Some row) w'
      /\ (cacheType = constants.CacheInsert -> platform_tcbs (db w) !! Platform.QeID p = None)
  | Failed _ w' =>
      w' = w /\ cacheType = constants.CacheInsert
      /\ is_Some (platform_tcbs (db w) !! Platform.QeID p)
  | Panicked _ _ => False
  end.
Proof.
  intros Hkey row. unfold cachePlatformTcbInfo. fold row. destruct cacheType.
  - rewrite bind_run, PlatformTcbRepository_Create_run.
    change (PlatformTcb.QeID row) with (Platform.QeID p).
    destruct (platform_tcbs (db w) !! Platform.QeID p) as [old|] eqn:Hold.
    + by eauto.
    + rewrite ret_run, PlatformTcbRepository_Retrieve_run by done. simpl.
      by rewrite lookup_insert_eq.
  - rewrite PlatformTcbRepository_Update_run by done.
    rewrite PlatformTcbRepository_Retrieve_run by done. simpl.
    rewrite lookup_insert_eq. by split.
Qed.

(** ** Opening the database *)

Section OpenProperties.

Variables (ToLower TrimSpace : string -> string) (FormatInt : Z -> string).
Variable DB : Type.
Variable gorm_Open : nat -> string -> string + DB.

Lemma connectLoop_spec (dsn : string) (remaining : nat) :
  forall (i : nat) (dbErr : string + DB),
    let o := postgres.connectLoop DB gorm_Open dsn remaining i dbErr in
    (exists k db,
        (k < remaining)%nat
        /\ (forall j, (j < k)%nat -> exists e, gorm_Open (i + j) dsn = inl e)
        /\ gorm_Open (i + k) dsn = inr db
        /\ o = postgres.mkOpened (inr db) (S (i + k)) (postgres.retryTime * Z.of_nat (i + k)))
    \/ ((forall j, (j < remaining)%nat -> exists e, gorm_Open (i + j) dsn = inl e)
        /\ o = postgres.mkOpened
                 (match remaining with
                  | O => dbErr
                  | S r => gorm_Open (i + r) dsn
                  end)
                 (i + remaining) (postgres.retryTime * Z.of_nat (i + remaining))).
Proof.
  induction remaining as [|r IH]; intros i dbErr o.
  - right. split; [intros j Hj; lia|]. unfold o. simpl. by rewrite Nat.add_0_r.
  - unfold o. simpl. destruct (gorm_Open i dsn) as [err|db] eqn:Hi.
    + destruct (IH (S i) (inl err)) as [(k & db & Hk & Hfail & Hok & Ho)|[Hfail Ho]].
      * left. exists (S k), db. split; [lia|]. split.
        { intros [|j] Hj; [rewrite Nat.add_0_r; eauto|].
          replace (i + S j)%nat with (S i + j)%nat by lia. apply Hfail. lia. }
        replace (i + S k)%nat with (S i + k)%nat by lia. by split.
      * right. split.
        { intros [|j] Hj; [rewrite Nat.add_0_r; eauto|].
          replace (i + S j)%nat with (S i + j)%nat by lia. apply Hfail. lia. }
        rewrite Ho. replace (i + S r)%nat with (S i + r)%nat by lia. f_equal.
        destruct r as [|r']; [by rewrite Nat.add_0_r|].
        f_equal. lia.
    + left. exists 0%nat, db. split; [lia|]. split; [intros j Hj; lia|].
      rewrite Nat.add_0_r. by split.
Qed.

(** X25: the SSL mode [Open] connects with is one of allow, prefer,
    require, verify-ca and verify-full, whatever it was asked for: never
    disable.  It is the mode [VerifyConnection] checks the connection with
    exactly when the mode asked for, in lower case and trimmed, is one of
    these five; and [Open] hands the root certificate to the driver unless
    that mode is allow, prefer or require. *)
Theorem Open_sslMode_range (sslMode sslCert : string) :
  let asked := TrimSpace (ToLower sslMode) in
  let used := postgres.Open_sslMode ToLower TrimSpace sslMode in
  let five := ["allow"; "prefer"; "require"; "verify-ca"; "verify-full"] in
  In used five
  /\ (used = postgres.VerifyConnection_sslMode ToLower TrimSpace sslMode <-> In asked five)
  /\ postgres.sslCertParams used sslCert
     = if existsb (String.eqb asked) ["allow"; "prefer"; "require"]
       then "" else " sslrootcert=" ++ sslCert.
Proof.
  intros asked used five. unfold used, five, postgres.Open_sslMode,
    postgres.VerifyConnection_sslMode, postgres.sslCertParams. fold asked.
  cbn [existsb].
  destruct (String.eqb_spec asked "allow") as [->|H1]; [simpl; intuition congruence|].
  destruct (String.eqb_spec asked "prefer") as [->|H2]; [simpl; intuition congruence|].
  destruct (String.eqb_spec asked "require") as [->|H3]; [simpl; intuition congruence|].
  destruct (String.eqb_spec asked "verify-ca") as [->|H4]; [simpl; intuition congruence|].
  destruct (String.eqb_spec asked "verify-full") as [->|H5]; [simpl; intuition congruence|].
  destruct (String.eqb_spec asked "disable") as [->|H6]; [simpl; intuition congruence|].
  simpl. intuition congruence.
Qed.

(** X26: the retry loop of [Open].  It calls [gorm.Open] with one and the
    same connection string, at least once and at most four times, and stops
    at the first call that succeeds, whose connection it returns; when all
    four calls fail it returns the error of the fourth.  It sleeps five
    seconds after each failed call, also after the fourth. *)
Theorem Open_retries (host : string) (port : Z)
    (dbname user password sslMode sslCert : string) :
  let used := postgres.Open_sslMode ToLower TrimSpace sslMode in
  let dsn := postgres.connectionString FormatInt host port dbname user password used
               (postgres.sslCertParams used sslCert) in
  let o := postgres.Open ToLower TrimSpace FormatInt DB gorm_Open
             host port dbname user password sslMode sslCert in
  (1 <= postgres.attempts o <= 4)%nat
  /\ (forall j, (S j < postgres.attempts o)%nat -> exists e, gorm_Open j dsn = inl e)
  /\ postgres.result o = gorm_Open (postgres.attempts o - 1) dsn
  /\ (forall db, postgres.result o = inr db -> postgres.slept o = 5 * (Z.of_nat (postgres.attempts o) - 1))%Z
  /\ (forall e, postgres.result o = inl e ->
        postgres.attempts o = 4%nat /\ postgres.slept o = 20%Z).
Proof.
  intros used dsn o.
  destruct (connectLoop_spec dsn postgres.numAttempts 0 (inl ""))
    as [(k & db & Hk & Hfail & Hok & Ho)|[Hfail Ho]];
    change (postgres.connectLoop DB gorm_Open dsn postgres.numAttempts 0 (inl "")) with o in Ho;
    rewrite Ho; simpl postgres.attempts; simpl postgres.result; simpl postgres.slept;
    unfold postgres.numAttempts, postgres.retryTime in *.
  - split; [lia|]. split; [intros j Hj; apply (Hfail j); lia|].
    split; [replace (S k - 1)%nat with (0 + k)%nat by lia; by rewrite Hok|]. split; [intros _ _; lia|]. intros e; discriminate.
  - split; [lia|]. split; [intros j Hj; apply (Hfail j); lia|].
    split; [reflexivity|]. split; [|intros e _; split; [reflexivity|lia]].
    intros db Hdb. destruct (Hfail 3%nat) as [e He]; [lia|]. simpl in Hdb, He. congruence.
Qed.

End OpenProperties.

(** ** The older lazy cache of the QE identity *)

(** X27: [GetLazyCacheQEIdentityInfo] once the fetch and the caching went
    well.  An error of [RetrieveAll] is dropped: with no rows and an error
    the function returns no rows and no error.  With no rows and no error it
    dereferences the nil error and panics.  In no case does it return an
    error of its own. *)
Theorem GetLazyCacheQEIdentityInfo_RetrieveAll (SgxData : Type) (zeroSgxData : SgxData)
    (FetchQEIdentityInfo CacheQEIdentityInfo : SgxData -> M SgxData)
    (RetrieveAll : M (option (list QEIdentity.t) * option string))
    (w w1 w2 w3 : World) (data data' : SgxData)
    (rows : option (list QEIdentity.t)) (err : option string) :
  FetchQEIdentityInfo zeroSgxData w = Done data w1 ->
  CacheQEIdentityInfo data w1 = Done data' w2 ->
  RetrieveAll w2 = Done (rows, err) w3 ->
  let run := lazy_cache_ops.GetLazyCacheQEIdentityInfo SgxData zeroSgxData
               FetchQEIdentityInfo CacheQEIdentityInfo RetrieveAll w in
  (forall e w', run <> Failed e w')
  /\ (is_Some rows \/ is_Some err -> run = Done rows w3)
  /\ (rows = None -> err = None -> run = Panicked nil_dereference w3).
Proof.
  intros Hf Hc Hr run.
  assert (run = match rows, err with
                | None, None => Panicked nil_dereference w3
                | _, _ => Done rows w3
                end) as ->.
  { unfold run, lazy_cache_ops.GetLazyCacheQEIdentityInfo.
    rewrite bind_run. unfold mapErr at 1. rewrite Hf.
    rewrite bind_run. unfold mapErr at 1. rewrite Hc.
    rewrite bind_run, Hr. by destruct rows, err. }
  destruct rows as [rows|], err as [err|]; (split; [done|]); (split; [|done]); try done.
  intros [[? [=]]|[? [=]]].
Qed.

(** ** The theorems at sample values *)

Import Samples.

(** The regular expressions on requests of the usual sizes. *)
Example validation_examples :
  ValidateInputString constants.EncPPID_Key enc_ppid = Returns true
  /\ ValidateInputString constants.CpuSvn_Key (zeros 31) = Returns false
  /\ ValidateInputString constants.PceSvn_Key "0aF1" = Returns true
  /\ ValidateInputString constants.PceSvn_Key "0aG1" = Returns false
  /\ ValidateInputString constants.Type_Key "tcbs" = Returns false
  /\ ValidateInputString "" "processor" = Returns false.
Proof. vm_compute. repeat split. Qed.

Example compareTcbComponents_examples :
  compareTcbComponents components2 10 (repeat Byte.x02 16) 10 = EqualOrGreater
  /\ compareTcbComponents components2 10 (repeat Byte.x03 16) 10 = Lower
  /\ compareTcbComponents components2 10 (repeat Byte.x03 16) 9 = Undefined
  /\ compareTcbComponents components2 10 (repeat Byte.x01 16) 5 = EqualOrGreater
  /\ compareTcbComponents components2 10 (repeat Byte.x02 15) 10 = Error.
Proof. vm_compute. repeat split. Qed.

(** [getTcbStatus_verdict] at a status request for the sample platform:
    the first level is above the selected certificate, the second one is
    not and is "UpToDate". *)
Lemma getTcbStatus_verdict_witness :
  getTcbStatus authorized Unmarshal_TcbInfo status_request pushed_world
    = Done (Replied 200 (mkResponse "true" "TCB Status is UpToDate")) pushed_world.
Proof.
  destruct (getTcbStatus_verdict authorized Unmarshal_TcbInfo status_request pushed_world
              (PckCert.mk qe_id "0000" fmspc 1
                          ["-----BEGIN%20CERTIFICATE-----1";
                           "-----BEGIN%20CERTIFICATE-----2"]
                          [tcbm1; tcbm2])
              cached_platform (FmspcTcbInfo.mk fmspc "tcbinfo" "tcb-chain")
              tcbm2 components2 Byte.x0a Byte.x00 tcbInfo)
    as (status & Hfirst & _ & [_ Htrue] & _);
    [ reflexivity | discriminate | vm_compute; reflexivity | reflexivity | reflexivity
    | reflexivity | reflexivity | reflexivity | reflexivity | reflexivity | ].
  apply Htrue. left.
  apply (Hfirst 1%nat (TcbLevelsType.mk (tcb_of Byte.x02 10) "2020-01-01T00:00:00Z" "UpToDate")).
  - reflexivity.
  - split; [reflexivity|]. intros [H|(i & p & t & Hp & Ht & H)].
    + vm_compute in H. discriminate H.
    + do 16 (destruct i as [|i];
             [injection Hp as <-; injection Ht as <-; vm_compute in H; discriminate H|]).
      discriminate Hp.
  - intros j lj Hj Hlj. destruct j as [|j]; [|lia].
    injection Hlj as <-. intros [_ Hn]. apply Hn. right.
    exists 0%nat, Byte.x02, Byte.x03. repeat split.
Defined.

(** [fetchPckCertInfo_all_not_available] at the sample platform, the PCS
    server answering with an array of two "Not available" entries. *)
Lemma fetchPckCertInfo_all_not_available_witness :
  Forall (fun c => PckCertsInfo.Cert c = "Not available") unavailable
  /\ fetchPckCertInfo (pcs "unavailable") pck_cert_select QueryUnescape Unmarshal_PckCerts
                      platform empty_world =
       Panicked index_out_of_range
                (mkWorld emptyDB [GetPckCerts enc_ppid "0000"; GetTcb fmspc]).
Proof.
  assert (Forall (fun c => PckCertsInfo.Cert c = "Not available") unavailable) as Hall
    by (repeat constructor).
  split; [exact Hall|].
  apply (fetchPckCertInfo_all_not_available (pcs "unavailable") pck_cert_select QueryUnescape
           Unmarshal_PckCerts platform empty_world
           (http.mkResponse 200 (-1) pckcerts_headers (Some "unavailable"))
           (http.mkResponse 200 7 {[ "Sgx-Tcb-Info-Issuer-Chain" := "tcb-chain" ]}
                            (Some "tcbinfo"))
           "unavailable" "tcbinfo" unavailable (repeat Byte.x00 16) 256 0);
    first [ exact Hall | reflexivity | discriminate | (left; discriminate) ].
Defined.

(** The same response to a push: the handler panics, whatever the
    selection library is; the platform is not cached. *)
Lemma pushPlatformInfo_all_not_available
    (select : list byte -> N -> N -> string -> list string -> N -> Z * N) :
  pushPlatformInfo authorized (pcs "unavailable") select QueryUnescape Unmarshal_PckCerts
                   base64_EncodeToString push_request empty_world =
    Panicked index_out_of_range
             (mkWorld emptyDB [GetPckCerts enc_ppid "0000"; GetTcb fmspc]).
Proof. vm_compute. reflexivity. Qed.


(** A second platform of the same FMSPC is pushed as the first one was:
    the FmspcTcbInfo row is there, and the handler does not fetch it again. *)
Example pushPlatformInfo_same_fmspc :
  match pushPlatformInfo authorized (pcs "pckcerts") pck_cert_select QueryUnescape
                          Unmarshal_PckCerts base64_EncodeToString second_push_request
                          served_world with
  | Done (Replied 201 _) w' =>
      is_Some (pck_certs (db w') !! qe_id2)
      /\ pcs_requests w' = [GetPckCerts enc_ppid "0000"; GetTcb fmspc]
  | _ => False
  end.
Proof. vm_compute. split; [eauto | reflexivity]. Qed.

(** The index the library reports is not compared with the number of
    certificates.  A push with such an index panics when the chain resolves
    the TCBM; a refresh stores the record as it is. *)
Example stray_index :
  (exists w',
     pushPlatformInfo authorized (pcs "pckcerts") stray_select QueryUnescape
                      Unmarshal_PckCerts base64_EncodeToString push_request empty_world
       = Panicked index_out_of_range w')
  /\ exists w' pckCert,
       refreshPckCerts (pcs "pckcerts") stray_select QueryUnescape Unmarshal_PckCerts
                       cached_world = Done tt w'
       /\ pck_certs (db w') !! qe_id = Some pckCert
       /\ PckCert.CertIndex pckCert = 7%N
       /\ length (PckCert.PckCerts pckCert) = 2%nat.
Proof.
  split.
  - eexists. vm_compute. reflexivity.
  - exists (outcome_world
              (refreshPckCerts (pcs "pckcerts") stray_select QueryUnescape Unmarshal_PckCerts
                               cached_world)).
    eexists. split; [vm_compute; reflexivity|]. split; [vm_compute; reflexivity|].
    split; reflexivity.
Qed.

(** Member names are matched without regard to case. *)
Example decodePlatformInfo_fold :
  decodePlatformInfo upper_case_body = inr platformInfo
  /\ decodePlatformInfo [("cpu_" ++ String "197"%char (String "191"%char "vn"), cpu_svn)]
     = inr (PlatformInfo.mk "" cpu_svn "" "" "" "")
  /\ decodePlatformInfo [("ppid", enc_ppid)] = inl "json: unknown field ppid".
Proof. vm_compute. repeat split. Qed.

(** [pushPlatformInfo_already_cached] at the sample push on a repository
    that holds its platform. *)
Lemma pushPlatformInfo_already_cached_witness :
  pushPlatformInfo authorized (pcs "pckcerts") pck_cert_select QueryUnescape
                   Unmarshal_PckCerts base64_EncodeToString push_request cached_world =
    Done (Replied 200 (mkResponse "Success" "platform info already cached")) cached_world.
Proof.
  apply (pushPlatformInfo_already_cached authorized (pcs "pckcerts") pck_cert_select
           QueryUnescape Unmarshal_PckCerts base64_EncodeToString
           push_request cached_world platformInfo cached_platform).
  - reflexivity.
  - discriminate.
  - reflexivity.
  - vm_compute. reflexivity.
  - vm_compute. reflexivity.
Defined.

(** Against a failure on a missing issuer chain: the TCB info fetch on a 200
    response that has a body and no [Sgx-Tcb-Info-Issuer-Chain] header
    returns a record. *)
Lemma fetchFmspcTcbInfo_accepts_missing_chain :
  pcs_without_chains [] (GetTcb fmspc) = inr bare_response
  /\ http.StatusCode bare_response = 200%Z
  /\ http.RespContentLength bare_response <> 0%Z
  /\ http.RespBody bare_response = Some "pckcerts"
  /\ http.Header bare_response !! "Sgx-Tcb-Info-Issuer-Chain" = None
  /\ fetchFmspcTcbInfo pcs_without_chains fmspc empty_world =
       Done (FmspcTcbInfo.mk fmspc "pckcerts" "") (mkWorld emptyDB [GetTcb fmspc]).
Proof. repeat split; try reflexivity. discriminate. Qed.

(** [fetch_without_issuer_chain] at the same response, for the three
    fetchers of one collateral. *)
Lemma fetch_without_issuer_chain_witness :
  fetchFmspcTcbInfo pcs_without_chains fmspc empty_world =
    Done (FmspcTcbInfo.mk fmspc "pckcerts" "") (mkWorld emptyDB [GetTcb fmspc])
  /\ fetchPckCrlInfo pcs_without_chains base64_EncodeToString "processor" empty_world =
    Done (PckCrl.mk "processor" "pckcerts" "")
         (mkWorld emptyDB [GetPckCrl "processor" constants.EncodingValue])
  /\ fetchQeIdentityInfo pcs_without_chains empty_world =
    Done (QEIdentity.mk "pckcerts" "") (mkWorld emptyDB [GetQeIdentity]).
Proof.
  destruct (fetch_without_issuer_chain pcs_without_chains pck_cert_select QueryUnescape
              Unmarshal_PckCerts base64_EncodeToString empty_world bare_response "pckcerts")
    as (Htcb & Hcrl & Hqe & _); [reflexivity | discriminate | reflexivity |].
  split; [|split].
  - apply Htcb; reflexivity.
  - apply Hcrl; reflexivity.
  - apply Hqe; reflexivity.
Defined.

(** The PCK certificate fetch succeeds on the same response and hands back
    the empty string as certificate chain. *)
Example fetchPckCertInfo_without_chain :
  match fetchPckCertInfo pcs_without_chains pck_cert_select QueryUnescape Unmarshal_PckCerts
                         platform empty_world with
  | Done (pckCert, _, pckCertChain, _) _ =>
      pckCertChain = "" /\ PckCert.CertIndex pckCert = 1%N
      /\ PckCert.Tcbms pckCert = [tcbm1; tcbm2]
  | _ => False
  end.
Proof. vm_compute. repeat split. Qed.

(** Against the pattern [^(processor|platform)$]: "platform" matches it
    and is refused by the validation. *)
Lemma ValidateInputString_ca_platform :
  MatchString spec_ca_pattern "platform" = true
  /\ ValidateInputString constants.Ca_Key "platform" = Returns false.
Proof. vm_compute. split; reflexivity. Qed.

(** Against an optional enc_ppid: a push with a manifest, valid cpu_svn,
    pce_svn, pce_id and qe_id and no enc_ppid is answered 400. *)
Lemma pushPlatformInfo_manifest_only :
  decodePlatformInfo (http.Body manifest_request) =
    inr (PlatformInfo.mk "" cpu_svn "0100" "0000" qe_id "4d414e4946455354")
  /\ ValidateInputString constants.CpuSvn_Key cpu_svn = Returns true
  /\ ValidateInputString constants.PceSvn_Key "0100" = Returns true
  /\ ValidateInputString constants.PceId_Key "0000" = Returns true
  /\ ValidateInputString constants.QeId_Key qe_id = Returns true
  /\ pushPlatformInfo authorized (pcs "pckcerts") pck_cert_select QueryUnescape
                      Unmarshal_PckCerts base64_EncodeToString manifest_request empty_world =
       Done (ReturnedError (resourceError "invalid query param data" 400)) empty_world.
Proof. vm_compute. repeat split. Qed.

(** [pushPlatformInfo_enc_ppid_required] at the body with a manifest and
    without enc_ppid. *)
Lemma pushPlatformInfo_enc_ppid_required_witness :
  pushPlatformInfo authorized (pcs "pckcerts") pck_cert_select QueryUnescape
                   Unmarshal_PckCerts base64_EncodeToString manifest_request empty_world =
    Done (ReturnedError (resourceError "invalid query param data" 400)) empty_world.
Proof.
  apply (pushPlatformInfo_enc_ppid_required authorized (pcs "pckcerts") pck_cert_select
           QueryUnescape Unmarshal_PckCerts base64_EncodeToString manifest_request empty_world
           (PlatformInfo.mk "" cpu_svn "0100" "0000" qe_id "4d414e4946455354"));
    [reflexivity | discriminate | reflexivity | reflexivity].
Defined.

(** The same at a body with a manifest and an enc_ppid of 767 digits. *)
Example pushPlatformInfo_short_ppid :
  pushPlatformInfo authorized (pcs "pckcerts") pck_cert_select QueryUnescape
                   Unmarshal_PckCerts base64_EncodeToString short_ppid_request empty_world =
    Done (ReturnedError (resourceError "invalid query param data" 400)) empty_world.
Proof. vm_compute. reflexivity. Qed.

(** [refreshPlatformInfo_empty] at the empty repository. *)
Lemma refreshPlatformInfo_empty_witness :
  refreshPckCerts (pcs "pckcerts") pck_cert_select QueryUnescape Unmarshal_PckCerts
                  empty_world =
    Failed "no platform value records are found in db, cannot perform refresh" empty_world
  /\ refreshPlatformInfo authorized (pcs "pckcerts") pck_cert_select QueryUnescape
                         Unmarshal_PckCerts base64_EncodeToString
                         refresh_request empty_world =
       Done (Replied 404 (mkResponse "Failure" "could not find platform info in database"))
            empty_world.
Proof.
  apply (refreshPlatformInfo_empty authorized (pcs "pckcerts") pck_cert_select QueryUnescape
           Unmarshal_PckCerts base64_EncodeToString refresh_request empty_world);
    reflexivity.
Defined.

(** [ValidateInputString_unknown_key_panics] at the key "manifest", which
    the map does not hold. *)
Lemma ValidateInputString_unknown_key_panics_witness :
  ValidateInputString "manifest" "4d414e4946455354" = Panics nil_dereference.
Proof.
  apply ValidateInputString_unknown_key_panics; [discriminate|].
  vm_compute. intros H.
  repeat (apply elem_of_cons in H as [H|H]; [discriminate H|]).
  by apply elem_of_nil in H.
Defined.


(** ** The further theorems at sample values *)

(** [ValidateInputString_hex_field] at the sample QE-ID. *)
Lemma ValidateInputString_hex_field_witness :
  ValidateInputString constants.QeId_Key qe_id
    = Returns ((String.length qe_id =? 32)%nat && all_hex qe_id).
Proof.
  apply ValidateInputString_hex_field. unfold hexFieldWidths. repeat constructor.
Defined.

(** [platformInfo_valid_decodes] at the body of the sample push. *)
Lemma platformInfo_valid_decodes_witness :
  exists cpusvn pceSvn pceID,
    hex_DecodeString (PlatformInfo.CPUSvn platformInfo) = Some cpusvn
    /\ length cpusvn = 16%nat
    /\ ParseUint_16_32 (PlatformInfo.PceSvn platformInfo) = Some pceSvn
    /\ (pceSvn mod 2 ^ 16 = pceSvn)%N
    /\ ParseUint_16_32 (PlatformInfo.PceID platformInfo) = Some pceID
    /\ (pceID mod 2 ^ 16 = pceID)%N.
Proof. apply platformInfo_valid_decodes. vm_compute. reflexivity. Defined.

(** [compareTcbComponents_exchange] at the components 02.. and 03.. with
    the same PCE-SVN. *)
Lemma compareTcbComponents_exchange_witness :
  compareTcbComponents components2 10 (repeat Byte.x03 16) 10 = Lower
  /\ compareTcbComponents (repeat Byte.x03 16) 10 components2 10 = EqualOrGreater.
Proof.
  split; [reflexivity|].
  destruct (compareTcbComponents_exchange components2 10 (repeat Byte.x03 16) 10)
    as [H _]; [reflexivity | reflexivity |].
  exact (H eq_refl).
Defined.

(** [compareTcbComponents_transitive] at the components 03.., 02.. and 01... *)
Lemma compareTcbComponents_transitive_witness :
  compareTcbComponents (repeat Byte.x03 16) 10 (repeat Byte.x01 16) 5 = EqualOrGreater.
Proof.
  destruct (compareTcbComponents_transitive (repeat Byte.x03 16) 10 components2 10
              (repeat Byte.x01 16) 5) as [H _]; [reflexivity | reflexivity |].
  exact H.
Defined.

(** [tcbLevelStatus_monotone] at the sample TCB info: the certificate 02..
    matches the second level, and the higher certificate 03.. matches the
    first one. *)
Lemma tcbLevelStatus_monotone_witness :
  exists j lj,
    (j <= 1)%nat
    /\ TcbInfoType.TcbLevels (TcbInfoJSON.TcbInfo tcbInfo) !! j = Some lj
    /\ compareLevel (repeat Byte.x03 16) 10 lj = EqualOrGreater
    /\ (forall j' lj', (j' < j)%nat ->
          TcbInfoType.TcbLevels (TcbInfoJSON.TcbInfo tcbInfo) !! j' = Some lj' ->
          compareLevel (repeat Byte.x03 16) 10 lj' <> EqualOrGreater)
    /\ tcbLevelStatus (repeat Byte.x03 16) 10 (TcbInfoType.TcbLevels (TcbInfoJSON.TcbInfo tcbInfo))
       = TcbLevelsType.TcbStatus lj.
Proof.
  apply (tcbLevelStatus_monotone (repeat Byte.x03 16) 10 components2 10
           (TcbInfoType.TcbLevels (TcbInfoJSON.TcbInfo tcbInfo)) 1
           (TcbLevelsType.mk (tcb_of Byte.x02 10) "2020-01-01T00:00:00Z" "UpToDate"));
    reflexivity.
Defined.

(** [evalTcbStatus_short_tcbm] at a TCBM of two bytes. *)
Lemma evalTcbStatus_short_tcbm_witness :
  exists msg, evalTcbStatus Unmarshal_TcbInfo "0202" "tcbinfo" = Panics msg.
Proof.
  apply (evalTcbStatus_short_tcbm Unmarshal_TcbInfo "0202" "tcbinfo" [Byte.x02; Byte.x02]);
    [reflexivity | simpl; lia].
Defined.

(** [evalTcbStatus_first_18_bytes] at the sample TCBM followed by one more
    byte. *)
Lemma evalTcbStatus_first_18_bytes_witness :
  evalTcbStatus Unmarshal_TcbInfo (tcbm2 ++ "ff") "tcbinfo"
    = evalTcbStatus Unmarshal_TcbInfo tcbm2 "tcbinfo".
Proof.
  apply (evalTcbStatus_first_18_bytes Unmarshal_TcbInfo tcbm2 (tcbm2 ++ "ff") "tcbinfo"
           components2 Byte.x0a Byte.x00 [Byte.xff]); reflexivity.
Defined.

(** [getTcbStatus_refusals] at a request without a query, and at a request
    for a QE-ID the repository does not hold. *)
Lemma getTcbStatus_refusals_witness :
  getTcbStatus authorized Unmarshal_TcbInfo refresh_request empty_world
    = Done (ReturnedError (resourceError "query data not provided" 400)) empty_world
  /\ exists msg,
       getTcbStatus authorized Unmarshal_TcbInfo status_request empty_world
         = Done (ReturnedError (resourceError msg 404)) empty_world.
Proof.
  split.
  - destruct (getTcbStatus_refusals authorized Unmarshal_TcbInfo refresh_request empty_world)
      as [H _]; [reflexivity|].
    exact (H eq_refl).
  - destruct (getTcbStatus_refusals authorized Unmarshal_TcbInfo status_request empty_world)
      as [_ H]; [reflexivity|].
    destruct H as [_ H]; [discriminate|].
    destruct H as [H _]; [reflexivity|].
    apply H. reflexivity.
Defined.

(** [pushPlatformInfo_answers] at the push without an encrypted PPID: of the
    four answers it is the 400, and the world is as before. *)
Lemma pushPlatformInfo_answers_witness :
  exists msg,
    pushPlatformInfo authorized (pcs "pckcerts") pck_cert_select QueryUnescape
                     Unmarshal_PckCerts base64_EncodeToString bare_request empty_world
      = Done (ReturnedError (resourceError msg 400)) empty_world.
Proof.
  destruct (pushPlatformInfo_answers authorized (pcs "pckcerts") pck_cert_select QueryUnescape
              Unmarshal_PckCerts base64_EncodeToString bare_request empty_world empty_world
              (ReturnedError (resourceError "invalid query param data" 400)))
    as [[[msg H] _]|[[H _]|[H|[msg H]]]];
    [reflexivity | vm_compute; reflexivity | | discriminate H | discriminate H | discriminate H].
  exists msg. rewrite <- H. vm_compute. reflexivity.
Defined.

(** [getBestPckCert_status] at the sample platform and two certificates:
    the library reports success and the index 1. *)
Lemma getBestPckCert_status_witness :
  getBestPckCert pck_cert_select platform ["cert1"; "cert2"] "tcbinfo" = Returns (inr 1%N).
Proof.
  destruct (getBestPckCert_status pck_cert_select platform "cert1" ["cert2"] "tcbinfo"
              Byte.x00 (repeat Byte.x00 15) 256 0 0 1) as [H _];
    [reflexivity | reflexivity | reflexivity | reflexivity |].
  exact (H eq_refl).
Defined.

(** [refreshPlatformInfo_replies] at the repository the sample push left:
    both steps succeed and the reply is 200. *)
Lemma refreshPlatformInfo_replies_witness :
  refreshPlatformInfo authorized (pcs "pckcerts") pck_cert_select QueryUnescape
                      Unmarshal_PckCerts base64_EncodeToString refresh_request
                      served_world
  = Done (Replied 200 (mkResponse "Success" "sgx collaterals refreshed successfully"))
         (outcome_world
            (refreshPlatformInfo authorized (pcs "pckcerts") pck_cert_select QueryUnescape
                                 Unmarshal_PckCerts base64_EncodeToString refresh_request
                                 served_world)).
Proof.
  destruct (refreshPlatformInfo_replies authorized (pcs "pckcerts") pck_cert_select
              QueryUnescape Unmarshal_PckCerts base64_EncodeToString
              refresh_request served_world) as [H _]; [reflexivity|].
  apply H.
  exists (outcome_world
            (refreshPckCerts (pcs "pckcerts") pck_cert_select QueryUnescape
                             Unmarshal_PckCerts served_world)).
  split; vm_compute; reflexivity.
Defined.

(** [refreshPlatformInfo_partial] at the repository that holds the sample
    platform and no PCK CRL: the certificates are fetched and stored, and
    the reply is 404. *)
Lemma refreshPlatformInfo_partial_witness :
  pck_certs (db cached_world) !! qe_id = None
  /\ is_Some (pck_certs (db (outcome_world
                (refreshPckCerts (pcs "pckcerts") pck_cert_select QueryUnescape
                                 Unmarshal_PckCerts cached_world))) !! qe_id)
  /\ refreshPlatformInfo authorized (pcs "pckcerts") pck_cert_select QueryUnescape
                         Unmarshal_PckCerts base64_EncodeToString refresh_request cached_world
     = Done (Replied 404 (mkResponse "Failure" "could not find platform info in database"))
            (outcome_world
               (refreshPckCerts (pcs "pckcerts") pck_cert_select QueryUnescape
                                Unmarshal_PckCerts cached_world)).
Proof.
  split; [reflexivity|]. split; [vm_compute; eauto|].
  apply (refreshPlatformInfo_partial authorized (pcs "pckcerts") pck_cert_select QueryUnescape
           Unmarshal_PckCerts base64_EncodeToString refresh_request cached_world);
    [reflexivity | vm_compute; reflexivity | reflexivity].
Defined.

(** [PlatformRepository_Create_Retrieve] at the sample platform and the
    empty repository. *)
Lemma PlatformRepository_Create_Retrieve_witness :
  exists w',
    PlatformRepository.Create platform empty_world = Done platform w'
    /\ PlatformRepository.Retrieve qe_id w' = Done (Some platform) w'
    /\ PlatformRepository.Delete platform w' = Done tt empty_world.
Proof.
  destruct (PlatformRepository_Create_Retrieve platform empty_world) as [_ H];
    [discriminate|].
  destruct H as (w' & Hc & Hr & _ & _ & _ & Hd); [reflexivity|].
  exists w'. split; [exact Hc|]. split; [exact Hr | exact Hd].
Defined.

(** [PlatformRepository_Update_upsert] at the sample platform, on the
    repository that holds it with another FMSPC. *)
Lemma PlatformRepository_Update_upsert_witness :
  exists w',
    PlatformRepository.Update platform cached_world = Done tt w'
    /\ PlatformRepository.Retrieve (Platform.QeID platform) w' = Done (Some platform) w'
    /\ (forall k, k <> Platform.QeID platform ->
          platforms (db w') !! k = platforms (db cached_world) !! k)
    /\ PlatformRepository.Update platform w' = Done tt w'.
Proof. apply PlatformRepository_Update_upsert. discriminate. Defined.

(** [Repository_Delete] at the sample platform, which the repository holds,
    and at its PlatformTcb row, which the repository does not hold. *)
Lemma Repository_Delete_witness :
  (exists w',
     PlatformRepository.Delete cached_platform cached_world = Done tt w'
     /\ PlatformRepository.Retrieve qe_id w' = Done None w')
  /\ exists w',
       PlatformTcbRepository.Delete platform_tcb cached_world = Done tt w'
       /\ PlatformTcbRepository.Retrieve qe_id w' = Done None w'.
Proof.
  destruct (Repository_Delete qe_id cached_platform platform_tcb cached_world)
    as [(w1 & H1 & H2 & _) (w2 & H3 & H4 & _)];
    [discriminate | reflexivity | reflexivity |].
  split; [exists w1 | exists w2]; by split.
Defined.

(** [cachePlatformTcbInfo_Retrieve] at the insert of the sample platform
    into the empty repository. *)
Lemma cachePlatformTcbInfo_Retrieve_witness :
  match cachePlatformTcbInfo platform tcbm2 constants.CacheInsert empty_world with
  | Done _ w' =>
      PlatformTcbRepository.Retrieve (Platform.QeID platform) w'
        = Done (Some (PlatformTcb.mk (Platform.QeID platform) (Platform.PceID platform)
                                     (Platform.CPUSvn platform) (Platform.PceSvn platform)
                                     tcbm2)) w'
      /\ (constants.CacheInsert = constants.CacheInsert ->
          platform_tcbs (db empty_world) !! Platform.QeID platform = None)
  | Failed _ w' =>
      w' = empty_world /\ constants.CacheInsert = constants.CacheInsert
      /\ is_Some (platform_tcbs (db empty_world) !! Platform.QeID platform)
  | Panicked _ _ => False
  end.
Proof.
  apply (cachePlatformTcbInfo_Retrieve platform tcbm2 constants.CacheInsert empty_world).
  discriminate.
Defined.

(** [GetLazyCacheQEIdentityInfo_RetrieveAll] at a repository whose
    [RetrieveAll] fails: no rows and no error come back. *)
Lemma GetLazyCacheQEIdentityInfo_RetrieveAll_witness :
  lazy_cache_ops.GetLazyCacheQEIdentityInfo unit tt (fun d => mret d) (fun d => mret d)
    (mret (None, Some "RetrieveAll: failed to retrieve all QEIdentity")) empty_world
  = Done None empty_world.
Proof.
  destruct (GetLazyCacheQEIdentityInfo_RetrieveAll unit tt (fun d => mret d) (fun d => mret d)
              (mret (None, Some "RetrieveAll: failed to retrieve all QEIdentity"))
              empty_world empty_world empty_world empty_world tt tt None
              (Some "RetrieveAll: failed to retrieve all QEIdentity"))
    as (_ & H & _); [reflexivity | reflexivity | reflexivity |].
  apply H. right. eauto.
Defined.

(** [Open] against a driver whose first two connections fail: three
    attempts, ten seconds of sleep. *)
Example Open_example :
  postgres.Open (fun s => s) (fun s => s) (fun _ => "5432") unit gorm_Open
                "localhost" 5432 "pgscsdb" "scs" "secret" "disable" "/etc/scs/cert.pem"
  = postgres.mkOpened (inr tt) 3 10.
Proof. reflexivity. Qed.
